(** * Job output: log file and checkpoint lifecycle

    A shallow embedding of [job_output.py] (classes [_LogHelper],
    [_LogSuppress] and [JobOutput]) and of the command [test_job] of
    [main.py], together with the part of their environment the methods act
    on: pure paths as [pathlib] builds them, a POSIX file system, the
    process's standard streams and the clock.

    Conventions of the environment model:
    - one process, sequential; every permission is granted; no symbolic
      links; the POSIX flavour of [pathlib];
    - a file holds a [string], read as its sequence of bytes;
    - an open file handle is the location it was opened at;
    - every primitive that changes the state is an observable instant,
      recorded with its label in the run's list of steps: what an
      interruption after that primitive leaves behind;
    - path resolution follows the kernel: each component is looked up in a
      directory, [".."] goes to the parent; the statements that need the
      file system to be a tree, or a path to be free of [".."], say so
      ([well_formed], [plain]);
    - the command [test_job] is the function of its options that [click]
      calls; [sys.argv], the type of [float] values and their text are
      parameters of it. *)

From Stdlib Require Import String Ascii List Bool Arith Lia.
From stdpp Require Import base option gmap strings list fin_maps pretty.


(** ** Text *)

(** The newline character, Python's ['\n']. *)
Definition nl : string := String "010"%char "".

Definition slash : ascii := "/"%char.

(** [s.split('/')]: the pieces between slashes, empty pieces included. *)
Fixpoint split_slash (s : string) : list string :=
  match s with
  | EmptyString => [EmptyString]
  | String c s' =>
      if Ascii.eqb c slash then EmptyString :: split_slash s'
      else match split_slash s' with
           | [] => [String c EmptyString]
           | w :: ws => String c w :: ws
           end
  end.

Definition starts_with_slash (s : string) : bool :=
  match s with
  | String c _ => Ascii.eqb c slash
  | EmptyString => false
  end.

(** ['/'.join(l)] *)
Fixpoint join_slash (l : list string) : string :=
  match l with
  | [] => ""
  | [x] => x
  | x :: rest => x +:+ "/" +:+ join_slash rest
  end.

(** ** Pure paths ([pathlib.PurePosixPath]) *)

Module pathlib.

(** A pure path: whether it has the root as anchor, and its components.
    Components are never empty and never ["."]; [".."] is kept as it is
    written, for the operating system to resolve. Any run of slashes at
    the start anchors the path at the root. *)
Record Path := mkPath { anchored : bool; parts : list string }.

#[global] Instance Path_eq_dec : EqDecision Path.
Proof. solve_decision. Defined.

(** A component that parsing keeps: neither empty nor ["."]. *)
Definition kept (c : string) : bool :=
  negb (String.eqb c "" || String.eqb c ".").

(** [Path(s)]: split at slashes, drop empty and ["."] components. *)
Definition parse (s : string) : Path :=
  mkPath (starts_with_slash s) (List.filter kept (split_slash s)).

(** [p / s]: an anchored right operand replaces the left one. *)
Definition joinpath (p : Path) (s : string) : Path :=
  let q := parse s in
  if anchored q then q
  else mkPath (anchored p) (parts p ++ parts q).

(** [p.name]: the last component, [''] when there is none. *)
Definition name (p : Path) : string := List.last (parts p) "".

(** [p.parent]: the path without its last component; a path without
    components is its own parent. *)
Definition parent (p : Path) : Path :=
  mkPath (anchored p) (List.removelast (parts p)).

(** [str(p)] *)
Definition str (p : Path) : string :=
  if anchored p then "/" +:+ join_slash (parts p)
  else match parts p with
       | [] => "."
       | _ => join_slash (parts p)
       end.

End pathlib.

Abbreviation Path := pathlib.Path.
Infix "</>" := pathlib.joinpath (at level 40, left associativity).

(** ** The file system *)

(** A location: the components from the root down to a node, innermost
    first, without [".."]. The root is [[]]. *)
Abbreviation loc := (list string).

Inductive node :=
| File (data : string)
| Dir.

#[global] Instance node_eq_dec : EqDecision node.
Proof. solve_decision. Defined.

(** The nodes below the root, by location. The root itself is always a
    directory and has no entry. *)
Abbreviation filesystem := (gmap (list string) node).

Definition node_at (fs : filesystem) (k : loc) : option node :=
  match k with
  | [] => Some Dir
  | _ => fs !! k
  end.

Definition dir_at (fs : filesystem) (k : loc) : bool :=
  match node_at fs k with
  | Some Dir => true
  | _ => false
  end.

Inductive errno :=
| ENOENT      (* FileNotFoundError *)
| ENOTDIR     (* NotADirectoryError *)
| EEXIST      (* FileExistsError *)
| EISDIR      (* IsADirectoryError *)
| ENOTEMPTY   (* OSError: directory not empty *)
| EINVAL      (* OSError: invalid argument *)
| EBADF.      (* OSError: bad file descriptor *)

#[global] Instance errno_eq_dec : EqDecision errno.
Proof. solve_decision. Defined.

(** One component of a walk: [".."] goes to the parent (the root is its own
    parent), any other component to that child. *)
Definition enter (cur : loc) (c : string) : loc :=
  if String.eqb c ".." then List.tl cur else c :: cur.

(** Path resolution as the kernel does it: each component is looked up in
    the node reached so far, which must be a directory. The node finally
    reached need not exist. *)
Fixpoint walk (fs : filesystem) (cur : loc) (cs : list string) : errno + loc :=
  match cs with
  | [] => inr cur
  | c :: cs' =>
      match node_at fs cur with
      | Some Dir => walk fs (enter cur c) cs'
      | Some (File _) => inl ENOTDIR
      | None => inl ENOENT
      end
  end.

(** ** The process *)

Inductive std_fd := Stdout | Stderr.

#[global] Instance std_fd_eq_dec : EqDecision std_fd.
Proof. solve_decision. Defined.

(** The objects that [sys.stdout], [sys.stderr] and the sink attributes of a
    [JobOutput] can hold: Python's [None], the interpreter's own console
    streams, and the two sink classes of [job_output.py], each holding the
    stream it was built around in its attribute [stream]. *)
Inductive stream :=
| NoStream
| Console (fd : std_fd)
| _LogHelper (path : Path) (under : stream)
| _LogSuppress (under : stream).

#[global] Instance stream_eq_dec : EqDecision stream.
Proof. solve_decision. Defined.

(** A [datetime.datetime] value. Its fields are in range by construction in
    Python: 1 <= year <= 9999, 1 <= month <= 12 and so on. *)
Record datetime := mkDatetime {
  year : nat; month : nat; day : nat;
  hour : nat; minute : nat; second : nat
}.

Record process := mkProcess {
  fs : filesystem;
  cwd : loc;
  console_out : string;
  console_err : string;
  sys_stdout : stream;
  sys_stderr : stream;
  clock : datetime
}.

Definition set_fs (f : filesystem -> filesystem) (st : process) : process :=
  mkProcess (f (fs st)) (cwd st) (console_out st) (console_err st)
            (sys_stdout st) (sys_stderr st) (clock st).

Definition set_sys_stdout (s : stream) (st : process) : process :=
  mkProcess (fs st) (cwd st) (console_out st) (console_err st)
            s (sys_stderr st) (clock st).

Definition set_sys_stderr (s : stream) (st : process) : process :=
  mkProcess (fs st) (cwd st) (console_out st) (console_err st)
            (sys_stdout st) s (clock st).

Definition console_append (fd : std_fd) (x : string) (st : process) : process :=
  match fd with
  | Stdout => mkProcess (fs st) (cwd st) (console_out st +:+ x) (console_err st)
                        (sys_stdout st) (sys_stderr st) (clock st)
  | Stderr => mkProcess (fs st) (cwd st) (console_out st) (console_err st +:+ x)
                        (sys_stdout st) (sys_stderr st) (clock st)
  end.

(** ** Exceptions, effects and the monad of methods *)

Inductive exn :=
| LogAlreadyExistsError (msg : string)
| OSError (e : errno)
| UnpicklingError
| AttributeError (attr : string).

#[global] Instance exn_eq_dec : EqDecision exn.
Proof. solve_decision. Defined.

(** The externally visible effects. *)
Inductive step :=
| StMkdir (k : loc)
| StCreate (k : loc)
| StTruncate (k : loc)
| StWrite (k : loc)
| StUnlink (k : loc)
| StRename (src dst : loc)
| StConsole (fd : std_fd).

#[global] Instance step_eq_dec : EqDecision step.
Proof. solve_decision. Defined.

Inductive outcome (A : Type) :=
| Ok (a : A)
| Raise (e : exn).
Arguments Ok {A} a.
Arguments Raise {A} e.

(** What running a method from a state gives: the effects in order, each
    with the state it leaves; the state at the end; the value returned or
    the exception that escaped. *)
Record run (A : Type) := Run {
  steps : list (step * process);
  final : process;
  value : outcome A
}.
Arguments Run {A} steps final value.
Arguments steps {A} r.
Arguments final {A} r.
Arguments value {A} r.

Definition M (A : Type) : Type := process -> run A.

Definition ret {A} (a : A) : M A := fun st => Run [] st (Ok a).

Definition raise {A} (e : exn) : M A := fun st => Run [] st (Raise e).

Definition bind {A B} (m : M A) (f : A -> M B) : M B := fun st =>
  let r := m st in
  match value r with
  | Ok a => let r' := f a (final r) in
            Run (steps r ++ steps r') (final r') (value r')
  | Raise e => Run (steps r) (final r) (Raise e)
  end.

(** [try: m  except exn as e: h e] *)
Definition catch {A} (m : M A) (h : exn -> M A) : M A := fun st =>
  let r := m st in
  match value r with
  | Ok _ => r
  | Raise e => let r' := h e (final r) in
               Run (steps r ++ steps r') (final r') (value r')
  end.

Definition get : M process := fun st => Run [] st (Ok st).

(** A change of the process's own memory: no outside effect. *)
Definition assign (f : process -> process) : M unit := fun st =>
  Run [] (f st) (Ok tt).

(** An effect on the outside: one observable instant. *)
Definition effect (l : step) (f : process -> process) : M unit := fun st =>
  Run [(l, f st)] (f st) (Ok tt).

Declare Scope job_scope.
Delimit Scope job_scope with job.
Notation "x <- m ;; k" := (bind m (fun x => k))
  (at level 100, m at next level, k at level 200, right associativity) : job_scope.
Notation "m ;; k" := (bind m (fun _ => k))
  (at level 100, k at level 200, right associativity) : job_scope.
Open Scope job_scope.

(** The states a run passes through: where it starts, then the state after
    each effect. An interruption leaves one of them behind. *)
Definition instants {A} (r : run A) (st : process) : list process :=
  st :: List.map snd (steps r).

(** ** File-system calls *)

(** Where the resolution of a path starts. *)
Definition start_of (p : Path) (st : process) : loc :=
  if pathlib.anchored p then [] else cwd st.

(** The location a path resolves to, or the error of the walk. *)
Definition locate (p : Path) (st : process) : errno + loc :=
  walk (fs st) (start_of p st) (pathlib.parts p).

(** [os.stat(p)] *)
Definition stat (p : Path) (st : process) : errno + node :=
  match locate p st with
  | inl e => inl e
  | inr k => match node_at (fs st) k with
             | Some n => inr n
             | None => inl ENOENT
             end
  end.

Definition exists_in (st : process) (p : Path) : bool :=
  match stat p st with inr _ => true | inl _ => false end.

Definition is_file_in (st : process) (p : Path) : bool :=
  match stat p st with inr (File _) => true | _ => false end.

Definition is_dir_in (st : process) (p : Path) : bool :=
  match stat p st with inr Dir => true | _ => false end.

(** [p.exists()], [p.is_file()], [p.is_dir()]: an error of [stat] is an
    answer of [False]. *)
Definition Path_exists (p : Path) : M bool :=
  st <- get ;; ret (exists_in st p).

Definition Path_is_file (p : Path) : M bool :=
  st <- get ;; ret (is_file_in st p).

Definition Path_is_dir (p : Path) : M bool :=
  st <- get ;; ret (is_dir_in st p).

(** [os.mkdir(p)] *)
Definition os_mkdir (p : Path) : M unit :=
  st <- get ;;
  match locate p st with
  | inl e => raise (OSError e)
  | inr k =>
      match node_at (fs st) k with
      | Some _ => raise (OSError EEXIST)
      | None => effect (StMkdir k) (set_fs (insert k Dir))
      end
  end.

(** [p.mkdir(parents=False, exist_ok=exist_ok)]: [FileNotFoundError] is
    raised again; any other [OSError] is swallowed when [exist_ok] holds
    and the path is a directory. *)
Definition mkdir_leaf (exist_ok : bool) (p : Path) : M unit :=
  catch (os_mkdir p) (fun e =>
    match e with
    | OSError ENOENT => raise e
    | OSError _ =>
        d <- Path_is_dir p ;;
        if exist_ok && d then ret tt else raise e
    | _ => raise e
    end).

(** [p.mkdir(parents=True, exist_ok=exist_ok)] for the path with the
    components [rev rparts]: on [FileNotFoundError] the parent is made with
    [parents=True, exist_ok=True] and the directory itself is tried once
    more; a path without components is its own parent and raises. *)
Fixpoint mkdir_parents (exist_ok : bool) (a : bool) (rparts : list string)
  : M unit :=
  let p := pathlib.mkPath a (rev rparts) in
  catch (os_mkdir p) (fun e =>
    match e with
    | OSError ENOENT =>
        match rparts with
        | [] => raise e
        | _ :: rest => mkdir_parents true a rest ;; mkdir_leaf exist_ok p
        end
    | OSError _ =>
        d <- Path_is_dir p ;;
        if exist_ok && d then ret tt else raise e
    | _ => raise e
    end).

(** [p.mkdir(parents=parents, exist_ok=exist_ok)] *)
Definition Path_mkdir (p : Path) (parents exist_ok : bool) : M unit :=
  if parents
  then mkdir_parents exist_ok (pathlib.anchored p) (rev (pathlib.parts p))
  else mkdir_leaf exist_ok p.

(** [p.open('a+')]: the file is created when missing and kept otherwise. *)
Definition Path_open_append (p : Path) : M loc :=
  st <- get ;;
  match locate p st with
  | inl e => raise (OSError e)
  | inr k =>
      match node_at (fs st) k with
      | Some Dir => raise (OSError EISDIR)
      | Some (File _) => ret k
      | None => effect (StCreate k) (set_fs (insert k (File ""))) ;; ret k
      end
  end.

(** [p.open('wb')]: the file is created when missing and emptied otherwise. *)
Definition Path_open_wb (p : Path) : M loc :=
  st <- get ;;
  match locate p st with
  | inl e => raise (OSError e)
  | inr k =>
      match node_at (fs st) k with
      | Some Dir => raise (OSError EISDIR)
      | Some (File _) => effect (StTruncate k) (set_fs (insert k (File ""))) ;; ret k
      | None => effect (StCreate k) (set_fs (insert k (File ""))) ;; ret k
      end
  end.

(** [f.write(x)] on a handle: the bytes go to the end of the file. *)
Definition file_write (f : loc) (x : string) : M unit :=
  st <- get ;;
  match fs st !! f with
  | Some (File d) => effect (StWrite f) (set_fs (insert f (File (d +:+ x))))
  | _ => raise (OSError EBADF)
  end.

(** [f.writelines(lines)] *)
Fixpoint file_writelines (f : loc) (lines : list string) : M unit :=
  match lines with
  | [] => ret tt
  | x :: rest => file_write f x ;; file_writelines f rest
  end.

(** [p.unlink()] *)
Definition Path_unlink (p : Path) : M unit :=
  st <- get ;;
  match locate p st with
  | inl e => raise (OSError e)
  | inr k =>
      match node_at (fs st) k with
      | None => raise (OSError ENOENT)
      | Some Dir => raise (OSError EISDIR)
      | Some (File _) => effect (StUnlink k) (set_fs (delete k))
      end
  end.

(** [below d k]: the components of [k] under [d], when [k] is [d] or lies
    under it. *)
Definition below (d k : loc) : option loc :=
  let n := length k - length d in
  if decide (drop n k = d) then Some (take n k) else None.

(** Whether directory [d] has an entry. *)
Definition has_entries (m : filesystem) (d : loc) : bool :=
  existsb (fun kv => match below d (fst kv) with
                     | Some (_ :: _) => true
                     | _ => false
                     end) (map_to_list m).

(** The tree at [src] moved to [dst], over an empty directory there if any. *)
Definition move_tree (src dst : loc) (m : filesystem) : filesystem :=
  map_fold (fun k v acc =>
    match below src k with
    | Some pre => <[pre ++ dst := v]> acc
    | None => match below dst k with
              | Some _ => acc
              | None => <[k := v]> acc
              end
    end) ∅ m.

(** [src.rename(dst)], POSIX [rename(2)]: a file replaces a file, a
    directory replaces an empty directory. *)
Definition Path_rename (src dst : Path) : M unit :=
  st <- get ;;
  match locate src st, locate dst st with
  | inl e, _ => raise (OSError e)
  | inr _, inl e => raise (OSError e)
  | inr ks, inr kd =>
      match node_at (fs st) ks, node_at (fs st) kd with
      | None, _ => raise (OSError ENOENT)
      | Some (File d), Some Dir => raise (OSError EISDIR)
      | Some (File d), _ =>
          effect (StRename ks kd) (set_fs (fun m => <[kd := File d]> (delete ks m)))
      | Some Dir, Some (File _) => raise (OSError ENOTDIR)
      | Some Dir, _ =>
          if decide (ks = kd) then ret tt
          else match below ks kd with
               | Some _ => raise (OSError EINVAL)
               | None =>
                   if has_entries (fs st) kd then raise (OSError ENOTEMPTY)
                   else effect (StRename ks kd) (set_fs (move_tree ks kd))
               end
      end
  end.

(** [p.read_bytes()], as [torch.load] reads its file. *)
Definition Path_read (p : Path) : M string :=
  st <- get ;;
  match stat p st with
  | inl e => raise (OSError e)
  | inr Dir => raise (OSError EISDIR)
  | inr (File d) => ret d
  end.

(** ** The sinks: [_LogHelper] and [_LogSuppress] *)

(** [s.write(x)]. [_LogHelper.write] appends to the log file in one
    open/close cycle, then writes to the stream it holds;
    [_LogSuppress.write] does nothing. *)
Fixpoint stream_write (s : stream) (x : string) : M unit :=
  match s with
  | NoStream => raise (AttributeError "write")
  | Console fd => effect (StConsole fd) (console_append fd x)
  | _LogHelper path under =>
      f_out <- Path_open_append path ;;
      file_write f_out x ;;
      stream_write under x
  | _LogSuppress _ => ret tt
  end.

(** [s.flush()]. [_LogHelper.flush] flushes the stream it holds;
    [_LogSuppress.flush] does nothing. A console's buffer is not modelled:
    what is written to it is on it. *)
Fixpoint stream_flush (s : stream) : M unit :=
  match s with
  | NoStream => raise (AttributeError "flush")
  | Console _ => ret tt
  | _LogHelper _ under => stream_flush under
  | _LogSuppress _ => ret tt
  end.

(** [s.stream] *)
Definition stream_attr (s : stream) : M stream :=
  match s with
  | _LogHelper _ under => ret under
  | _LogSuppress under => ret under
  | _ => raise (AttributeError "stream")
  end.

(** ** The clock *)

Definition digit (n : nat) : ascii := ascii_of_nat (48 + n mod 10).

Definition two_digits (n : nat) : string :=
  String (digit (n / 10)) (String (digit n) "").

Definition four_digits (n : nat) : string :=
  String (digit (n / 1000)) (String (digit (n / 100)) (two_digits n)).

(** [d.strftime('%Y-%m-%d %H:%M:%S')]: each field in decimal, padded with
    zeros to its width. (The C library may leave a year below 1000
    unpadded; [datetime.now()] gives none.) *)
Definition strftime (d : datetime) : string :=
  four_digits (year d) +:+ "-" +:+ two_digits (month d) +:+ "-" +:+
  two_digits (day d) +:+ " " +:+ two_digits (hour d) +:+ ":" +:+
  two_digits (minute d) +:+ ":" +:+ two_digits (second d).

(** [datetime.datetime.now()] *)
Definition datetime_now : M datetime :=
  st <- get ;; ret (clock st).

(** ** Serialization: [torch.save] and [torch.load] *)

(** The encoding of records that [torch] provides. [loads] gives [None] on
    bytes that do not load. The records are those of one type [R]: a file
    that holds another object, Python's [None] included, which [torch.load]
    returns as it is, is outside the model. *)
Class Pickle (R : Type) := {
  dumps : R -> string;
  loads : string -> option R
}.

(** A record is in the supported domain when its bytes load back to it. *)
Definition supported {R} `{Pickle R} (r : R) : Prop :=
  loads (dumps r) = Some r.

(** Bytes reach an open file one after the other. *)
Fixpoint write_each (f : loc) (s : string) : M unit :=
  match s with
  | EmptyString => ret tt
  | String c s' => file_write f (String c "") ;; write_each f s'
  end.

(** [torch.save(data, f)] *)
Definition torch_save {R} `{Pickle R} (data : R) (f : loc) : M unit :=
  write_each f (dumps data).

(** [torch.load(p, map_location=map_location)]; the location is a hint for
    where tensors are placed and does not change the record. On bytes that
    do not load the code raises [pickle.UnpicklingError], or [EOFError]
    where there are no bytes at all; [UnpicklingError] stands for both. *)
Definition torch_load {R} `{Pickle R} (p : Path) (map_location : option string)
  : M R :=
  d <- Path_read p ;;
  match loads d with
  | Some r => ret r
  | None => raise UnpicklingError
  end.

(** ** [class JobOutput] *)

Record JobOutput := mkJobOutput {
  is_main : bool;
  enabled : bool;
  log_path : option Path;
  job_dir : option Path;
  checkpoint_path : option Path;
  __stdout : stream;
  __stderr : stream
}.

(** [job_name not in {'', 'none'}] *)
Definition name_enabled (job_name : string) : bool :=
  negb (String.eqb job_name "" || String.eqb job_name "none").

(** [pathlib.Path('logs_and_output') / job_group] *)
Definition output_dir_of (job_group : string) : Path :=
  pathlib.parse "logs_and_output" </> job_group.

Definition starting_banner (job_group job_name ts : string) : string :=
  "Starting job " +:+ job_group +:+ "/" +:+ job_name +:+ " at " +:+ ts +:+ nl.

Definition continuing_banner (job_group job_name ts : string) : string :=
  "=====" +:+ nl +:+
  "Continuing job " +:+ job_group +:+ "/" +:+ job_name +:+ " at " +:+ ts +:+ nl.

(** [JobOutput(job_group, job_name, continue_job, is_main)] *)
Definition __init__ (job_group job_name : string) (continue_job is_main : bool)
  : M JobOutput :=
  let output_dir := output_dir_of job_group in
  Path_mkdir output_dir true true ;;
  let enabled := name_enabled job_name in
  if enabled then
    let log_path := output_dir </> ("log_" +:+ job_name +:+ ".txt") in
    let job_dir := output_dir </> job_name in
    let checkpoint_path := job_dir </> "ckpt.pth" in
    (if is_main then
       log_exists <- Path_exists log_path ;;
       intro_lines <-
         (if log_exists then
            if continue_job then
              now <- datetime_now ;;
              ret [continuing_banner job_group job_name (strftime now)]
            else
              raise (LogAlreadyExistsError
                       ("Log file " +:+ pathlib.str log_path +:+ " already exists."))
          else
            now <- datetime_now ;;
            ret [starting_banner job_group job_name (strftime now)]) ;;
       f <- Path_open_append log_path ;;
       file_writelines f intro_lines
     else ret tt) ;;
    st <- get ;;
    if is_main then
      ret (mkJobOutput is_main enabled (Some log_path) (Some job_dir)
             (Some checkpoint_path)
             (_LogHelper log_path (sys_stdout st))
             (_LogHelper log_path (sys_stderr st)))
    else
      ret (mkJobOutput is_main enabled (Some log_path) (Some job_dir)
             (Some checkpoint_path)
             (_LogSuppress (sys_stdout st))
             (_LogSuppress (sys_stderr st)))
  else
    ret (mkJobOutput is_main enabled None None None NoStream NoStream).

(** [self.connect_streams()] *)
Definition connect_streams (self : JobOutput) : M unit :=
  match __stdout self with
  | NoStream => ret tt
  | out =>
      assign (set_sys_stdout out) ;;
      assign (set_sys_stderr (__stderr self))
  end.

(** [self.disconnect_streams()] *)
Definition disconnect_streams (self : JobOutput) : M unit :=
  match __stdout self with
  | NoStream => ret tt
  | out =>
      s <- stream_attr out ;;
      assign (set_sys_stdout s) ;;
      e <- stream_attr (__stderr self) ;;
      assign (set_sys_stderr e)
  end.

(** [self.checkpoint_exists()] *)
Definition checkpoint_exists (self : JobOutput) : M bool :=
  match checkpoint_path self with
  | Some p => Path_is_file p
  | None => ret false
  end.

(** [self.read_checkpoint(map_location)] *)
Definition read_checkpoint {R} `{Pickle R} (self : JobOutput)
    (map_location : option string) : M (option R) :=
  match checkpoint_path self with
  | Some p =>
      there <- checkpoint_exists self ;;
      if there then r <- torch_load p map_location ;; ret (Some r)
      else ret None
  | None => ret None
  end.

(** [self.write_checkpoint(data)] *)
Definition write_checkpoint {R} `{Pickle R} (self : JobOutput) (data : R)
  : M unit :=
  match checkpoint_path self with
  | Some ckpt =>
      if is_main self then
        match job_dir self with
        | Some d => Path_mkdir d true true
        | None => raise (AttributeError "mkdir")
        end ;;
        let new_path := pathlib.parent ckpt </> (pathlib.name ckpt +:+ ".new") in
        f_ckpt <- Path_open_wb new_path ;;
        torch_save data f_ckpt ;;
        old <- Path_exists ckpt ;;
        (if old then Path_unlink ckpt else ret tt) ;;
        Path_rename new_path ckpt
      else ret tt
  | None => ret tt
  end.

(** [self.get_output_file_path(filename)] *)
Definition get_output_file_path (self : JobOutput) (filename : string)
  : M (option Path) :=
  match job_dir self with
  | Some d => Path_mkdir d true true ;; ret (Some (d </> filename))
  | None => ret None
  end.

(** [sys.stdout.write(x)] and [sys.stderr.write(x)], as [print] and the
    interpreter issue them on whatever object is installed. *)
Definition sys_stdout_write (x : string) : M unit :=
  st <- get ;; stream_write (sys_stdout st) x.

Definition sys_stderr_write (x : string) : M unit :=
  st <- get ;; stream_write (sys_stderr st) x.

Definition sys_stdout_flush : M unit :=
  st <- get ;; stream_flush (sys_stdout st).

Definition sys_stderr_flush : M unit :=
  st <- get ;; stream_flush (sys_stderr st).

(** A call on the standard streams. *)
Inductive output_call :=
| WriteOut (x : string)
| WriteErr (x : string)
| FlushOut
| FlushErr.

Definition output (c : output_call) : M unit :=
  match c with
  | WriteOut x => sys_stdout_write x
  | WriteErr x => sys_stderr_write x
  | FlushOut => sys_stdout_flush
  | FlushErr => sys_stderr_flush
  end.

Fixpoint outputs (cs : list output_call) : M unit :=
  match cs with
  | [] => ret tt
  | c :: rest => output c ;; outputs rest
  end.

(** ** Views of the state used in the statements *)

(** The paths of a job, as [__init__] computes them. *)
Definition log_path_of (job_group job_name : string) : Path :=
  output_dir_of job_group </> ("log_" +:+ job_name +:+ ".txt").

Definition job_dir_of (job_group job_name : string) : Path :=
  output_dir_of job_group </> job_name.

Definition checkpoint_path_of (job_group job_name : string) : Path :=
  job_dir_of job_group job_name </> "ckpt.pth".

(** What a path resolves to: a node, or nothing. *)
Definition resolves (st : process) (p : Path) : option node :=
  match stat p st with
  | inr n => Some n
  | inl _ => None
  end.

(** The bytes of the regular file at a path, if there is one. *)
Definition file_at (st : process) (p : Path) : option string :=
  match stat p st with
  | inr (File d) => Some d
  | _ => None
  end.

(** A path none of whose components is [".."]. *)
Definition plain (p : Path) : Prop := ".." ∉ pathlib.parts p.

(** The file system is a tree, and the working directory is in it: the
    parent of every node is a directory. *)
Definition well_formed (st : process) : Prop :=
  map_Forall (fun k _ => dir_at (fs st) (List.tl k) = true) (fs st) /\
  dir_at (fs st) (cwd st) = true.

#[global] Instance well_formed_dec st : Decision (well_formed st).
Proof. unfold well_formed. apply _. Defined.

#[global] Instance plain_dec p : Decision (plain p).
Proof. unfold plain. apply _. Defined.

(** The steps of a run are linked by [T] from [st] to [fin]. *)
Inductive chain (T : process -> step -> process -> Prop)
  : process -> list (step * process) -> process -> Prop :=
| chain_nil st : chain T st [] st
| chain_cons st l s rest fin :
    T st l s -> chain T s rest fin -> chain T st ((l, s) :: rest) fin.

Definition is_rename (l : step) : bool :=
  match l with StRename _ _ => true | _ => false end.

Definition is_unlink (l : step) : bool :=
  match l with StUnlink _ => true | _ => false end.

Definition is_mkdir (l : step) : bool :=
  match l with StMkdir _ => true | _ => false end.

(** The form [YYYY-MM-DD HH:MM:SS]. *)
Definition is_digit (c : ascii) : bool :=
  (48 <=? nat_of_ascii c) && (nat_of_ascii c <=? 57).

Definition timestamp_form (s : string) : bool :=
  match list_ascii_of_string s with
  | [y1; y2; y3; y4; d1; m1; m2; d2; a1; a2; sp; h1; h2; c1; n1; n2; c2; s1; s2] =>
      forallb is_digit [y1; y2; y3; y4; m1; m2; a1; a2; h1; h2; n1; n2; s1; s2]
      && forallb (Ascii.eqb "-"%char) [d1; d2]
      && Ascii.eqb sp " "%char
      && forallb (Ascii.eqb ":"%char) [c1; c2]
  | _ => false
  end.

(** A method runs by [T] from [st] when its steps are linked by [T]. *)
Definition runs_by {A} (T : process -> step -> process -> Prop) (m : M A)
    (st : process) : Prop :=
  chain T st (steps (m st)) (final (m st)).

(** Every directory of [m] is a directory of [m']. *)
Definition dirs_kept (m m' : filesystem) : Prop :=
  forall k, dir_at m k = true -> dir_at m' k = true.

(** The one effect of making directories for the path with the components
    [rev rparts]: a directory appears where a leading part of the path
    resolves and nothing was. *)
Definition made_dir (a : bool) (rparts : list string)
    (st : process) (l : step) (st' : process) : Prop :=
  exists k sfx,
    l = StMkdir k /\ sfx `suffix_of` rparts /\
    locate (pathlib.mkPath a (rev sfx)) st = inr k /\
    node_at (fs st) k = None /\
    st' = set_fs (insert k Dir) st.

(** A run raises nothing but [OSError]. *)
Definition only_OSError {A} (r : run A) : Prop :=
  forall e, value r = Raise e -> exists eno, e = OSError eno.

(** A step that changes the file system and nothing else of the process. *)
Definition fs_changed (st : process) (l : step) (st' : process) : Prop :=
  exists f, st' = set_fs f st.

(** Two states of a process that differ in the file system at most. *)
Definition same_process (st st' : process) : Prop :=
  cwd st' = cwd st /\ console_out st' = console_out st /\
  console_err st' = console_err st /\ sys_stdout st' = sys_stdout st /\
  sys_stderr st' = sys_stderr st /\ clock st' = clock st.

(** The rest of [write_checkpoint] once the job directory is made. *)
Definition save_after_mkdir {R} `{Pickle R} (ckpt : Path) (data : R) : M unit :=
  let new_path := pathlib.parent ckpt </> (pathlib.name ckpt +:+ ".new") in
  f_ckpt <- Path_open_wb new_path ;;
  torch_save data f_ckpt ;;
  old <- Path_exists ckpt ;;
  (if old then Path_unlink ckpt else ret tt) ;;
  Path_rename new_path ckpt.

(** The job directory [d] is the directory at [D]. *)
Definition at_job_dir (d : Path) (D : loc) (st : process) : Prop :=
  locate d st = inr D /\ dir_at (fs st) D = true.

(** The steps of a save in the job directory at [D]: the temporary file is
    opened and written, the old checkpoint is unlinked, the temporary file
    is renamed to the checkpoint. *)
Inductive save_step (D : loc) (bytes : string)
  : process -> step -> process -> Prop :=
| save_open st l :
    l = StCreate ("ckpt.pth.new" :: D) \/ l = StTruncate ("ckpt.pth.new" :: D) ->
    node_at (fs st) ("ckpt.pth.new" :: D) <> Some Dir ->
    save_step D bytes st l (set_fs (insert ("ckpt.pth.new" :: D) (File "")) st)
| save_write st d x :
    fs st !! ("ckpt.pth.new" :: D) = Some (File d) ->
    save_step D bytes st (StWrite ("ckpt.pth.new" :: D))
      (set_fs (insert ("ckpt.pth.new" :: D) (File (d +:+ x))) st)
| save_unlink st d :
    fs st !! ("ckpt.pth" :: D) = Some (File d) ->
    save_step D bytes st (StUnlink ("ckpt.pth" :: D))
      (set_fs (delete ("ckpt.pth" :: D)) st)
| save_rename st :
    fs st !! ("ckpt.pth.new" :: D) = Some (File bytes) ->
    fs st !! ("ckpt.pth" :: D) = None ->
    save_step D bytes st (StRename ("ckpt.pth.new" :: D) ("ckpt.pth" :: D))
      (set_fs (fun m => <["ckpt.pth" :: D := File bytes]>
                          (delete ("ckpt.pth.new" :: D) m)) st).

(** What is shown of a run [r] of a save, or of the rest of one, from [st]
    in the job directory [d] at [D]: its steps are steps of a save, only
    [OSError] escapes, and when it returns the checkpoint path holds
    [bytes]. *)
Definition save_spec (d : Path) (D : loc) (bytes : string)
    (st : process) (r : run unit) : Prop :=
  chain (save_step D bytes) st (steps r) (final r) /\
  only_OSError r /\
  (value r = Ok tt -> file_at (final r) (d </> "ckpt.pth") = Some bytes).

(** The parent of every node of [m] is a directory. *)
Definition tree (m : filesystem) : Prop :=
  map_Forall (fun k _ => dir_at m (List.tl k) = true) m.

(** A step that makes a directory and leaves what path [q] resolves to as
    it was. *)
Definition mkdir_aside (q : Path) (st : process) (l : step) (st' : process)
  : Prop :=
  is_mkdir l = true /\ resolves st' q = resolves st q.

(** A step that writes a regular file: over a regular file, or at a place
    that a path reaches and where nothing is. *)
Definition file_step (st : process) (l : step) (st' : process) : Prop :=
  exists k d,
    st' = set_fs (insert k (File d)) st /\
    ((exists d0, fs st !! k = Some (File d0)) \/
     (node_at (fs st) k = None /\ exists p, locate p st = inr k)).

(** A step of a construction for the job_group directory with the
    components [rev rparts]: a directory of it is made, or the log file is
    written. *)
Definition init_step (a : bool) (rparts : list string)
    (st : process) (l : step) (st' : process) : Prop :=
  made_dir a rparts st l st' \/ file_step st l st'.

(** What a step of a save does to what the checkpoint path resolves to:
    nothing, unless it is the unlink, after which the path resolves to
    nothing, or the rename, after which it resolves to the new file. *)
Definition ckpt_step (ckpt : Path) (bytes : string)
    (st : process) (l : step) (st' : process) : Prop :=
  (is_rename l = false /\ is_unlink l = false /\
   resolves st' ckpt = resolves st ckpt) \/
  (is_unlink l = true /\ resolves st' ckpt = None) \/
  (is_rename l = true /\ resolves st' ckpt = Some (File bytes)).

(** ** Sample states and records *)

Definition sample_clock : datetime := mkDatetime 2024 3 7 9 5 0.

(** A process in an empty root directory, with the console streams. *)
Definition fresh_process : process :=
  mkProcess ∅ [] "" "" (Console Stdout) (Console Stderr) sample_clock.

(** A process whose working directory holds a regular file named
    [logs_and_output]. *)
Definition blocked_process : process :=
  mkProcess {[ ["logs_and_output"] := File "" ]} [] "" ""
            (Console Stdout) (Console Stderr) sample_clock.

(** Records that are lists of small numbers, one byte each; a number above
    255 is outside the supported domain. *)
Definition byte_pickle : Pickle (list nat) := {|
  dumps := fun l => string_of_list_ascii (List.map ascii_of_nat l);
  loads := fun s => Some (List.map nat_of_ascii (list_ascii_of_string s))
|}.

(** The facade of the main unit of job [exp1/run1], constructed with the
    console streams in place. *)
Definition sample_facade : JobOutput :=
  mkJobOutput true true
    (Some (log_path_of "exp1" "run1")) (Some (job_dir_of "exp1" "run1"))
    (Some (checkpoint_path_of "exp1" "run1"))
    (_LogHelper (log_path_of "exp1" "run1") (Console Stdout))
    (_LogHelper (log_path_of "exp1" "run1") (Console Stderr)).

(** The process after job [exp1/run1] has started in an empty directory and
    its main unit has saved the record [[1; 2; 3]]. *)
Definition saved_process : process :=
  final (write_checkpoint (H := byte_pickle) sample_facade [1; 2; 3]
           (final (__init__ "exp1" "run1" false true fresh_process))).

(** ** The temporary file, what is written, and more sample states *)

(** The temporary file of a save:
    [checkpoint_path.parent / (checkpoint_path.name + '.new')]. *)
Definition new_path_of (job_group job_name : string) : Path :=
  let ckpt := checkpoint_path_of job_group job_name in
  pathlib.parent ckpt </> (pathlib.name ckpt +:+ ".new").

(** A process in which the checkpoint path of job [exp1/run1] is a
    directory. *)
Definition directory_process : process :=
  final (Path_mkdir (checkpoint_path_of "exp1" "run1") true true fresh_process).

(** What a sequence of calls writes, to both standard streams together and
    to each of them. *)
Fixpoint written (cs : list output_call) : string :=
  match cs with
  | [] => ""
  | WriteOut x :: rest => x +:+ written rest
  | WriteErr x :: rest => x +:+ written rest
  | _ :: rest => written rest
  end.

Fixpoint written_to (fd : std_fd) (cs : list output_call) : string :=
  match cs with
  | [] => ""
  | WriteOut x :: rest =>
      match fd with
      | Stdout => x +:+ written_to fd rest
      | Stderr => written_to fd rest
      end
  | WriteErr x :: rest =>
      match fd with
      | Stdout => written_to fd rest
      | Stderr => x +:+ written_to fd rest
      end
  | _ :: rest => written_to fd rest
  end.

(** The last character of a text. *)
Fixpoint last_char (s : string) : option ascii :=
  match s with
  | EmptyString => None
  | String c EmptyString => Some c
  | String _ s' => last_char s'
  end.

(** The process after job [exp1/run1] has started in an empty directory and
    its log file has been removed. *)
Definition log_removed_process : process :=
  final (Path_unlink (log_path_of "exp1" "run1")
           (final (__init__ "exp1" "run1" false true fresh_process))).

(** A process in which the log path of job [exp1/run1] is a directory. *)
Definition log_directory_process : process :=
  final (Path_mkdir (log_path_of "exp1" "run1") true true fresh_process).

(** ** The driver: [main.py] *)

(** [JOB_GROUP = 'test_job'] *)
Definition JOB_GROUP : string := "test_job".

(** [sep.join(l)] *)
Fixpoint join (sep : string) (l : list string) : string :=
  match l with
  | [] => ""
  | [x] => x
  | x :: rest => x +:+ sep +:+ join sep rest
  end.

(** [print(x)]: the text, then the newline, each by one [write] on the
    object that [sys.stdout] holds when [print] is called; nothing when it
    holds [None]. *)
Definition print (x : string) : M unit :=
  st <- get ;;
  match sys_stdout st with
  | NoStream => ret tt
  | out => stream_write out x ;; stream_write out nl
  end.

(** [sorted(l)] on strings, which Python orders by code point. *)
Fixpoint insert_sorted (x : string) (l : list string) : list string :=
  match l with
  | [] => [x]
  | y :: rest => if String.leb x y then x :: l else y :: insert_sorted x rest
  end.

Definition sorted (l : list string) : list string :=
  List.fold_right insert_sorted [] l.

(** The checkpoint of the driver, [dict(timestamps=[...])]. The checkpoint
    file is taken to hold one of these or bytes that do not load; a file
    that holds another object, on which Python fails at the subscript, is
    outside the model. *)
Record checkpoint := mkCheckpoint { timestamps : list datetime }.

Section Driver.

(** The type of [float] values and their text, [str(w)]. *)
Context {float : Type} (float_str : float -> string).
Context `{Pickle checkpoint}.

(** [sys.argv] *)
Context (argv : list string).

(** The values of the options of the command. *)
Inductive option_value :=
| VStr (s : string)
| VInt (z : Z)
| VFloat (w : float)
| VBool (b : bool).

(** ['{}'.format(v)] *)
Definition format_value (v : option_value) : string :=
  match v with
  | VStr s => s
  | VInt z => pretty z
  | VFloat w => float_str w
  | VBool b => if b then "True" else "False"
  end.

(** [settings[k]]; the keys asked for are keys of [settings]. *)
Definition getitem (settings : list (string * option_value)) (k : string)
  : option option_value :=
  snd <$> List.find (fun kv => String.eqb (fst kv) k) settings.

(** [', '.join(['{}={}'.format(k, settings[k])
                for k in sorted(settings.keys())])] *)
Definition settings_line (settings : list (string * option_value)) : string :=
  join ", "
    (List.map (fun k => k +:+ "=" +:+
                        from_option format_value "" (getitem settings k))
              (sorted (List.map fst settings))).

(** [test_job(job_name, dataset, num_runs, weight, continue_from_check)].
    [settings] is taken from the arguments as they are passed, before the
    job name is chosen. Subscripting [None] is an error. With records of
    one type, [read_checkpoint] gives [None] only where there is no
    checkpoint file, which the test before the call excludes; in the code
    it also gives [None] for a file that holds a pickled [None], and the
    subscript then fails with [TypeError]. *)
Definition test_job (job_name dataset : string) (num_runs : Z) (weight : float)
    (continue_from_check : bool) : M unit :=
  let settings := [("job_name", VStr job_name); ("dataset", VStr dataset);
                   ("num_runs", VInt num_runs); ("weight", VFloat weight);
                   ("continue_from_check", VBool continue_from_check)] in
  let job_name := if String.eqb job_name "" then "test_" +:+ dataset
                  else job_name in
  job_out <- __init__ JOB_GROUP job_name continue_from_check true ;;
  connect_streams job_out ;;
  print "Command line:" ;;
  print (join " " argv) ;;
  print "Settings:" ;;
  print (settings_line settings) ;;
  there <- (if continue_from_check then checkpoint_exists job_out
            else ret false) ;;
  checkpoint <- (if there then
                   r <- read_checkpoint job_out (Some "cpu") ;;
                   match r with
                   | Some c => ret c
                   | None => raise (AttributeError "__getitem__")
                   end
                 else ret (mkCheckpoint [])) ;;
  now <- datetime_now ;;
  write_checkpoint job_out (mkCheckpoint (timestamps checkpoint ++ [now])).

End Driver.

(** The job a run of the driver works on: [test_<dataset>] when no name is
    given. *)
Definition job_name_used (job_name dataset : string) : string :=
  if String.eqb job_name "" then "test_" +:+ dataset else job_name.

(** The four lines a run of the driver prints. *)
Definition driver_lines {float} (float_str : float -> string)
    (argv : list string) (job_name dataset : string) (num_runs : Z)
    (weight : float) (continue_from_check : bool) : string :=
  "Command line:" +:+ nl +:+ join " " argv +:+ nl +:+
  "Settings:" +:+ nl +:+
  "continue_from_check=" +:+ (if continue_from_check then "True" else "False")
  +:+ ", dataset=" +:+ dataset +:+ ", job_name=" +:+ job_name
  +:+ ", num_runs=" +:+ pretty num_runs +:+ ", weight=" +:+ float_str weight
  +:+ nl.

(** The log file at [k] holds [text], and standard output is the sink of
    the log around the console. *)
Definition mirrored (log : Path) (k : loc) (text : string) (st : process) : Prop :=
  sys_stdout st = _LogHelper log (Console Stdout) /\
  locate log st = inr k /\ fs st !! k = Some (File text).

(** ** Sample checkpoints of the driver *)

Definition digit_value (c : ascii) : nat := nat_of_ascii c - 48.

(** The timestamps written one after the other as [YYYY-MM-DD HH:MM:SS]. *)
Fixpoint stamps_text (l : list datetime) : string :=
  match l with
  | [] => ""
  | d :: rest => strftime d +:+ stamps_text rest
  end.

(** The timestamps that a text of that form holds. *)
Fixpoint stamps_of (l : list ascii) : option (list datetime) :=
  match l with
  | [] => Some []
  | y1 :: y2 :: y3 :: y4 :: _ :: m1 :: m2 :: _ :: d1 :: d2 :: _ ::
    h1 :: h2 :: _ :: n1 :: n2 :: _ :: s1 :: s2 :: rest =>
      cons (mkDatetime
              (1000 * digit_value y1 + 100 * digit_value y2
               + 10 * digit_value y3 + digit_value y4)
              (10 * digit_value m1 + digit_value m2)
              (10 * digit_value d1 + digit_value d2)
              (10 * digit_value h1 + digit_value h2)
              (10 * digit_value n1 + digit_value n2)
              (10 * digit_value s1 + digit_value s2)) <$> stamps_of rest
  | _ => None
  end.

(** Checkpoints of the driver as text: supported when every field of every
    timestamp has the width of its place. *)
Definition stamps_pickle : Pickle checkpoint := {|
  dumps := fun c => stamps_text (timestamps c);
  loads := fun s => mkCheckpoint <$> stamps_of (list_ascii_of_string s)
|}.

(** The command line [main.py --weight 0.5]. *)
Definition sample_argv : list string := ["main.py"; "--weight"; "0.5"].

(** The state a second process finds, with the console as its standard
    streams, after a first run of the driver as [main.py --weight 0.5] in an
    empty directory. *)
Definition second_process : process :=
  set_sys_stderr (Console Stderr)
    (set_sys_stdout (Console Stdout)
       (final (test_job (H := stamps_pickle) (fun w : string => w) sample_argv
                 "" "cifar" 10 "0.5" false fresh_process))).

(** ** Directories that can be made, and paths the system takes *)

(** A text without a slash. *)
Definition no_slash (s : string) : bool :=
  forallb (fun c => negb (Ascii.eqb c slash)) (list_ascii_of_string s).

(** The leading parts of a path, from its anchor alone to the path itself. *)
Definition leading (p : Path) : list Path :=
  List.map (fun n => pathlib.mkPath (pathlib.anchored p)
                       (List.firstn n (pathlib.parts p)))
           (List.seq 0 (S (List.length (pathlib.parts p)))).

(** No leading part of the path is a regular file. *)
Definition no_file_on_the_way (st : process) (p : Path) : bool :=
  forallb (fun q => negb (is_file_in st q)) (leading p).

(** What [p.mkdir(parents=True, exist_ok=True)] needs in order to return:
    the directory is there; or the file system is a tree, the path has no
    [".."] and no leading part of it is a regular file. *)
Definition can_make (st : process) (p : Path) : Prop :=
  is_dir_in st p = true \/
  (well_formed st /\ plain p /\ no_file_on_the_way st p = true).

(** The file system of the model takes every name. The system the code runs
    on refuses a component of more than 255 bytes, a component with a NUL
    byte and a path whose text has 4096 bytes or more: a path within these
    limits. *)
Definition accepted (p : Path) : bool :=
  forallb (fun c => Nat.leb (String.length c) 255 &&
                    forallb (fun a => negb (Ascii.eqb a Ascii.zero))
                            (list_ascii_of_string c))
          (pathlib.parts p)
  && Nat.ltb (String.length (pathlib.str p)) 4096.

(** A process whose working directory holds the directory
    [logs_and_output] with a regular file [f] in it. *)
Definition file_aside_process : process :=
  mkProcess {[ ["logs_and_output"] := Dir; ["f"; "logs_and_output"] := File "" ]}
            [] "" "" (Console Stdout) (Console Stderr) sample_clock.

(** The process after job [exp1/b] has started in an empty directory, its
    main unit has saved the record [[9]], and the directory
    [logs_and_output/exp1/log_a] has been made. *)
Definition other_job_process : process :=
  final ((jo <- __init__ "exp1" "b" false true ;;
          write_checkpoint (H := byte_pickle) jo [9] ;;
          Path_mkdir (output_dir_of "exp1" </> "log_a") true true) fresh_process).

(** The facade of the main unit of the job named [a/../b] of group [exp1],
    constructed with the console streams in place. *)
Definition dotdot_facade : JobOutput :=
  mkJobOutput true true
    (Some (log_path_of "exp1" "a/../b")) (Some (job_dir_of "exp1" "a/../b"))
    (Some (checkpoint_path_of "exp1" "a/../b"))
    (_LogHelper (log_path_of "exp1" "a/../b") (Console Stdout))
    (_LogHelper (log_path_of "exp1" "a/../b") (Console Stderr)).

(** The state a process finds, with the console as its standard streams,
    after a first run of the driver and a second, continued one, once the
    log file of the job has been removed. *)
Definition log_lost_process : process :=
  final (Path_unlink (log_path_of "test_job" "test_cifar")
    (set_sys_stderr (Console Stderr)
       (set_sys_stdout (Console Stdout)
          (final (test_job (H := stamps_pickle) (fun w : string => w)
                    sample_argv "" "cifar" 10 "0.5" true second_process))))).

(** * Properties *)

#[local] Arguments String.append !s1 s2 / : simpl nomatch.
#[local] Arguments exists_in : simpl never.
#[local] Arguments is_dir_in : simpl never.
#[local] Arguments is_file_in : simpl never.
#[local] Arguments stat : simpl never.
#[local] Arguments locate : simpl never.
#[local] Arguments strftime : simpl never.
#[local] Arguments pathlib.str : simpl never.
#[local] Arguments pathlib.joinpath : simpl never.
#[local] Arguments output_dir_of : simpl never.
#[local] Arguments os_mkdir : simpl never.
#[local] Arguments mkdir_leaf : simpl never.
#[local] Arguments Path_mkdir : simpl never.
#[local] Arguments Path_open_append : simpl never.
#[local] Arguments Path_open_wb : simpl never.
#[local] Arguments file_write : simpl never.
#[local] Arguments Path_unlink : simpl never.
#[local] Arguments Path_rename : simpl never.
#[local] Arguments Path_read : simpl never.
#[local] Arguments log_path_of : simpl never.
#[local] Arguments job_dir_of : simpl never.
#[local] Arguments checkpoint_path_of : simpl never.

(** ** The model at work *)

Example parse_drops_empty_and_dot :
  pathlib.parse "a//b/./c/../" = pathlib.mkPath false ["a"; "b"; "c"; ".."].
Proof. reflexivity. Qed.

Example joinpath_dot : output_dir_of "exp1" </> "." = output_dir_of "exp1".
Proof. reflexivity. Qed.

Example joinpath_anchored :
  output_dir_of "exp1" </> "/tmp/x" = pathlib.mkPath true ["tmp"; "x"].
Proof. reflexivity. Qed.

Example strftime_sample : strftime sample_clock = "2024-03-07 09:05:00".
Proof. reflexivity. Qed.

(** A first construction makes the two directories and writes the log. *)
Example construction_steps :
  List.map fst (steps (__init__ "exp1" "run1" false true fresh_process)) =
  [StMkdir ["logs_and_output"];
   StMkdir ["exp1"; "logs_and_output"];
   StCreate ["log_run1.txt"; "exp1"; "logs_and_output"];
   StWrite ["log_run1.txt"; "exp1"; "logs_and_output"]].
Proof. vm_compute. reflexivity. Qed.

(** A save over a saved record: the temporary file is created and written
    byte by byte, the old checkpoint is unlinked, the temporary file is
    renamed. *)
Example save_steps :
  List.map fst (steps (write_checkpoint (H := byte_pickle) sample_facade [4; 5]
                         saved_process)) =
  [StCreate ["ckpt.pth.new"; "run1"; "exp1"; "logs_and_output"];
   StWrite ["ckpt.pth.new"; "run1"; "exp1"; "logs_and_output"];
   StWrite ["ckpt.pth.new"; "run1"; "exp1"; "logs_and_output"];
   StUnlink ["ckpt.pth"; "run1"; "exp1"; "logs_and_output"];
   StRename ["ckpt.pth.new"; "run1"; "exp1"; "logs_and_output"]
            ["ckpt.pth"; "run1"; "exp1"; "logs_and_output"]].
Proof. vm_compute. reflexivity. Qed.

(** With [logs_and_output] a regular file, construction fails in [mkdir]. *)
Example construction_blocked :
  value (__init__ "exp1" "run1" false true blocked_process)
  = Raise (OSError ENOTDIR).
Proof. vm_compute. reflexivity. Qed.

(** A job name with a slash: the log file's directory is missing. *)
Example construction_nested_name :
  value (__init__ "exp1" "a/b" false true fresh_process)
  = Raise (OSError ENOENT).
Proof. vm_compute. reflexivity. Qed.

(** A directory moves with what is under it. *)
Example rename_directory :
  fs (final (Path_rename (job_dir_of "exp1" "run1") (job_dir_of "exp1" "run2")
               saved_process))
  !! ["ckpt.pth"; "run2"; "exp1"; "logs_and_output"]
  = Some (File (dumps (Pickle := byte_pickle) [1; 2; 3])).
Proof. vm_compute. reflexivity. Qed.

(** ** Text and pure paths *)

Lemma split_slash_nonempty (s : string) : split_slash s <> [].
Proof.
  destruct s as [|c s]; simpl; [done|].
  destruct (Ascii.eqb c slash); [done|].
  destruct (split_slash s); done.
Qed.

Lemma is_digit_digit (n : nat) : is_digit (digit n) = true.
Proof.
  unfold digit.
  assert (H : n mod 10 < 10) by (apply Nat.mod_upper_bound; lia).
  remember (n mod 10) as m eqn:E. clear E.
  do 10 (destruct m as [|m]; [reflexivity|]). lia.
Qed.

Lemma timestamp_form_strftime (d : datetime) : timestamp_form (strftime d) = true.
Proof.
  unfold strftime, four_digits, two_digits, timestamp_form.
  cbn -[Nat.div Nat.modulo digit is_digit].
  rewrite !is_digit_digit. reflexivity.
Qed.

Lemma string_app_length (a b : string) :
  String.length (a +:+ b) = String.length a + String.length b.
Proof. induction a as [|c a IH]; simpl; [done|]. by rewrite IH. Qed.

Lemma string_app_nil_r (a : string) : a +:+ "" = a.
Proof. induction a as [|c a IH]; simpl; [done|]. by rewrite IH. Qed.

Lemma string_app_assoc (a b c : string) : (a +:+ b) +:+ c = a +:+ (b +:+ c).
Proof. induction a as [|x a IH]; simpl; [done|]. by rewrite IH. Qed.

Lemma prefix_app (a b : string) : String.prefix a (a +:+ b) = true.
Proof.
  induction a as [|c a IH]; simpl; [by destruct b|].
  destruct (ascii_dec c c); [done|congruence].
Qed.

Lemma string_app_neq (a b : string) : b <> "" -> a <> a +:+ b.
Proof.
  intros Hb E. apply (f_equal String.length) in E.
  rewrite string_app_length in E. destruct b; [done|]. simpl in E. lia.
Qed.

(** The log file's name is never anchored and always has a first component. *)
Lemma parse_log_name (job_name : string) :
  exists c rest,
    pathlib.parse ("log_" +:+ job_name +:+ ".txt") = pathlib.mkPath false (c :: rest).
Proof.
  unfold pathlib.parse. simpl.
  destruct (split_slash _) as [|w ws] eqn:E.
  { by apply split_slash_nonempty in E. }
  simpl. eauto.
Qed.

Lemma joinpath_relative (p : Path) (s : string) :
  pathlib.anchored (pathlib.parse s) = false ->
  p </> s = pathlib.mkPath (pathlib.anchored p)
              (pathlib.parts p ++ pathlib.parts (pathlib.parse s)).
Proof. intros H. unfold pathlib.joinpath. by rewrite H. Qed.

Lemma log_path_parts (job_group job_name : string) :
  exists c rest,
    log_path_of job_group job_name =
    pathlib.mkPath (pathlib.anchored (output_dir_of job_group))
      (pathlib.parts (output_dir_of job_group) ++ c :: rest).
Proof.
  destruct (parse_log_name job_name) as (c & rest & E).
  exists c, rest. unfold log_path_of. rewrite joinpath_relative; by rewrite E.
Qed.

Lemma checkpoint_path_parts (d : Path) :
  d </> "ckpt.pth" =
  pathlib.mkPath (pathlib.anchored d) (pathlib.parts d ++ ["ckpt.pth"]).
Proof. reflexivity. Qed.

Lemma removelast_snoc {A} (l : list A) (x : A) : List.removelast (l ++ [x]) = l.
Proof. induction l as [|a l IH]; simpl; [done|]. rewrite IH. by destruct l. Qed.

Lemma last_snoc {A} (l : list A) (x d : A) : List.last (l ++ [x]) d = x.
Proof. induction l as [|a l IH]; simpl; [done|]. rewrite IH. by destruct l. Qed.

(** The temporary path of a save is the sibling ["ckpt.pth.new"]. *)
Lemma new_path_parts (d : Path) :
  pathlib.parent (d </> "ckpt.pth") </> (pathlib.name (d </> "ckpt.pth") +:+ ".new") =
  pathlib.mkPath (pathlib.anchored d) (pathlib.parts d ++ ["ckpt.pth.new"]).
Proof.
  rewrite checkpoint_path_parts. unfold pathlib.name, pathlib.parent. simpl.
  rewrite last_snoc, removelast_snoc. reflexivity.
Qed.

(** ** Runs *)

Section Runs.
Context {A B : Type}.
Implicit Types (m : M A) (f : A -> M B) (st : process).

Lemma steps_bind m f st :
  steps (bind m f st) =
  steps (m st) ++ match value (m st) with
                  | Ok a => steps (f a (final (m st)))
                  | Raise _ => []
                  end.
Proof. unfold bind. destruct (value (m st)); simpl; [done|]. by rewrite app_nil_r. Qed.

Lemma final_bind m f st :
  final (bind m f st) =
  match value (m st) with
  | Ok a => final (f a (final (m st)))
  | Raise _ => final (m st)
  end.
Proof. unfold bind. by destruct (value (m st)). Qed.

Lemma value_bind m f st :
  value (bind m f st) =
  match value (m st) with
  | Ok a => value (f a (final (m st)))
  | Raise e => Raise e
  end.
Proof. unfold bind. by destruct (value (m st)). Qed.

End Runs.

Section Catch.
Context {A : Type}.
Implicit Types (m : M A) (h : exn -> M A) (st : process).

Lemma steps_catch m h st :
  steps (catch m h st) =
  steps (m st) ++ match value (m st) with
                  | Ok _ => []
                  | Raise e => steps (h e (final (m st)))
                  end.
Proof. unfold catch. destruct (value (m st)); simpl; [|done]. by rewrite app_nil_r. Qed.

Lemma final_catch m h st :
  final (catch m h st) =
  match value (m st) with
  | Ok _ => final (m st)
  | Raise e => final (h e (final (m st)))
  end.
Proof. unfold catch. by destruct (value (m st)). Qed.

Lemma value_catch m h st :
  value (catch m h st) =
  match value (m st) with
  | Ok a => Ok a
  | Raise e => value (h e (final (m st)))
  end.
Proof. unfold catch. by destruct (value (m st)) eqn:E. Qed.

End Catch.

(** Equations to run a method call by call. *)
Lemma run_eta {A} (r : run A) : Run (steps r) (final r) (value r) = r.
Proof. by destruct r. Qed.

Lemma run_bind_ok {A B} (m : M A) (f : A -> M B) st l1 s1 a :
  m st = Run l1 s1 (Ok a) ->
  bind m f st = Run (l1 ++ steps (f a s1)) (final (f a s1)) (value (f a s1)).
Proof. intros E. unfold bind. by rewrite E. Qed.

Lemma run_bind_raise {A B} (m : M A) (f : A -> M B) st l1 s1 e :
  m st = Run l1 s1 (Raise e) -> bind m f st = Run l1 s1 (Raise e).
Proof. intros E. unfold bind. by rewrite E. Qed.

Lemma bind_ret_l {A B} (a : A) (f : A -> M B) st : bind (ret a) f st = f a st.
Proof. unfold bind, ret. simpl. apply run_eta. Qed.

Lemma bind_assoc {A B C} (m : M A) (f : A -> M B) (g : B -> M C) st :
  bind (bind m f) g st = bind m (fun a => bind (f a) g) st.
Proof.
  unfold bind. destruct (value (m st)) as [a|e]; simpl; [|done].
  destruct (value (f a (final (m st)))) as [b|e]; simpl; [|done].
  by rewrite app_assoc.
Qed.

Lemma Path_exists_eq p st : Path_exists p st = Run [] st (Ok (exists_in st p)).
Proof. reflexivity. Qed.

Lemma datetime_now_eq st : datetime_now st = Run [] st (Ok (clock st)).
Proof. reflexivity. Qed.

Lemma get_eq st : get st = Run [] st (Ok st).
Proof. reflexivity. Qed.

Lemma ok_run_eq {A} (r : run A) a : value r = Ok a -> r = Run (steps r) (final r) (Ok a).
Proof. intros <-. by destruct r. Qed.

Lemma raise_eq {A} (e : exn) st : @raise A e st = Run [] st (Raise e).
Proof. reflexivity. Qed.

Section Chains.
Context (T : process -> step -> process -> Prop).

Lemma chain_app st l1 mid l2 fin :
  chain T st l1 mid -> chain T mid l2 fin -> chain T st (l1 ++ l2) fin.
Proof. induction 1; simpl; [done|]. intros. constructor; auto. Qed.

Lemma chain_weaken (T' : process -> step -> process -> Prop) st l fin :
  (forall a x b, T a x b -> T' a x b) -> chain T st l fin -> chain T' st l fin.
Proof. intros HT. induction 1; constructor; auto. Qed.

(** An invariant that every step keeps holds at every instant. *)
Lemma chain_invariant (I : process -> Prop) st l fin :
  (forall a x b, T a x b -> I a -> I b) ->
  chain T st l fin -> I st -> Forall I (List.map snd l) /\ I fin.
Proof.
  intros HT. induction 1 as [|st x s rest fin Hx _ IH]; intros Hst; simpl.
  - split; [constructor|done].
  - pose proof (HT _ _ _ Hx Hst) as Hs.
    destruct (IH Hs) as [H1 H2]. split; [by constructor|done].
Qed.

Lemma runs_by_ret {A} (a : A) st : runs_by T (ret a) st.
Proof. constructor. Qed.

Lemma runs_by_raise {A} (e : exn) st : runs_by T (@raise A e) st.
Proof. constructor. Qed.

Lemma runs_by_effect (l : step) (f : process -> process) st :
  T st l (f st) -> runs_by T (effect l f) st.
Proof. intros H. unfold runs_by. simpl. constructor; [done|constructor]. Qed.

Lemma runs_by_bind {A B} (m : M A) (f : A -> M B) st :
  runs_by T m st ->
  (forall a, value (m st) = Ok a -> runs_by T (f a) (final (m st))) ->
  runs_by T (bind m f) st.
Proof.
  unfold runs_by. intros Hm Hf. rewrite steps_bind, final_bind.
  destruct (value (m st)) as [a|e].
  - eapply chain_app; [exact Hm|]. by apply Hf.
  - by rewrite app_nil_r.
Qed.

Lemma runs_by_catch {A} (m : M A) (h : exn -> M A) st :
  runs_by T m st ->
  (forall e, value (m st) = Raise e -> runs_by T (h e) (final (m st))) ->
  runs_by T (catch m h) st.
Proof.
  unfold runs_by. intros Hm Hh. rewrite steps_catch, final_catch.
  destruct (value (m st)) as [a|e].
  - by rewrite app_nil_r.
  - eapply chain_app; [exact Hm|]. by apply Hh.
Qed.

End Chains.

(** [simpl] that does not look into the file-system calls. *)
Ltac calm_simpl :=
  with_strategy opaque
    [os_mkdir mkdir_leaf mkdir_parents Path_mkdir Path_open_append Path_open_wb
     file_write file_writelines write_each Path_unlink Path_rename Path_read
     exists_in is_dir_in is_file_in locate stat]
    simpl.

(** ** Nodes and walks *)

Lemma dir_at_true m k : dir_at m k = true <-> node_at m k = Some Dir.
Proof. unfold dir_at. destruct (node_at m k) as [[|]|]; split; congruence. Qed.

Lemma node_at_none m k : node_at m k = None -> k <> [] /\ m !! k = None.
Proof. destruct k; simpl; [done|]. intros ->. done. Qed.

Lemma node_at_file m k d : node_at m k = Some (File d) -> k <> [] /\ m !! k = Some (File d).
Proof. destruct k; simpl; [done|]. intros ->. done. Qed.

Lemma node_at_lookup m k : k <> [] -> node_at m k = m !! k.
Proof. by destruct k. Qed.

Lemma node_at_insert_eq m k v : k <> [] -> node_at (<[k := v]> m) k = Some v.
Proof. intros Hk. rewrite node_at_lookup by done. apply lookup_insert_eq. Qed.

Lemma node_at_insert_ne m k j v : j <> k -> node_at (<[k := v]> m) j = node_at m j.
Proof. intros Hk. destruct j; [done|]. simpl. by rewrite lookup_insert_ne. Qed.

Lemma node_at_delete_eq m k : k <> [] -> node_at (delete k m) k = None.
Proof. intros Hk. rewrite node_at_lookup by done. apply lookup_delete_eq. Qed.

Lemma node_at_delete_ne m k j : j <> k -> node_at (delete k m) j = node_at m j.
Proof. intros Hk. destruct j; [done|]. simpl. by rewrite lookup_delete_ne. Qed.

Lemma dirs_kept_refl m : dirs_kept m m.
Proof. by intros k. Qed.

Lemma dirs_kept_trans m1 m2 m3 : dirs_kept m1 m2 -> dirs_kept m2 m3 -> dirs_kept m1 m3.
Proof. intros H1 H2 k Hk. auto. Qed.

(** Writing a node where no directory is keeps every directory. *)
Lemma dirs_kept_insert m k v : dir_at m k = false -> dirs_kept m (<[k := v]> m).
Proof.
  intros Hk j Hj. destruct (decide (j = k)) as [->|Hne]; [congruence|].
  unfold dir_at in *. by rewrite node_at_insert_ne.
Qed.

Lemma dirs_kept_delete m k : dir_at m k = false -> dirs_kept m (delete k m).
Proof.
  intros Hk j Hj. destruct (decide (j = k)) as [->|Hne]; [congruence|].
  unfold dir_at in *. by rewrite node_at_delete_ne.
Qed.

(** Writing a file adds no directory. *)
Lemma dirs_kept_insert_file_back m k d : dirs_kept (<[k := File d]> m) m.
Proof.
  intros j Hj. destruct (decide (j = k)) as [->|Hne].
  - destruct k; [done|]. unfold dir_at in Hj. simpl in Hj.
    by rewrite lookup_insert_eq in Hj.
  - unfold dir_at in *. by rewrite node_at_insert_ne in Hj.
Qed.

Lemma walk_app m cur a b :
  walk m cur (a ++ b) =
  match walk m cur a with
  | inr k => walk m k b
  | inl e => inl e
  end.
Proof.
  revert cur. induction a as [|c a IH]; intros cur; simpl; [done|].
  destruct (node_at m cur) as [[|]|]; auto.
Qed.

(** A walk that succeeds went through a directory just before its end. *)
Lemma walk_snoc m cur a c k :
  walk m cur (a ++ [c]) = inr k ->
  exists D, walk m cur a = inr D /\ dir_at m D = true /\ k = enter D c.
Proof.
  rewrite walk_app. destruct (walk m cur a) as [e|D]; [done|]. simpl.
  destruct (node_at m D) as [[|]|] eqn:E; try done.
  intros [= <-]. exists D. by rewrite dir_at_true.
Qed.

Lemma walk_snoc_dir m cur a c D :
  walk m cur a = inr D -> dir_at m D = true ->
  walk m cur (a ++ [c]) = inr (enter D c).
Proof.
  intros Ha HD. rewrite walk_app, Ha. simpl.
  apply dir_at_true in HD. by rewrite HD.
Qed.

(** A walk that succeeds still does, and ends at the same place, in a file
    system that keeps the directories. *)
Lemma walk_kept m m' cur cs k :
  dirs_kept m m' -> walk m cur cs = inr k -> walk m' cur cs = inr k.
Proof.
  intros Hk. revert cur. induction cs as [|c cs IH]; intros cur; simpl; [done|].
  destruct (node_at m cur) as [[|]|] eqn:E; try done.
  apply dir_at_true, Hk, dir_at_true in E. rewrite E. apply IH.
Qed.

(** Without [".."] a walk only goes down. *)
Lemma walk_plain m cur cs k :
  ".." ∉ cs -> walk m cur cs = inr k -> k = rev cs ++ cur.
Proof.
  revert cur. induction cs as [|c cs IH]; intros cur Hp; simpl; [by intros [= <-]|].
  destruct (node_at m cur) as [[|]|]; try done.
  intros Hw. apply IH in Hw; [|set_solver]. subst k.
  unfold enter. destruct (String.eqb_spec c ".."); [set_solver|].
  by rewrite <- app_assoc.
Qed.

Lemma locate_kept p st st' k :
  cwd st' = cwd st -> dirs_kept (fs st) (fs st') ->
  locate p st = inr k -> locate p st' = inr k.
Proof.
  unfold locate, start_of. intros -> Hk Hw. eapply walk_kept; eauto.
Qed.

(** ** Making directories *)

Lemma os_mkdir_eq p st :
  os_mkdir p st =
  match locate p st with
  | inl e => Run [] st (Raise (OSError e))
  | inr k =>
      match node_at (fs st) k with
      | Some _ => Run [] st (Raise (OSError EEXIST))
      | None => Run [(StMkdir k, set_fs (insert k Dir) st)]
                    (set_fs (insert k Dir) st) (Ok tt)
      end
  end.
Proof.
  unfold os_mkdir, bind, get. simpl.
  destruct (locate p st); [done|]. by destruct (node_at _ _).
Qed.

Lemma mkdir_parents_eq eo a rparts :
  mkdir_parents eo a rparts =
  catch (os_mkdir (pathlib.mkPath a (rev rparts))) (fun e =>
    match e with
    | OSError ENOENT =>
        match rparts with
        | [] => raise e
        | _ :: rest =>
            mkdir_parents true a rest ;;
            mkdir_leaf eo (pathlib.mkPath a (rev rparts))
        end
    | OSError _ =>
        d <- Path_is_dir (pathlib.mkPath a (rev rparts)) ;;
        if eo && d then ret tt else raise e
    | _ => raise e
    end).
Proof. by destruct rparts. Qed.

Lemma path_eta (p : Path) :
  pathlib.mkPath (pathlib.anchored p) (pathlib.parts p) = p.
Proof. by destruct p. Qed.

(** A directory just made is a directory. *)
Lemma is_dir_in_made p st k :
  locate p st = inr k -> node_at (fs st) k = None ->
  is_dir_in (set_fs (insert k Dir) st) p = true.
Proof.
  intros Hl Hn. apply node_at_none in Hn as Hk. destruct Hk as [Hk _].
  assert (Hl' : locate p (set_fs (insert k Dir) st) = inr k).
  { apply (locate_kept p st); [done| |done].
    simpl. apply dirs_kept_insert. unfold dir_at. by rewrite Hn. }
  unfold is_dir_in, stat. rewrite Hl'. simpl. by rewrite node_at_insert_eq.
Qed.

Lemma mkdir_leaf_ok eo p st :
  value (mkdir_leaf eo p st) = Ok tt ->
  is_dir_in (final (mkdir_leaf eo p st)) p = true.
Proof.
  unfold mkdir_leaf. rewrite value_catch, final_catch, os_mkdir_eq.
  destruct (locate p st) as [e|k] eqn:El; simpl.
  - destruct e; simpl; try done;
      unfold bind, Path_is_dir, get, ret; simpl;
      destruct (is_dir_in st p) eqn:Ed; destruct eo; simpl; done.
  - destruct (node_at (fs st) k) eqn:En; simpl.
    + unfold bind, Path_is_dir, get, ret; simpl.
      destruct (is_dir_in st p) eqn:Ed; destruct eo; simpl; done.
    + intros _. by apply is_dir_in_made.
Qed.

Lemma mkdir_parents_ok eo a rparts st :
  value (mkdir_parents eo a rparts st) = Ok tt ->
  is_dir_in (final (mkdir_parents eo a rparts st)) (pathlib.mkPath a (rev rparts)) = true.
Proof.
  rewrite mkdir_parents_eq. set (p := pathlib.mkPath a (rev rparts)).
  rewrite value_catch, final_catch, os_mkdir_eq.
  destruct (locate p st) as [e|k] eqn:El; simpl.
  - destruct e; simpl; try done;
      try (unfold bind, Path_is_dir, get, ret; simpl;
           destruct (is_dir_in st p) eqn:Ed; destruct eo; simpl; done).
    destruct rparts as [|c rest]; [done|].
    rewrite value_bind, final_bind.
    destruct (value (mkdir_parents true a rest st)); [|done].
    apply mkdir_leaf_ok.
  - destruct (node_at (fs st) k) eqn:En; simpl.
    + unfold bind, Path_is_dir, get, ret; simpl.
      destruct (is_dir_in st p) eqn:Ed; destruct eo; simpl; done.
    + intros _. by apply is_dir_in_made.
Qed.

Lemma Path_mkdir_ok p st :
  value (Path_mkdir p true true st) = Ok tt ->
  is_dir_in (final (Path_mkdir p true true st)) p = true.
Proof.
  unfold Path_mkdir. intros H. apply mkdir_parents_ok in H.
  by rewrite rev_involutive, path_eta in H.
Qed.

(** Asked for a directory that is there, [mkdir] does nothing. *)
Lemma Path_mkdir_existing p st :
  is_dir_in st p = true -> Path_mkdir p true true st = Run [] st (Ok tt).
Proof.
  unfold Path_mkdir. rewrite mkdir_parents_eq, rev_involutive, path_eta.
  intros Hd. unfold catch. rewrite os_mkdir_eq.
  unfold is_dir_in, stat in Hd.
  destruct (locate p st) as [e|k] eqn:El; [done|].
  destruct (node_at (fs st) k) as [[|]|] eqn:En; try done. simpl.
  unfold bind, Path_is_dir, get, ret. simpl.
  unfold is_dir_in, stat. by rewrite El, En.
Qed.

Lemma only_OSError_bind {A B} (m : M A) (f : A -> M B) st :
  only_OSError (m st) ->
  (forall a, value (m st) = Ok a -> only_OSError (f a (final (m st)))) ->
  only_OSError (bind m f st).
Proof.
  intros Hm Hf e. rewrite value_bind.
  destruct (value (m st)) as [a|e'] eqn:E.
  - by apply Hf.
  - intros [= <-]. by apply Hm.
Qed.


Lemma only_OSError_os_mkdir p st : only_OSError (os_mkdir p st).
Proof.
  intros e. rewrite os_mkdir_eq.
  destruct (locate p st); simpl; [intros [= <-]; eauto|].
  destruct (node_at _ _); simpl; [intros [= <-]; eauto|done].
Qed.

Lemma only_OSError_mkdir_leaf eo p st : only_OSError (mkdir_leaf eo p st).
Proof.
  intros e. unfold mkdir_leaf. rewrite value_catch.
  destruct (value (os_mkdir p st)) as [|e'] eqn:E; [done|].
  apply only_OSError_os_mkdir in E as [eno ->].
  destruct eno; simpl; try (intros [= <-]; eauto);
    unfold bind, Path_is_dir, get, ret; simpl;
    destruct (eo && _); simpl; try done; intros [= <-]; eauto.
Qed.

Lemma only_OSError_mkdir_parents eo a rparts st :
  only_OSError (mkdir_parents eo a rparts st).
Proof.
  revert eo st. induction rparts as [|c rest IH]; intros eo st e;
    rewrite mkdir_parents_eq, value_catch;
    (destruct (value (os_mkdir _ st)) as [|e'] eqn:E; [done|]);
    apply only_OSError_os_mkdir in E as [eno ->];
    destruct eno; simpl; try (intros [= <-]; eauto);
    try (unfold bind, Path_is_dir, get, ret; simpl;
         destruct (eo && _); simpl; try done; intros [= <-]; eauto).
  apply only_OSError_bind; [apply IH|]. intros _ _. apply only_OSError_mkdir_leaf.
Qed.

Lemma only_OSError_Path_mkdir p st : only_OSError (Path_mkdir p true true st).
Proof. apply only_OSError_mkdir_parents. Qed.

(** ** What the file-system calls do, step by step *)

Lemma runs_by_get T st : runs_by T get st.
Proof. constructor. Qed.

Ltac runs_step :=
  first
    [ apply runs_by_ret
    | apply runs_by_raise
    | apply runs_by_get
    | apply runs_by_bind; [|intros ? ?]
    | apply runs_by_catch; [|intros ? ?]
    | match goal with
      | |- runs_by _ (match ?x with _ => _ end) _ => destruct x
      end ].

Ltac runs_steps := repeat runs_step.

Lemma runs_Path_is_dir T p st : runs_by T (Path_is_dir p) st.
Proof. unfold Path_is_dir. runs_steps. Qed.

Lemma runs_Path_exists T p st : runs_by T (Path_exists p) st.
Proof. unfold Path_exists. runs_steps. Qed.

Lemma runs_Path_is_file T p st : runs_by T (Path_is_file p) st.
Proof. unfold Path_is_file. runs_steps. Qed.

Lemma runs_datetime_now T st : runs_by T datetime_now st.
Proof. unfold datetime_now. runs_steps. Qed.

(** Each step of [os.mkdir] makes the directory of the path. *)
Lemma runs_os_mkdir a rparts st :
  runs_by (made_dir a rparts) (os_mkdir (pathlib.mkPath a (rev rparts))) st.
Proof.
  unfold runs_by. rewrite os_mkdir_eq.
  destruct (locate _ st) as [e|k] eqn:El; simpl; [constructor|].
  destruct (node_at (fs st) k) eqn:En; simpl; [constructor|].
  constructor; [|constructor]. by exists k, rparts.
Qed.

Lemma made_dir_suffix a sfx rparts st l st' :
  sfx `suffix_of` rparts -> made_dir a sfx st l st' -> made_dir a rparts st l st'.
Proof.
  intros Hs (k & s' & -> & Hs' & Hl & Hn & ->).
  exists k, s'. repeat split; try done. by etrans.
Qed.

Lemma runs_mkdir_handler T eo p e st :
  runs_by T (d <- Path_is_dir p ;; if eo && d then ret tt else raise e) st.
Proof.
  apply runs_by_bind; [apply runs_Path_is_dir|].
  intros d _. destruct (eo && d); [apply runs_by_ret|apply runs_by_raise].
Qed.

Lemma runs_mkdir_leaf eo a rparts st :
  runs_by (made_dir a rparts) (mkdir_leaf eo (pathlib.mkPath a (rev rparts))) st.
Proof.
  unfold mkdir_leaf. apply runs_by_catch; [apply runs_os_mkdir|].
  intros e _. destruct e as [| eno | |]; try apply runs_by_raise.
  destruct eno; try apply runs_mkdir_handler. apply runs_by_raise.
Qed.

Lemma runs_mkdir_parents eo a rparts st :
  runs_by (made_dir a rparts) (mkdir_parents eo a rparts) st.
Proof.
  revert eo st. induction rparts as [|c rest IH]; intros eo st;
    rewrite mkdir_parents_eq;
    (apply runs_by_catch; [apply runs_os_mkdir|]);
    intros e _; (destruct e as [| eno | |]; try apply runs_by_raise);
    destruct eno; try apply runs_mkdir_handler.
  - apply runs_by_raise.
  - apply runs_by_bind; [|intros _ _; apply runs_mkdir_leaf].
    eapply chain_weaken; [|apply IH].
    intros x l y. apply made_dir_suffix. by apply suffix_cons_r.
Qed.

Lemma runs_Path_mkdir p st :
  runs_by (made_dir (pathlib.anchored p) (rev (pathlib.parts p)))
          (Path_mkdir p true true) st.
Proof. apply runs_mkdir_parents. Qed.

Lemma made_dir_fs_changed a rparts st l st' :
  made_dir a rparts st l st' -> fs_changed st l st'.
Proof. intros (k & _ & _ & _ & _ & _ & ->). by eexists. Qed.

Lemma fs_changed_effect l f st : runs_by fs_changed (effect l (set_fs f)) st.
Proof. apply runs_by_effect. by eexists. Qed.

Lemma fs_changed_Path_mkdir p st : runs_by fs_changed (Path_mkdir p true true) st.
Proof.
  eapply chain_weaken; [|apply runs_Path_mkdir].
  intros x l y. apply made_dir_fs_changed.
Qed.

Lemma fs_changed_Path_open_append p st : runs_by fs_changed (Path_open_append p) st.
Proof. unfold Path_open_append. runs_steps; apply fs_changed_effect. Qed.

Lemma fs_changed_Path_open_wb p st : runs_by fs_changed (Path_open_wb p) st.
Proof. unfold Path_open_wb. runs_steps; apply fs_changed_effect. Qed.

Lemma fs_changed_file_write f x st : runs_by fs_changed (file_write f x) st.
Proof. unfold file_write. runs_steps; apply fs_changed_effect. Qed.

Lemma fs_changed_file_writelines f lines st :
  runs_by fs_changed (file_writelines f lines) st.
Proof.
  revert st. induction lines as [|x rest IH]; intros st; simpl; [apply runs_by_ret|].
  apply runs_by_bind; [apply fs_changed_file_write|]. intros _ _. apply IH.
Qed.

Lemma fs_changed_write_each f s st : runs_by fs_changed (write_each f s) st.
Proof.
  revert st. induction s as [|c s IH]; intros st; simpl; [apply runs_by_ret|].
  apply runs_by_bind; [apply fs_changed_file_write|]. intros _ _. apply IH.
Qed.

Lemma fs_changed_Path_unlink p st : runs_by fs_changed (Path_unlink p) st.
Proof. unfold Path_unlink. runs_steps; apply fs_changed_effect. Qed.

Lemma fs_changed_Path_rename p q st : runs_by fs_changed (Path_rename p q) st.
Proof. unfold Path_rename. runs_steps; apply fs_changed_effect. Qed.

Lemma fs_changed___init__ g n c m st : runs_by fs_changed (__init__ g n c m) st.
Proof.
  unfold __init__. apply runs_by_bind; [apply fs_changed_Path_mkdir|]. intros _ _.
  destruct (name_enabled n); [|apply runs_by_ret].
  apply runs_by_bind.
  - destruct m; [|apply runs_by_ret].
    apply runs_by_bind; [apply runs_Path_exists|]. intros ex _.
    apply runs_by_bind.
    + destruct ex; [destruct c|]; runs_steps; apply runs_datetime_now.
    + intros lines _. apply runs_by_bind; [apply fs_changed_Path_open_append|].
      intros f _. apply fs_changed_file_writelines.
  - intros _ _. apply runs_by_bind; [apply runs_by_get|]. intros s _.
    destruct m; apply runs_by_ret.
Qed.

Lemma same_process_refl st : same_process st st.
Proof. by repeat split. Qed.

(** A run that only changes the file system leaves the rest of the process
    as it was, at every instant. *)
Lemma fs_changed_same_process st l fin :
  chain fs_changed st l fin ->
  Forall (same_process st) (List.map snd l) /\ same_process st fin.
Proof.
  intros Hc. eapply chain_invariant; [|exact Hc|apply same_process_refl].
  intros a x b [f ->] (? & ? & ? & ? & ? & ?). by repeat split.
Qed.

(** ** Construction *)

(** The facade that a successful construction with an enabled name returns. *)
Lemma init_enabled_value g n c m st jo :
  name_enabled n = true ->
  value (__init__ g n c m st) = Ok jo ->
  jo = mkJobOutput m true (Some (log_path_of g n)) (Some (job_dir_of g n))
         (Some (checkpoint_path_of g n))
         (if m then _LogHelper (log_path_of g n) (sys_stdout st)
          else _LogSuppress (sys_stdout st))
         (if m then _LogHelper (log_path_of g n) (sys_stderr st)
          else _LogSuppress (sys_stderr st)).
Proof.
  intros Hen Hv.
  pose proof (fs_changed___init__ g n c m st) as Hc.
  apply fs_changed_same_process in Hc as [_ (_ & _ & _ & Ho & He & _)].
  revert Hv Ho He. unfold __init__. rewrite Hen.
  rewrite !value_bind, !final_bind.
  destruct (value (Path_mkdir _ true true st)); [|done].
  match goal with
  | |- context [value (?f (final (Path_mkdir ?p true true st)))] =>
      set (r1 := f (final (Path_mkdir p true true st)))
  end.
  destruct (value r1); [|done]. simpl.
  destruct m; simpl; intros [= <-] Ho He; by rewrite Ho, He.
Qed.


(** ** Streams *)

Lemma outputs_suppressed calls st a b :
  sys_stdout st = _LogSuppress a -> sys_stderr st = _LogSuppress b ->
  outputs calls st = Run [] st (Ok tt).
Proof.
  intros Ho He. induction calls as [|c rest IH]; simpl; [done|].
  assert (Hc : output c st = Run [] st (Ok tt)).
  { destruct c; simpl;
      unfold sys_stdout_write, sys_stderr_write, sys_stdout_flush,
        sys_stderr_flush, bind, get; simpl; by rewrite ?Ho, ?He. }
  unfold bind. rewrite Hc. simpl. by rewrite IH.
Qed.

(** C10. For every enabled facade, [disconnect_streams] sets the process's
    standard output and error to the streams that were current when the
    facade was constructed, whatever the process streams are when it is
    called; so does [connect_streams] followed by [disconnect_streams]. *)
Theorem disconnect_restores_construction_streams
    (job_group job_name : string) (continue_job is_main : bool)
    (st : process) (jo : JobOutput) :
  name_enabled job_name = true ->
  value (__init__ job_group job_name continue_job is_main st) = Ok jo ->
  forall st' : process,
    (let r := disconnect_streams jo st' in
     value r = Ok tt /\
     sys_stdout (final r) = sys_stdout st /\
     sys_stderr (final r) = sys_stderr st) /\
    (let r := (connect_streams jo ;; disconnect_streams jo) st' in
     value r = Ok tt /\
     sys_stdout (final r) = sys_stdout st /\
     sys_stderr (final r) = sys_stderr st).
Proof.
  intros Hen Hv st'. apply init_enabled_value in Hv; [|done]. subst jo.
  destruct is_main; repeat split.
Qed.

Lemma disconnect_restores_construction_streams_witness :
  name_enabled "run1" = true /\
  forall st' : process,
    let r := disconnect_streams
               (mkJobOutput false true (Some (log_path_of "exp1" "run1"))
                  (Some (job_dir_of "exp1" "run1"))
                  (Some (checkpoint_path_of "exp1" "run1"))
                  (_LogSuppress (Console Stdout)) (_LogSuppress (Console Stderr)))
               st' in
    value r = Ok tt /\
    sys_stdout (final r) = Console Stdout /\
    sys_stderr (final r) = Console Stderr.
Proof.
  split; [reflexivity|]. intros st'.
  apply (disconnect_restores_construction_streams
           "exp1" "run1" false false fresh_process); reflexivity.
Defined.

(** C6. A facade constructed with an enabled name and [is_main=false]:
    [write_checkpoint] has no effect at all, so it neither creates nor
    modifies the checkpoint file or the job directory; after
    [connect_streams], any sequence of writes and flushes on the standard
    streams has no effect on the file system, so none on the log file, and
    none on the console. *)
Theorem non_main_suppressed {R : Type} {P : Pickle R}
    (job_group job_name : string) (continue_job : bool)
    (st : process) (jo : JobOutput) :
  name_enabled job_name = true ->
  value (__init__ job_group job_name continue_job false st) = Ok jo ->
  (forall (data : R) (st' : process),
      write_checkpoint jo data st' = Run [] st' (Ok tt)) /\
  (forall (calls : list output_call) (st' : process),
      let r := (connect_streams jo ;; outputs calls) st' in
      steps r = [] /\ value r = Ok tt /\
      fs (final r) = fs st' /\
      console_out (final r) = console_out st' /\
      console_err (final r) = console_err st').
Proof.
  intros Hen Hv. apply init_enabled_value in Hv; [|done]. subst jo.
  split; [done|]. intros calls st'.
  cbv zeta. rewrite steps_bind, value_bind, final_bind.
  unfold connect_streams. simpl.
  erewrite outputs_suppressed; [|reflexivity..]. done.
Qed.

Lemma non_main_suppressed_witness :
  name_enabled "run1" = true /\
  forall (calls : list output_call) (st' : process),
    let r := (connect_streams
                (mkJobOutput false true (Some (log_path_of "exp1" "run1"))
                   (Some (job_dir_of "exp1" "run1"))
                   (Some (checkpoint_path_of "exp1" "run1"))
                   (_LogSuppress (Console Stdout)) (_LogSuppress (Console Stderr))) ;;
              outputs calls) st' in
    steps r = [] /\ value r = Ok tt /\
    fs (final r) = fs st' /\
    console_out (final r) = console_out st' /\
    console_err (final r) = console_err st'.
Proof.
  split; [reflexivity|].
  apply (non_main_suppressed (P := byte_pickle)
           "exp1" "run1" false fresh_process); reflexivity.
Defined.

Lemma Path_open_append_eq p st :
  Path_open_append p st =
  match locate p st with
  | inl e => Run [] st (Raise (OSError e))
  | inr k =>
      match node_at (fs st) k with
      | Some Dir => Run [] st (Raise (OSError EISDIR))
      | Some (File _) => Run [] st (Ok k)
      | None => Run [(StCreate k, set_fs (insert k (File "")) st)]
                    (set_fs (insert k (File "")) st) (Ok k)
      end
  end.
Proof.
  unfold Path_open_append, bind, get. simpl.
  destruct (locate p st); [done|]. by destruct (node_at _ _) as [[|]|].
Qed.

Lemma file_write_eq f x st :
  file_write f x st =
  match fs st !! f with
  | Some (File d) => Run [(StWrite f, set_fs (insert f (File (d +:+ x))) st)]
                         (set_fs (insert f (File (d +:+ x))) st) (Ok tt)
  | _ => Run [] st (Raise (OSError EBADF))
  end.
Proof.
  unfold file_write, bind, get. simpl. by destruct (fs st !! f) as [[|]|].
Qed.

(** Where the log path resolves, the job_group directory is a directory. *)
Lemma log_exists_group_dir g n st :
  exists_in st (log_path_of g n) = true ->
  is_dir_in st (output_dir_of g) = true.
Proof.
  destruct (log_path_parts g n) as (c & rest & ->).
  unfold exists_in, is_dir_in, stat, locate, start_of. simpl.
  rewrite walk_app.
  destruct (walk (fs st) _ (pathlib.parts (output_dir_of g))) as [e|D]; [done|].
  simpl. by destruct (node_at (fs st) D) as [[|]|].
Qed.

Lemma file_at_exists st p d : file_at st p = Some d -> exists_in st p = true.
Proof. unfold file_at, exists_in. by destruct (stat p st) as [|[|]]. Qed.

Lemma file_at_located st p d :
  file_at st p = Some d ->
  exists k, locate p st = inr k /\ k <> [] /\ fs st !! k = Some (File d).
Proof.
  unfold file_at, stat. destruct (locate p st) as [e|k]; [done|].
  destruct (node_at (fs st) k) as [[|]|] eqn:E; try done.
  intros [= ->]. apply node_at_file in E as [? ?]. eauto.
Qed.

(** Writing a file where one is leaves every path that resolved resolving
    to the same place. *)
Lemma locate_file_written p st k j d v :
  fs st !! j = Some (File d) ->
  locate p st = inr k ->
  locate p (set_fs (insert j v) st) = inr k.
Proof.
  intros Hj. apply locate_kept; [done|]. simpl.
  destruct j as [|c j].
  - intros i Hi. destruct i; [done|].
    unfold dir_at in *. simpl in *. by rewrite lookup_insert_ne.
  - apply dirs_kept_insert. unfold dir_at, node_at. by rewrite Hj.
Qed.

(** C2. With an enabled name and [is_main=true], when the log path exists
    and [continue_job=false], construction raises [LogAlreadyExistsError];
    no step was taken before the failure and the state, so the log file's
    content too, is the one construction started from. *)
Theorem existing_log_without_continuation_fails
    (job_group job_name : string) (st : process) :
  name_enabled job_name = true ->
  exists_in st (log_path_of job_group job_name) = true ->
  let r := __init__ job_group job_name false true st in
  value r = Raise (LogAlreadyExistsError
                     ("Log file " +:+ pathlib.str (log_path_of job_group job_name)
                      +:+ " already exists.")) /\
  steps r = [] /\
  final r = st /\
  file_at (final r) (log_path_of job_group job_name)
  = file_at st (log_path_of job_group job_name).
Proof.
  intros Hen Hex. apply log_exists_group_dir in Hex as Hd.
  assert (E : __init__ job_group job_name false true st =
              Run [] st (Raise (LogAlreadyExistsError
                ("Log file " +:+ pathlib.str (log_path_of job_group job_name)
                 +:+ " already exists.")))).
  { unfold __init__. rewrite Hen. fold (log_path_of job_group job_name).
    rewrite (run_bind_ok _ _ _ _ _ _ (Path_mkdir_existing _ _ Hd)). cbv beta.
    rewrite !bind_assoc.
    rewrite (run_bind_ok _ _ _ _ _ _ (Path_exists_eq _ _)). cbv beta.
    rewrite Hex, !bind_assoc.
    by rewrite (run_bind_raise _ _ _ _ _ _ (raise_eq _ _)). }
  cbv zeta. by rewrite E.
Qed.

Lemma existing_log_without_continuation_fails_witness :
  let st := final (__init__ "exp1" "run1" false true fresh_process) in
  name_enabled "run1" = true /\
  exists_in st (log_path_of "exp1" "run1") = true /\
  value (__init__ "exp1" "run1" false true st)
  = Raise (LogAlreadyExistsError
             "Log file logs_and_output/exp1/log_run1.txt already exists.") /\
  final (__init__ "exp1" "run1" false true st) = st.
Proof.
  cbv zeta. split; [reflexivity|]. split; [reflexivity|].
  pose proof (existing_log_without_continuation_fails "exp1" "run1"
    (final (__init__ "exp1" "run1" false true fresh_process))
    eq_refl eq_refl) as (Hv & _ & Hf & _).
  split; [exact Hv|exact Hf].
Defined.

(** C7. With an enabled name, [is_main=true] and [continue_job=true], when
    the log path is a regular file, construction succeeds; afterwards the
    log file holds its prior bytes followed by the banner
    ['=====\nContinuing job <group>/<name> at <YYYY-MM-DD HH:MM:SS>\n'],
    so the prior bytes are a strict prefix of the new ones. *)
Theorem continuation_appends_banner
    (job_group job_name : string) (st : process) (old : string) :
  name_enabled job_name = true ->
  file_at st (log_path_of job_group job_name) = Some old ->
  let r := __init__ job_group job_name true true st in
  let ts := strftime (clock st) in
  let new := old +:+ "=====" +:+ nl +:+ "Continuing job " +:+ job_group +:+ "/"
                 +:+ job_name +:+ " at " +:+ ts +:+ nl in
  (exists jo, value r = Ok jo) /\
  file_at (final r) (log_path_of job_group job_name) = Some new /\
  timestamp_form ts = true /\
  String.prefix old new = true /\ old <> new.
Proof.
  intros Hen Hold. cbv zeta.
  apply file_at_exists in Hold as Hex.
  apply log_exists_group_dir in Hex as Hd.
  apply file_at_located in Hold as (k & Hl & Hk & Hf).
  set (banner := continuing_banner job_group job_name (strftime (clock st))).
  set (st' := set_fs (insert k (File (old +:+ banner))) st).
  assert (E : exists jo, __init__ job_group job_name true true st =
                         Run [(StWrite k, st')] st' (Ok jo)).
  { unfold __init__. rewrite Hen. fold (log_path_of job_group job_name).
    rewrite (run_bind_ok _ _ _ _ _ _ (Path_mkdir_existing _ _ Hd)). cbv beta.
    rewrite !bind_assoc.
    rewrite (run_bind_ok _ _ _ _ _ _ (Path_exists_eq _ _)). cbv beta.
    rewrite Hex, !bind_assoc.
    rewrite (run_bind_ok _ _ _ _ _ _ (datetime_now_eq _)). cbv beta.
    rewrite bind_ret_l, ?bind_assoc.
    pose proof (Path_open_append_eq (log_path_of job_group job_name) st) as Eo.
    rewrite Hl, node_at_lookup, Hf in Eo by done.
    rewrite (run_bind_ok _ _ _ _ _ _ Eo). cbv beta.
    unfold file_writelines. rewrite !bind_assoc.
    pose proof (file_write_eq k banner st) as Ew. rewrite Hf in Ew.
    rewrite (run_bind_ok _ _ _ _ _ _ Ew). cbv beta.
    rewrite bind_ret_l, ?bind_assoc.
    rewrite (run_bind_ok _ _ _ _ _ _ (get_eq _)). cbv beta.
    simpl. eauto. }
  destruct E as [jo E]. rewrite E. simpl.
  split; [eauto|]. split; [|split; [apply timestamp_form_strftime|split]].
  - unfold file_at, stat, st'.
    rewrite (locate_file_written _ _ _ _ _ _ Hf Hl). simpl.
    by rewrite node_at_insert_eq.
  - apply prefix_app.
  - apply string_app_neq. done.
Qed.

Lemma continuation_appends_banner_witness :
  let st := final (__init__ "exp1" "run1" false true fresh_process) in
  name_enabled "run1" = true /\
  file_at st (log_path_of "exp1" "run1")
  = Some ("Starting job exp1/run1 at 2024-03-07 09:05:00" +:+ nl) /\
  file_at (final (__init__ "exp1" "run1" true true st)) (log_path_of "exp1" "run1")
  = Some ("Starting job exp1/run1 at 2024-03-07 09:05:00" +:+ nl +:+
          "=====" +:+ nl +:+
          "Continuing job exp1/run1 at 2024-03-07 09:05:00" +:+ nl).
Proof.
  cbv zeta. split; [reflexivity|]. split; [reflexivity|].
  pose proof (continuation_appends_banner "exp1" "run1"
    (final (__init__ "exp1" "run1" false true fresh_process))
    ("Starting job exp1/run1 at 2024-03-07 09:05:00" +:+ nl)
    eq_refl eq_refl) as (_ & Hf & _).
  exact Hf.
Defined.

Lemma chain_labels T (Q : step -> Prop) st l fin :
  (forall a x b, T a x b -> Q x) ->
  chain T st l fin -> Forall (fun x => Q (fst x)) l.
Proof. intros HT. induction 1; constructor; eauto. Qed.



Lemma disabled_construction_can_raise :
  value (__init__ "exp1" "none" false true blocked_process)
  = Raise (OSError ENOTDIR).
Proof. vm_compute. reflexivity. Qed.



(** ** Saving a checkpoint *)

Lemma Path_open_wb_eq p st :
  Path_open_wb p st =
  match locate p st with
  | inl e => Run [] st (Raise (OSError e))
  | inr k =>
      match node_at (fs st) k with
      | Some Dir => Run [] st (Raise (OSError EISDIR))
      | Some (File _) => Run [(StTruncate k, set_fs (insert k (File "")) st)]
                             (set_fs (insert k (File "")) st) (Ok k)
      | None => Run [(StCreate k, set_fs (insert k (File "")) st)]
                    (set_fs (insert k (File "")) st) (Ok k)
      end
  end.
Proof.
  unfold Path_open_wb, bind, get. simpl.
  destruct (locate p st); [done|]. by destruct (node_at _ _) as [[|]|].
Qed.

Lemma Path_unlink_eq p st :
  Path_unlink p st =
  match locate p st with
  | inl e => Run [] st (Raise (OSError e))
  | inr k =>
      match node_at (fs st) k with
      | None => Run [] st (Raise (OSError ENOENT))
      | Some Dir => Run [] st (Raise (OSError EISDIR))
      | Some (File _) => Run [(StUnlink k, set_fs (delete k) st)]
                             (set_fs (delete k) st) (Ok tt)
      end
  end.
Proof.
  unfold Path_unlink, bind, get. simpl.
  destruct (locate p st); [done|]. by destruct (node_at _ _) as [[|]|].
Qed.

(** Renaming a regular file to a place where no directory is. *)
Lemma Path_rename_file_eq p q st ks kd d :
  locate p st = inr ks -> locate q st = inr kd ->
  node_at (fs st) ks = Some (File d) ->
  node_at (fs st) kd <> Some Dir ->
  Path_rename p q st =
  Run [(StRename ks kd, set_fs (fun m => <[kd := File d]> (delete ks m)) st)]
      (set_fs (fun m => <[kd := File d]> (delete ks m)) st) (Ok tt).
Proof.
  intros Hp Hq Hs Hd. unfold Path_rename, bind, get. simpl.
  rewrite Hp, Hq, Hs. by destruct (node_at (fs st) kd) as [[|]|].
Qed.

Lemma set_fs_set_fs f g st : set_fs f (set_fs g st) = set_fs (fun m => f (g m)) st.
Proof. done. Qed.

Lemma set_fs_insert_insert k v w st :
  set_fs (insert k w) (set_fs (insert k v) st) = set_fs (insert k w) st.
Proof. unfold set_fs. simpl. by rewrite insert_insert_eq. Qed.

Lemma set_fs_insert_id k v st : fs st !! k = Some v -> set_fs (insert k v) st = st.
Proof. intros H. destruct st. unfold set_fs. simpl in *. by rewrite insert_id. Qed.

(** [torch.save] leaves the temporary file holding what it held followed by
    the bytes written, one write after the other. *)
Lemma write_each_spec D bytes x d st :
  fs st !! ("ckpt.pth.new" :: D) = Some (File d) ->
  let r := write_each ("ckpt.pth.new" :: D) x st in
  value r = Ok tt /\
  final r = set_fs (insert ("ckpt.pth.new" :: D) (File (d +:+ x))) st /\
  chain (save_step D bytes) st (steps r) (final r).
Proof.
  revert d st. induction x as [|c x IH]; intros d st Hf; cbv zeta.
  - simpl. rewrite string_app_nil_r, set_fs_insert_id by done.
    repeat split. constructor.
  - simpl. rewrite value_bind, final_bind, steps_bind, file_write_eq, Hf.
    calm_simpl.
    set (st1 := set_fs (insert ("ckpt.pth.new" :: D) (File (d +:+ String c ""))) st).
    destruct (IH (d +:+ String c "") st1) as (Hv & Hfin & Hc).
    { simpl. apply lookup_insert_eq. }
    assert (E : set_fs (insert ("ckpt.pth.new" :: D)
                          (File ((d +:+ String c "") +:+ x))) st1
                = set_fs (insert ("ckpt.pth.new" :: D)
                            (File (d +:+ String c x))) st).
    { unfold st1. by rewrite set_fs_insert_insert, string_app_assoc. }
    rewrite E in Hfin. rewrite Hfin in Hc. rewrite Hv, Hfin.
    repeat split. constructor; [by constructor|done].
Qed.

Lemma locate_child d c D st :
  String.eqb c ".." = false -> at_job_dir d D st ->
  locate (pathlib.mkPath (pathlib.anchored d) (pathlib.parts d ++ [c])) st
  = inr (c :: D).
Proof.
  intros Hc [Hl Hd]. unfold locate, start_of in *. simpl.
  erewrite walk_snoc_dir; [|exact Hl|exact Hd]. unfold enter. by rewrite Hc.
Qed.

Lemma at_job_dir_kept d D st st' :
  cwd st' = cwd st -> dirs_kept (fs st) (fs st') ->
  at_job_dir d D st -> at_job_dir d D st'.
Proof.
  intros Hc Hk [Hl Hd]. split; [by apply (locate_kept d st)|by apply Hk].
Qed.

(** Changing a file next to the job directory's entry keeps the directory. *)
Lemma at_job_dir_insert d D c v st :
  node_at (fs st) (c :: D) <> Some Dir ->
  at_job_dir d D st -> at_job_dir d D (set_fs (insert (c :: D) v) st).
Proof.
  intros Hn. apply at_job_dir_kept; [done|]. simpl.
  apply dirs_kept_insert. unfold dir_at.
  by destruct (node_at (fs st) (c :: D)) as [[|]|].
Qed.

Lemma at_job_dir_delete d D c st :
  node_at (fs st) (c :: D) <> Some Dir ->
  at_job_dir d D st -> at_job_dir d D (set_fs (delete (c :: D)) st).
Proof.
  intros Hn. apply at_job_dir_kept; [done|]. simpl.
  apply dirs_kept_delete. unfold dir_at.
  by destruct (node_at (fs st) (c :: D)) as [[|]|].
Qed.

Lemma save_spec_bind {A} d D bytes (m : M A) (f : A -> M unit) st :
  chain (save_step D bytes) st (steps (m st)) (final (m st)) ->
  only_OSError (m st) ->
  (forall a, value (m st) = Ok a ->
             save_spec d D bytes (final (m st)) (f a (final (m st)))) ->
  save_spec d D bytes st (bind m f st).
Proof.
  intros Hc Ho Hf. unfold save_spec.
  rewrite steps_bind, final_bind, value_bind.
  destruct (value (m st)) as [a|e] eqn:E.
  - destruct (Hf a eq_refl) as (Hc' & Ho' & Hp').
    split; [by eapply chain_app|]. split; [|done].
    intros e. specialize (Ho' e). by rewrite value_bind, E.
  - rewrite app_nil_r. split; [done|]. split; [|done].
    intros e'. rewrite value_bind, E. intros [= <-]. by apply Ho.
Qed.

(** The last step of a save: the temporary file becomes the checkpoint. *)
Lemma save_spec_rename d D bytes st :
  at_job_dir d D st ->
  fs st !! ("ckpt.pth.new" :: D) = Some (File bytes) ->
  fs st !! ("ckpt.pth" :: D) = None ->
  save_spec d D bytes st
    (Path_rename (pathlib.mkPath (pathlib.anchored d)
                    (pathlib.parts d ++ ["ckpt.pth.new"]))
                 (d </> "ckpt.pth") st).
Proof.
  intros Hd Hn Hc. unfold save_spec. rewrite !checkpoint_path_parts.
  erewrite Path_rename_file_eq;
    [|by apply locate_child|by apply locate_child|done|simpl; by rewrite Hc].
  split; [|split].
  - simpl. constructor; [by constructor|constructor].
  - by intros e.
  - intros _. simpl. unfold file_at, stat.
    erewrite locate_child; [|done|].
    + simpl. by rewrite lookup_insert_eq.
    + apply (at_job_dir_kept d D st); [done| |done]. simpl.
      eapply dirs_kept_trans.
      * apply (dirs_kept_delete _ ("ckpt.pth.new" :: D)).
        unfold dir_at. simpl. by rewrite Hn.
      * apply dirs_kept_insert. unfold dir_at. simpl.
        rewrite lookup_delete_ne by done. by rewrite Hc.
Qed.

Lemma exists_in_child d c D st :
  String.eqb c ".." = false -> at_job_dir d D st ->
  exists_in st (pathlib.mkPath (pathlib.anchored d) (pathlib.parts d ++ [c]))
  = match fs st !! (c :: D) with Some _ => true | None => false end.
Proof.
  intros Hc Hd. unfold exists_in, stat. rewrite (locate_child d c D) by done.
  simpl. by destruct (fs st !! (c :: D)).
Qed.

(** The end of a save: the old checkpoint, if any, is unlinked, then the
    temporary file is renamed. *)
Lemma save_spec_replace d D bytes st :
  at_job_dir d D st ->
  fs st !! ("ckpt.pth.new" :: D) = Some (File bytes) ->
  save_spec d D bytes st
    ((old <- Path_exists (d </> "ckpt.pth") ;;
      (if old then Path_unlink (d </> "ckpt.pth") else ret tt) ;;
      Path_rename (pathlib.mkPath (pathlib.anchored d)
                     (pathlib.parts d ++ ["ckpt.pth.new"]))
                  (d </> "ckpt.pth")) st).
Proof.
  intros Hd Hn. apply save_spec_bind.
  { apply runs_Path_exists. }
  { by intros e. }
  intros old Hold. change (final (Path_exists (d </> "ckpt.pth") st)) with st.
  assert (Eold : old = match fs st !! ("ckpt.pth" :: D) with
                       | Some _ => true | None => false end).
  { rewrite <- (exists_in_child d "ckpt.pth" D st) by done.
    unfold Path_exists, bind, get, ret in Hold. simpl in Hold.
    rewrite checkpoint_path_parts in Hold. congruence. }
  clear Hold.
  assert (Hl : locate (d </> "ckpt.pth") st = inr ("ckpt.pth" :: D)).
  { rewrite checkpoint_path_parts. by apply locate_child. }
  destruct (fs st !! ("ckpt.pth" :: D)) as [[d0|]|] eqn:Ec; subst old.
  - (* a regular file: unlinked, then replaced *)
    apply save_spec_bind; rewrite Path_unlink_eq, Hl; simpl; rewrite Ec.
    { constructor; [by econstructor|constructor]. }
    { by intros e. }
    intros _ _. simpl. apply save_spec_rename.
    + apply at_job_dir_delete; [simpl; by rewrite Ec|done].
    + simpl. by rewrite lookup_delete_ne.
    + simpl. by rewrite lookup_delete_eq.
  - (* a directory: [unlink] raises *)
    apply save_spec_bind; rewrite Path_unlink_eq, Hl; simpl; rewrite Ec.
    { constructor. }
    { intros e [= <-]. eauto. }
    done.
  - (* nothing there *)
    apply save_spec_bind.
    { constructor. }
    { by intros e. }
    intros _ _. simpl. by apply save_spec_rename.
Qed.

(** A save from a state where the job directory is there. *)
Lemma save_after_mkdir_spec {R} {P : Pickle R} d D (data : R) st :
  at_job_dir d D st ->
  save_spec d D (dumps data) st (save_after_mkdir (d </> "ckpt.pth") data st).
Proof.
  intros Hd. unfold save_after_mkdir. rewrite new_path_parts. cbv zeta.
  assert (Hl : locate (pathlib.mkPath (pathlib.anchored d)
                 (pathlib.parts d ++ ["ckpt.pth.new"])) st
               = inr ("ckpt.pth.new" :: D)) by by apply locate_child.
  set (s1 := set_fs (insert ("ckpt.pth.new" :: D) (File "")) st).
  assert (Hrest : node_at (fs st) ("ckpt.pth.new" :: D) <> Some Dir ->
    save_spec d D (dumps data) s1
      ((torch_save data ("ckpt.pth.new" :: D) ;;
        old <- Path_exists (d </> "ckpt.pth") ;;
        (if old then Path_unlink (d </> "ckpt.pth") else ret tt) ;;
        Path_rename (pathlib.mkPath (pathlib.anchored d)
                       (pathlib.parts d ++ ["ckpt.pth.new"]))
                    (d </> "ckpt.pth")) s1)).
  { intros Hnd. unfold torch_save.
    destruct (write_each_spec D (dumps data) (dumps data) "" s1)
      as (Hv & Hf & Hc); [simpl; apply lookup_insert_eq|].
    apply save_spec_bind; [done|intros e; by rewrite Hv|].
    intros _ _. rewrite Hf. simpl "+:+". unfold s1.
    rewrite set_fs_insert_insert. apply save_spec_replace.
    - by apply at_job_dir_insert.
    - simpl. apply lookup_insert_eq. }
  apply save_spec_bind; rewrite Path_open_wb_eq, Hl;
    destruct (node_at (fs st) ("ckpt.pth.new" :: D)) as [[d0|]|] eqn:En; simpl.
  all: try (constructor; [constructor; [tauto|by rewrite En]|constructor]).
  all: try (intros e [= <-]; eauto; fail).
  all: try (by intros e).
  all: try constructor.
  all: try (intros a [= <-]; apply Hrest; by rewrite En).
Qed.

Lemma write_checkpoint_main {R} {P : Pickle R} lp d out err (data : R) :
  write_checkpoint
    (mkJobOutput true true lp (Some d) (Some (d </> "ckpt.pth")) out err) data
  = (Path_mkdir d true true ;; save_after_mkdir (d </> "ckpt.pth") data).
Proof. reflexivity. Qed.

Lemma is_dir_in_at_job_dir d st :
  is_dir_in st d = true -> exists D, at_job_dir d D st.
Proof.
  unfold is_dir_in, stat, at_job_dir.
  destruct (locate d st) as [e|D]; [done|].
  destruct (node_at (fs st) D) as [[|]|] eqn:E; try done.
  intros _. exists D. split; [done|]. by apply dir_at_true.
Qed.

(** What [read_checkpoint] returns is decided by the regular file at the
    checkpoint path; it takes no step. *)
Lemma read_checkpoint_eq {R} {P : Pickle R} (jo : JobOutput) ckpt hint st :
  checkpoint_path jo = Some ckpt ->
  read_checkpoint (R := R) jo hint st =
  Run [] st match file_at st ckpt with
            | Some bytes => match loads bytes with
                            | Some r => Ok (Some r)
                            | None => Raise UnpicklingError
                            end
            | None => Ok None
            end.
Proof.
  intros Hc. unfold read_checkpoint, checkpoint_exists. rewrite Hc.
  unfold Path_is_file, torch_load, Path_read, bind, get, ret. simpl.
  unfold is_file_in, file_at.
  destruct (stat ckpt st) as [e|[bytes|]] eqn:E; simpl; try done.
  rewrite E. simpl. by destruct (loads bytes).
Qed.

(** A save by the main unit of an enabled facade: what it runs, and what
    it leaves when it returns. *)
Lemma write_checkpoint_spec {R} {P : Pickle R} d lp out err (data : R) st :
  let jo := mkJobOutput true true lp (Some d) (Some (d </> "ckpt.pth")) out err in
  let w := write_checkpoint jo data st in
  only_OSError w /\
  (value w = Ok tt -> file_at (final w) (d </> "ckpt.pth") = Some (dumps data)).
Proof.
  cbv zeta. rewrite write_checkpoint_main.
  assert (Hs : value (Path_mkdir d true true st) = Ok tt ->
               exists D, save_spec d D (dumps data)
                 (final (Path_mkdir d true true st))
                 (save_after_mkdir (d </> "ckpt.pth") data
                    (final (Path_mkdir d true true st)))).
  { intros Hv. apply Path_mkdir_ok, is_dir_in_at_job_dir in Hv as [D HD].
    exists D. by apply save_after_mkdir_spec. }
  split.
  - apply only_OSError_bind; [apply only_OSError_Path_mkdir|].
    intros [] Hv. by destruct (Hs Hv) as (D & _ & Ho & _).
  - rewrite value_bind, final_bind.
    destruct (value (Path_mkdir d true true st)) as [[]|] eqn:Hv; [|done].
    by destruct (Hs eq_refl) as (D & _ & _ & Hp).
Qed.

(** ** Trees *)

Lemma elem_of_rev {A} (x : A) (l : list A) : x ∈ rev l <-> x ∈ l.
Proof. rewrite !list_elem_of_In. symmetry. apply in_rev. Qed.

Lemma chain_refine (T T' : process -> step -> process -> Prop)
    (I : process -> Prop) st l fin :
  (forall a x b, I a -> T a x b -> T' a x b /\ I b) ->
  chain T st l fin -> I st -> chain T' st l fin /\ I fin.
Proof.
  intros HT. induction 1 as [|st x s rest fin Hx _ IH]; intros Hst.
  - split; [constructor|done].
  - destruct (HT _ _ _ Hst Hx) as [Hx' Hs]. destruct (IH Hs) as [Hc Hf].
    split; [by constructor|done].
Qed.

(** In a tree every node above a node is a directory. *)
Lemma tree_ancestor m (pre k : loc) :
  map_Forall (fun k _ => dir_at m (List.tl k) = true) m ->
  pre <> [] -> is_Some (m !! (pre ++ k)) -> dir_at m k = true.
Proof.
  intros Hwf. induction pre as [|x pre IH]; intros Hne [n Hn]; [done|].
  apply Hwf in Hn as Hd. simpl in Hd.
  destruct pre as [|y pre]; [done|].
  apply IH; [done|]. apply dir_at_true in Hd. simpl in Hd. eauto.
Qed.

(** In a tree, a plain path to a node that is there can be walked. *)
Lemma walk_tree m cur cs :
  map_Forall (fun k _ => dir_at m (List.tl k) = true) m ->
  ".." ∉ cs -> cs <> [] -> is_Some (m !! (rev cs ++ cur)) ->
  walk m cur cs = inr (rev cs ++ cur).
Proof.
  intros Hwf. revert cur. induction cs as [|c cs IH]; intros cur Hp Hne Hn; [done|].
  simpl in *. rewrite <- app_assoc in Hn. simpl in Hn.
  assert (Hd : dir_at m cur = true).
  { apply (tree_ancestor m (rev cs ++ [c])); [done|by destruct (rev cs)|].
    by rewrite <- app_assoc. }
  apply dir_at_true in Hd. rewrite Hd.
  assert (Hc : enter cur c = c :: cur).
  { unfold enter. destruct (String.eqb_spec c ".."); [set_solver|done]. }
  rewrite Hc. destruct cs as [|c' cs'].
  - simpl. done.
  - rewrite IH; [by rewrite <- app_assoc| |done|done].
    intros Hin. apply Hp. by right.
Qed.

(** A place that a path reaches and where nothing is, in a well-formed
    state: its parent is a directory. *)
Lemma fresh_location_parent p st k :
  well_formed st -> locate p st = inr k -> node_at (fs st) k = None ->
  k <> [] /\ dir_at (fs st) (List.tl k) = true.
Proof.
  intros [Hwf Hcwd] Hl Hn. split; [by apply node_at_none in Hn as [? _]|].
  unfold locate in Hl.
  destruct (pathlib.parts p) as [|c cs _] using rev_ind.
  - simpl in Hl. injection Hl as <-. unfold start_of in Hn.
    destruct (pathlib.anchored p); [done|].
    apply dir_at_true in Hcwd. congruence.
  - apply walk_snoc in Hl as (D & _ & HD & ->).
    unfold enter in *. destruct (String.eqb c ".."); [|done].
    destruct D as [|x D]; [done|]. simpl in *.
    apply dir_at_true in HD. simpl in HD. apply Hwf in HD. simpl in HD.
    apply dir_at_true in HD. congruence.
Qed.

(** Making a directory keeps a well-formed state well formed. *)
Lemma well_formed_mkdir p st k :
  well_formed st -> locate p st = inr k -> node_at (fs st) k = None ->
  well_formed (set_fs (insert k Dir) st).
Proof.
  intros Hwf Hl Hn.
  destruct (fresh_location_parent p st k Hwf Hl Hn) as [Hk Hpar].
  assert (Hkept : dirs_kept (fs st) (<[k := Dir]> (fs st))).
  { apply dirs_kept_insert. unfold dir_at. by rewrite Hn. }
  destruct Hwf as [Hwf Hcwd]. split; simpl.
  - intros j n Hj. destruct (decide (j = k)) as [->|Hne].
    + by apply Hkept.
    + rewrite lookup_insert_ne in Hj by done. apply Hkept. by apply (Hwf j n).
  - by apply Hkept.
Qed.

Lemma resolves_eq st st' p k :
  locate p st = inr k -> locate p st' = inr k ->
  node_at (fs st') k = node_at (fs st) k ->
  resolves st' p = resolves st p.
Proof. intros H1 H2 Hn. unfold resolves, stat. by rewrite H1, H2, Hn. Qed.

(** Making a directory at the place of a shorter plain path does not change
    what a longer plain path with the same anchor resolves to. *)
Lemma made_dir_aside a rparts q st l st' :
  well_formed st -> ".." ∉ rparts -> plain q ->
  pathlib.anchored q = a -> length rparts < length (pathlib.parts q) ->
  made_dir a rparts st l st' ->
  mkdir_aside q st l st' /\ well_formed st'.
Proof.
  intros Hwf Hpr Hpq Ha Hlen (k & sfx & -> & Hsfx & Hl & Hn & ->).
  split; [|by eapply well_formed_mkdir]. split; [done|].
  assert (Hkept : dirs_kept (fs st) (<[k := Dir]> (fs st))).
  { apply dirs_kept_insert. unfold dir_at. by rewrite Hn. }
  (* where the directory is made *)
  assert (Hk : k = sfx ++ start_of q st).
  { unfold locate in Hl. simpl in Hl. apply walk_plain in Hl.
    - rewrite rev_involutive in Hl. unfold start_of in *. simpl in Hl.
      by rewrite Ha.
    - intros Hin. apply Hpr. destruct Hsfx as [pre ->].
      apply elem_of_app. right. by rewrite elem_of_rev in Hin. }
  assert (Hlk : length k < length (rev (pathlib.parts q) ++ start_of q st)).
  { rewrite Hk, !length_app, length_rev.
    destruct Hsfx as [pre ->]. rewrite length_app in Hlen. lia. }
  set (Q := rev (pathlib.parts q) ++ start_of q st) in *.
  assert (HQk : Q <> k) by (intros E; rewrite E in Hlk; lia).
  destruct (locate q st) as [e|Q'] eqn:Eq.
  - (* the longer path did not resolve: it still resolves to nothing *)
    unfold resolves at 2. unfold stat. rewrite Eq.
    unfold resolves, stat.
    destruct (locate q (set_fs (insert k Dir) st)) as [e'|Q''] eqn:Eq'; [done|].
    assert (Q'' = Q) as ->.
    { unfold locate in Eq'. by apply walk_plain in Eq'. }
    simpl. rewrite node_at_insert_ne by done.
    destruct (node_at (fs st) Q) as [n|] eqn:En; [|done].
    exfalso. unfold locate in Eq. rewrite walk_tree in Eq; try done.
    + by destruct Hwf.
    + intros E. rewrite E in Hlen. simpl in Hlen. lia.
    + destruct Q eqn:EQ; [simpl in Hlk; lia|]. rewrite <- EQ in *.
      unfold Q in En. rewrite node_at_lookup in En; [eauto|].
      fold Q. by rewrite EQ.
  - (* it resolved: to the same place, where the same node is *)
    assert (Q' = Q) as ->.
    { unfold locate in Eq. by apply walk_plain in Eq. }
    eapply resolves_eq; [exact Eq| |].
    + by apply (locate_kept q st).
    + simpl. by rewrite node_at_insert_ne.
Qed.

(** [mkdir(parents=True, exist_ok=True)] on a plain path, from a well-formed
    state: every step makes a directory and leaves what a longer plain path
    resolves to as it was; the state stays well formed. *)
Lemma Path_mkdir_aside p q st :
  well_formed st -> plain p -> plain q ->
  pathlib.anchored q = pathlib.anchored p ->
  length (pathlib.parts p) < length (pathlib.parts q) ->
  runs_by (mkdir_aside q) (Path_mkdir p true true) st /\
  well_formed (final (Path_mkdir p true true st)).
Proof.
  intros Hwf Hp Hq Ha Hlen.
  eapply chain_refine; [|apply runs_Path_mkdir|exact Hwf].
  intros x l y Hx Hm.
  apply (made_dir_aside (pathlib.anchored p) (rev (pathlib.parts p)) q x l y);
    try done.
  - intros Hin. apply Hp. by rewrite elem_of_rev in Hin.
  - by rewrite length_rev.
Qed.

(** ** A fresh run *)

Lemma resolves_exists st p :
  exists_in st p = match resolves st p with Some _ => true | None => false end.
Proof. unfold exists_in, resolves. by destruct (stat p st). Qed.

Lemma resolves_is_dir st p :
  is_dir_in st p = match resolves st p with Some Dir => true | _ => false end.
Proof. unfold is_dir_in, resolves. by destruct (stat p st) as [|[|]]. Qed.

Lemma resolves_file_at st p :
  file_at st p = match resolves st p with Some (File d) => Some d | _ => None end.
Proof. unfold file_at, resolves. by destruct (stat p st) as [|[|]]. Qed.

(** Along steps that leave what [q] resolves to as it was, it resolves to
    the same at every instant. *)
Lemma mkdir_aside_instants q st l fin :
  chain (mkdir_aside q) st l fin ->
  Forall (fun s => resolves s q = resolves st q) (List.map snd l) /\
  resolves fin q = resolves st q.
Proof.
  intros Hc.
  apply (chain_invariant (mkdir_aside q) (fun s => resolves s q = resolves st q)
           st l fin); [|done|done].
  intros a x b [_ Hb] Ha. congruence.
Qed.

(** ** What the checkpoint path shows during a save *)

Lemma chain_prefix T st l1 l2 fin :
  chain T st (l1 ++ l2) fin -> exists mid, chain T st l1 mid.
Proof.
  revert st. induction l1 as [|[x s] l1 IH]; intros st Hc.
  - exists st. constructor.
  - simpl in Hc. inversion Hc; subst.
    destruct (IH _ H5) as [mid Hm]. exists mid. by constructor.
Qed.

(** An invariant kept by the steps whose label satisfies [Q] holds at every
    instant of a run all of whose labels satisfy [Q]. *)
Lemma chain_invariant_on T (Q : step -> Prop) (I : process -> Prop) st l fin :
  (forall a x b, T a x b -> Q x -> I a -> I b) ->
  chain T st l fin -> Forall (fun x => Q (fst x)) l -> I st ->
  Forall I (List.map snd l).
Proof.
  intros HT. induction 1 as [|st x s rest fin Hx _ IH]; intros HQ Hst; simpl.
  - constructor.
  - inversion HQ; subst. simpl in *.
    assert (I s) by eauto. constructor; auto.
Qed.

(** In the job directory, the checkpoint path resolves to the entry
    [ckpt.pth] of that directory. *)
Lemma resolves_ckpt d D st :
  at_job_dir d D st -> resolves st (d </> "ckpt.pth") = fs st !! ("ckpt.pth" :: D).
Proof.
  intros Hd. unfold resolves, stat. rewrite checkpoint_path_parts.
  rewrite (locate_child d "ckpt.pth" D st) by done. simpl.
  by destruct (fs st !! ("ckpt.pth" :: D)).
Qed.

Lemma save_step_ckpt d D bytes a l b :
  at_job_dir d D a -> save_step D bytes a l b ->
  ckpt_step (d </> "ckpt.pth") bytes a l b /\ at_job_dir d D b.
Proof.
  intros Hd Hs.
  assert (Hb : at_job_dir d D b).
  { destruct Hs as [st l Hl Hn|st d0 x Hf|st d0 Hf|st Hn Hc].
    - by apply at_job_dir_insert.
    - apply at_job_dir_insert; [simpl; by rewrite Hf|done].
    - apply at_job_dir_delete; [simpl; by rewrite Hf|done].
    - apply (at_job_dir_kept d D st); [done| |done]. simpl.
      eapply dirs_kept_trans.
      + apply (dirs_kept_delete _ ("ckpt.pth.new" :: D)).
        unfold dir_at. simpl. by rewrite Hn.
      + apply dirs_kept_insert. unfold dir_at. simpl.
        rewrite lookup_delete_ne by done. by rewrite Hc. }
  split; [|done]. unfold ckpt_step.
  rewrite (resolves_ckpt d D a), (resolves_ckpt d D b) by done.
  destruct Hs as [st l Hl Hn|st d0 x Hf|st d0 Hf|st Hn Hc]; simpl.
  - left. rewrite lookup_insert_ne by done. by destruct Hl as [-> | ->].
  - left. by rewrite lookup_insert_ne.
  - right. left. by rewrite lookup_delete_eq.
  - right. right. by rewrite lookup_insert_eq.
Qed.

Lemma mkdir_aside_ckpt q bytes a l b :
  mkdir_aside q a l b -> ckpt_step q bytes a l b.
Proof. intros [Hl Hr]. left. by destruct l. Qed.

(** The checkpoint path lies below the job directory. *)
Lemma checkpoint_path_below d :
  pathlib.anchored (d </> "ckpt.pth") = pathlib.anchored d /\
  length (pathlib.parts d) < length (pathlib.parts (d </> "ckpt.pth")) /\
  (plain (d </> "ckpt.pth") -> plain d).
Proof.
  rewrite checkpoint_path_parts. simpl.
  split; [done|]. split; [rewrite length_app; simpl; lia|].
  unfold plain. simpl. intros H Hin. apply H. apply elem_of_app. by left.
Qed.

(** Every step of a save by the main unit is a [ckpt_step]. *)
Lemma write_checkpoint_runs {R} {P : Pickle R} d lp out err (data : R) st :
  well_formed st -> plain (d </> "ckpt.pth") ->
  runs_by (ckpt_step (d </> "ckpt.pth") (dumps data))
    (write_checkpoint
       (mkJobOutput true true lp (Some d) (Some (d </> "ckpt.pth")) out err) data)
    st.
Proof.
  intros Hwf Hplain. rewrite write_checkpoint_main.
  destruct (checkpoint_path_below d) as (Ha & Hlen & Hpl).
  apply runs_by_bind.
  - destruct (Path_mkdir_aside d (d </> "ckpt.pth") st Hwf (Hpl Hplain)
                Hplain Ha Hlen) as [Hc _].
    eapply chain_weaken; [|exact Hc]. intros a l b. apply mkdir_aside_ckpt.
  - intros [] Hv. apply Path_mkdir_ok, is_dir_in_at_job_dir in Hv as [D HD].
    destruct (save_after_mkdir_spec d D data _ HD) as (Hc & _ & _).
    eapply (chain_refine _ _ (at_job_dir d D)); [|exact Hc|exact HD].
    intros a l b Ha' Hs. by apply save_step_ckpt.
Qed.

(** C1, as stated, fails: when the main unit of job [exp1/run1] saves the
    record [[4; 5]] over the saved record [[1; 2; 3]], there is an instant,
    after the unlink of the old file and before the rename, at which the
    checkpoint path shows neither the old nor the new record; the step
    that led there is not the rename. *)
Lemma save_has_instant_without_checkpoint :
  ~ (forall (data : list nat) (st : process),
        let P := byte_pickle in
        let w := write_checkpoint sample_facade data st in
        forall s, In s (instants w st) ->
          file_at s (checkpoint_path_of "exp1" "run1")
          = file_at st (checkpoint_path_of "exp1" "run1") \/
          file_at s (checkpoint_path_of "exp1" "run1") = Some (dumps data)).
Proof.
  intros H. specialize (H [4; 5] saved_process). cbv zeta in H.
  set (w := write_checkpoint (H := byte_pickle) sample_facade [4; 5] saved_process) in H.
  assert (Hin : In (List.nth 4 (instants w saved_process) saved_process)
                   (instants w saved_process)).
  { apply nth_In. vm_compute. lia. }
  destruct (H _ Hin) as [E|E]; vm_compute in E; discriminate E.
Qed.

(** C1, amended. During [write_checkpoint] by the main unit of an enabled
    facade, from a well-formed state and with a checkpoint path without
    [".."]: the only steps that change what the checkpoint path resolves to
    are the unlink of the old checkpoint, after which it resolves to
    nothing, and the rename, after which it resolves to the complete new
    file; so at every instant it resolves to what it did before the save,
    to nothing or to the complete new file, never to a half-written one. *)
Theorem save_shows_old_nothing_or_new {R : Type} {P : Pickle R}
    (job_group job_name : string) (continue_job : bool)
    (st0 : process) (jo : JobOutput) (data : R) (st : process) :
  name_enabled job_name = true ->
  value (__init__ job_group job_name continue_job true st0) = Ok jo ->
  well_formed st ->
  plain (checkpoint_path_of job_group job_name) ->
  let ckpt := checkpoint_path_of job_group job_name in
  let w := write_checkpoint jo data st in
  chain (ckpt_step ckpt (dumps data)) st (steps w) (final w) /\
  forall s, In s (instants w st) ->
    resolves s ckpt = resolves st ckpt \/
    resolves s ckpt = None \/
    resolves s ckpt = Some (File (dumps data)).
Proof.
  intros Hen Hv Hwf Hplain. apply init_enabled_value in Hv; [|done]. subst jo.
  cbv zeta. unfold checkpoint_path_of in *.
  pose proof (write_checkpoint_runs (job_dir_of job_group job_name)
    (Some (log_path_of job_group job_name))
    (_LogHelper (log_path_of job_group job_name) (sys_stdout st0))
    (_LogHelper (log_path_of job_group job_name) (sys_stderr st0))
    data st Hwf Hplain) as Hc.
  split; [exact Hc|].
  set (ckpt := job_dir_of job_group job_name </> "ckpt.pth") in *.
  set (I := fun s => resolves s ckpt = resolves st ckpt \/
                     resolves s ckpt = None \/
                     resolves s ckpt = Some (File (dumps data))).
  assert (HI : Forall I (List.map snd (steps (write_checkpoint
              (mkJobOutput true true (Some (log_path_of job_group job_name))
                 (Some (job_dir_of job_group job_name))
                 (Some ckpt)
                 (_LogHelper (log_path_of job_group job_name) (sys_stdout st0))
                 (_LogHelper (log_path_of job_group job_name) (sys_stderr st0)))
              data st)))).
  { eapply (chain_invariant _ I); [|exact Hc|by left].
    intros a l b [(_ & _ & E)|[(_ & E)|(_ & E)]] Ha; unfold I in *.
    - rewrite E. exact Ha.
    - right. by left.
    - right. by right. }
  intros s [<-|Hin]; [by left|].
  rewrite Forall_forall in HI. apply HI. by apply list_elem_of_In.
Qed.

Lemma save_shows_old_nothing_or_new_witness :
  let P := byte_pickle in
  let ckpt := checkpoint_path_of "exp1" "run1" in
  let w := write_checkpoint sample_facade [4; 5] saved_process in
  well_formed saved_process /\ plain ckpt /\
  forall s, In s (instants w saved_process) ->
    resolves s ckpt = resolves saved_process ckpt \/
    resolves s ckpt = None \/
    resolves s ckpt = Some (File (dumps [4; 5])).
Proof.
  cbv zeta.
  assert (H1 : well_formed saved_process).
  { refine (@bool_decide_unpack _ (well_formed_dec _) _). vm_compute. exact I. }
  assert (H2 : plain (checkpoint_path_of "exp1" "run1")).
  { refine (@bool_decide_unpack _ (plain_dec _) _). vm_compute. exact I. }
  assert (H3 : value (__init__ "exp1" "run1" false true fresh_process)
               = Ok sample_facade) by (vm_compute; reflexivity).
  split; [exact H1|]. split; [exact H2|].
  exact (proj2 (save_shows_old_nothing_or_new (P := byte_pickle)
                  "exp1" "run1" false fresh_process sample_facade [4; 5]
                  saved_process eq_refl H3 H1 H2)).
Defined.

(** ** The directories of a job *)

Lemma chain_end T T' st l fin fin' :
  chain T st l fin -> chain T' st l fin' -> fin = fin'.
Proof.
  induction 1 as [|st x s rest fin _ _ IH]; inversion 1; subst; [done|].
  by apply IH.
Qed.

Lemma chain_app_inv T st l1 l2 fin :
  chain T st (l1 ++ l2) fin ->
  exists mid, chain T st l1 mid /\ chain T mid l2 fin.
Proof.
  revert st. induction l1 as [|[x s] l1 IH]; intros st Hc.
  - exists st. split; [constructor|done].
  - simpl in Hc. inversion Hc; subst.
    destruct (IH _ H5) as (mid & H1 & H2). exists mid. split; [by constructor|done].
Qed.

(** The steps of what follows a call that returned. *)
Lemma runs_by_bind_tail {A B} T (m : M A) (f : A -> M B) st a :
  runs_by T (bind m f) st -> runs_by T m st -> value (m st) = Ok a ->
  runs_by T (f a) (final (m st)).
Proof.
  unfold runs_by. rewrite steps_bind, final_bind. intros Hc Hm Hv.
  rewrite Hv in Hc. apply chain_app_inv in Hc as (mid & H1 & H2).
  pose proof (chain_end _ _ _ _ _ _ H1 Hm) as E. by subst mid.
Qed.

Lemma runs_file_step_open_append p st : runs_by file_step (Path_open_append p) st.
Proof.
  unfold runs_by. rewrite Path_open_append_eq.
  destruct (locate p st) as [e|k] eqn:El; simpl; [constructor|].
  destruct (node_at (fs st) k) as [[|]|] eqn:En; simpl; try constructor.
  - exists k, "". split; [done|]. right. eauto.
  - constructor.
Qed.

Lemma runs_file_step_write f x st : runs_by file_step (file_write f x) st.
Proof.
  unfold runs_by. rewrite file_write_eq.
  destruct (fs st !! f) as [[d|]|] eqn:Ef; simpl; try constructor.
  - exists f, (d +:+ x). split; [done|]. left. eauto.
  - constructor.
Qed.

Lemma runs_file_step_writelines f lines st :
  runs_by file_step (file_writelines f lines) st.
Proof.
  revert st. induction lines as [|x rest IH]; intros st; simpl; [apply runs_by_ret|].
  apply runs_by_bind; [apply runs_file_step_write|]. intros _ _. apply IH.
Qed.

(** Every step of a construction makes a directory of the job_group
    directory or writes the log file. *)
Lemma runs___init__ g n c m st :
  runs_by (init_step (pathlib.anchored (output_dir_of g))
                     (rev (pathlib.parts (output_dir_of g))))
          (__init__ g n c m) st.
Proof.
  unfold __init__. apply runs_by_bind.
  { eapply chain_weaken; [|apply runs_Path_mkdir]. intros a l b. by left. }
  intros _ _. destruct (name_enabled n); [|apply runs_by_ret].
  apply runs_by_bind.
  - destruct m; [|apply runs_by_ret].
    apply runs_by_bind; [apply runs_Path_exists|]. intros ex _.
    apply runs_by_bind.
    + destruct ex; [destruct c|]; runs_steps; apply runs_datetime_now.
    + intros lines _. apply runs_by_bind.
      * eapply chain_weaken; [|apply runs_file_step_open_append].
        intros a l b. by right.
      * intros f _. eapply chain_weaken; [|apply runs_file_step_writelines].
        intros a l b. by right.
  - intros _ _. apply runs_by_bind; [apply runs_by_get|]. intros s _.
    destruct m; apply runs_by_ret.
Qed.

Lemma file_step_dir_at a l b k :
  file_step a l b -> dir_at (fs b) k = dir_at (fs a) k.
Proof.
  intros (j & d & -> & Hj). simpl.
  destruct (decide (k = j)) as [->|Hne].
  - unfold dir_at. destruct j as [|c j]; [done|]. simpl.
    rewrite lookup_insert_eq. destruct Hj as [[d0 ->]|[Hn _]]; [done|].
    simpl in Hn. by rewrite Hn.
  - unfold dir_at. by rewrite node_at_insert_ne.
Qed.

(** Whether a path is a directory depends on the directories only. *)
Lemma is_dir_in_same_dirs st st' p :
  cwd st' = cwd st ->
  (forall k, dir_at (fs st') k = dir_at (fs st) k) ->
  is_dir_in st' p = is_dir_in st p.
Proof.
  intros Hc Hd.
  assert (H1 : dirs_kept (fs st) (fs st')) by (intros k; by rewrite Hd).
  assert (H2 : dirs_kept (fs st') (fs st)) by (intros k; by rewrite Hd).
  unfold is_dir_in, stat.
  destruct (locate p st) as [e|k] eqn:E1.
  - destruct (locate p st') as [e'|k'] eqn:E2; [done|].
    apply (locate_kept p st' st) in E2; [congruence|done|done].
  - rewrite (locate_kept p st st' k) by done.
    specialize (Hd k). unfold dir_at in Hd.
    destruct (node_at (fs st') k) as [[|]|], (node_at (fs st) k) as [[|]|]; done.
Qed.

Lemma file_step_is_dir a l b p : file_step a l b -> is_dir_in b p = is_dir_in a p.
Proof.
  intros Hs. apply is_dir_in_same_dirs.
  - by destruct Hs as (j & d & -> & _).
  - intros k. by eapply file_step_dir_at.
Qed.

Lemma file_step_well_formed a l b : well_formed a -> file_step a l b -> well_formed b.
Proof.
  intros Hwf Hs.
  assert (Hd : forall k, dir_at (fs b) k = dir_at (fs a) k)
    by (intros k; by eapply file_step_dir_at).
  destruct Hs as (j & d & -> & Hj).
  assert (Hpar : dir_at (fs a) (List.tl j) = true).
  { destruct Hj as [[d0 Hj]|[Hn [p Hp]]].
    - destruct Hwf as [Hwf _]. by apply Hwf in Hj.
    - by destruct (fresh_location_parent p a j Hwf Hp Hn). }
  destruct Hwf as [Hwf Hcwd]. split.
  - intros i n Hi. rewrite Hd. simpl in Hi.
    destruct (decide (i = j)) as [->|Hne]; [done|].
    rewrite lookup_insert_ne in Hi by done. by apply (Hwf i n).
  - by rewrite Hd.
Qed.

(** A step of a construction leaves a longer plain path as much of a
    directory as it was. *)
Lemma init_step_aside a rparts q st l st' :
  well_formed st -> ".." ∉ rparts -> plain q ->
  pathlib.anchored q = a -> length rparts < length (pathlib.parts q) ->
  init_step a rparts st l st' ->
  is_dir_in st' q = is_dir_in st q /\ well_formed st'.
Proof.
  intros Hwf Hpr Hpq Ha Hlen [Hm|Hf].
  - destruct (made_dir_aside a rparts q st l st' Hwf Hpr Hpq Ha Hlen Hm)
      as [[_ Hr] Hwf'].
    split; [|done]. by rewrite !resolves_is_dir, Hr.
  - split; [by eapply file_step_is_dir|by eapply file_step_well_formed].
Qed.

(** A step of a construction keeps the directories. *)
Lemma init_step_kept a rparts st l st' p :
  init_step a rparts st l st' -> is_dir_in st p = true -> is_dir_in st' p = true.
Proof.
  intros [Hm|Hf] Hd.
  - destruct Hm as (k & sfx & -> & _ & _ & Hn & ->).
    unfold is_dir_in, stat in *.
    destruct (locate p st) as [e|j] eqn:El; [done|].
    assert (Hk : dirs_kept (fs st) (<[k := Dir]> (fs st))).
    { apply dirs_kept_insert. unfold dir_at. by rewrite Hn. }
    rewrite (locate_kept p st _ j); [|done|done|done]. simpl.
    destruct (node_at (fs st) j) as [[|]|] eqn:Ej; try done.
    apply dir_at_true, Hk, dir_at_true in Ej. by rewrite Ej.
  - by rewrite (file_step_is_dir st l st').
Qed.

(** Where the checkpoint path is a regular file, the job directory is a
    directory. *)
Lemma checkpoint_file_job_dir d st bytes :
  file_at st (d </> "ckpt.pth") = Some bytes -> is_dir_in st d = true.
Proof.
  rewrite checkpoint_path_parts.
  unfold file_at, is_dir_in, stat, locate, start_of. simpl.
  rewrite walk_app.
  destruct (walk (fs st) _ (pathlib.parts d)) as [e|D]; [done|].
  simpl. by destruct (node_at (fs st) D) as [[|]|].
Qed.

(** The job directory lies below the job_group directory when the job name
    is relative and has a component. *)
Lemma job_dir_below g n :
  pathlib.anchored (pathlib.parse n) = false ->
  pathlib.parts (pathlib.parse n) <> [] ->
  pathlib.anchored (job_dir_of g n) = pathlib.anchored (output_dir_of g) /\
  length (pathlib.parts (output_dir_of g)) < length (pathlib.parts (job_dir_of g n)) /\
  (plain (job_dir_of g n) -> plain (output_dir_of g)).
Proof.
  intros Ha Hp. unfold job_dir_of. rewrite joinpath_relative by done.
  destruct (pathlib.parts (pathlib.parse n)) as [|x l]; [done|].
  cbn [pathlib.anchored pathlib.parts].
  split; [done|]. split.
  - rewrite length_app. simpl. lia.
  - unfold plain. intros H Hin. apply H. apply elem_of_app. by left.
Qed.

(** C9, as stated, fails: for the enabled job name ['.'] the job directory
    [logs_and_output/exp1/.] is the job_group directory itself, which
    construction makes. *)
Lemma job_directory_made_at_construction :
  ~ (forall (job_group job_name : string) (continue_job is_main : bool)
            (st : process),
        name_enabled job_name = true ->
        is_dir_in st (job_dir_of job_group job_name) = false ->
        is_dir_in (final (__init__ job_group job_name continue_job is_main st))
                  (job_dir_of job_group job_name) = false).
Proof.
  intros H.
  specialize (H "exp1" "." false true fresh_process eq_refl eq_refl).
  vm_compute in H. discriminate H.
Qed.

(** C9, amended. For an enabled job name that is relative and has a
    component, with a job directory without [".."] (so that the job
    directory lies below the job_group directory), from a well-formed
    state: at no instant of construction has the job directory been made;
    when construction returns, the job_group directory is a directory;
    [checkpoint_exists], [read_checkpoint], [connect_streams],
    [disconnect_streams] and, for a unit that is not the main one,
    [write_checkpoint] leave the file system as it is; after a
    [write_checkpoint] by the main unit or a [get_output_file_path] that
    returns, the job directory is a directory. *)
Theorem job_directory_is_lazy {R : Type} {P : Pickle R}
    (job_group job_name : string) (continue_job is_main : bool) (st : process) :
  name_enabled job_name = true ->
  well_formed st ->
  pathlib.anchored (pathlib.parse job_name) = false ->
  pathlib.parts (pathlib.parse job_name) <> [] ->
  plain (job_dir_of job_group job_name) ->
  let r := __init__ job_group job_name continue_job is_main st in
  let d := job_dir_of job_group job_name in
  (forall s, In s (instants r st) -> is_dir_in s d = is_dir_in st d) /\
  forall jo, value r = Ok jo ->
    is_dir_in (final r) (output_dir_of job_group) = true /\
    (forall (st' : process) (hint : option string),
        fs (final (checkpoint_exists jo st')) = fs st' /\
        fs (final (read_checkpoint (R := R) jo hint st')) = fs st' /\
        fs (final (connect_streams jo st')) = fs st' /\
        fs (final (disconnect_streams jo st')) = fs st') /\
    (forall (data : R) (st' : process),
        is_main = false -> fs (final (write_checkpoint jo data st')) = fs st') /\
    (forall (data : R) (st' : process),
        is_main = true ->
        value (write_checkpoint jo data st') = Ok tt ->
        is_dir_in (final (write_checkpoint jo data st')) d = true) /\
    (forall (filename : string) (st' : process) (v : option Path),
        value (get_output_file_path jo filename st') = Ok v ->
        v = Some (d </> filename) /\
        is_dir_in (final (get_output_file_path jo filename st')) d = true).
Proof.
  intros Hen Hwf Hrel Hcomp Hplain. cbv zeta.
  destruct (job_dir_below job_group job_name Hrel Hcomp) as (Ha & Hlen & Hpl).
  pose proof (runs___init__ job_group job_name continue_job is_main st) as Hc.
  split.
  - (* construction *)
    destruct (chain_refine _
                (fun a l b => is_dir_in b (job_dir_of job_group job_name)
                              = is_dir_in a (job_dir_of job_group job_name))
                well_formed _ _ _
                (fun a l b Hwa Hs =>
                   init_step_aside _ _ (job_dir_of job_group job_name) a l b Hwa
                     (fun Hin => Hpl Hplain (proj1 (elem_of_rev _ _) Hin))
                     Hplain Ha
                     (eq_ind_r (fun x => x < _) Hlen (length_rev _)) Hs)
                Hc Hwf) as [Hc' _].
    apply (chain_invariant _
             (fun s => is_dir_in s (job_dir_of job_group job_name)
                       = is_dir_in st (job_dir_of job_group job_name)))
      in Hc' as [HI _]; [|intros a l b E Ha'; congruence|done].
    intros s [<-|Hin]; [done|].
    rewrite Forall_forall in HI. apply HI. by apply list_elem_of_In.
  - intros jo Hv. apply init_enabled_value in Hv as Hjo; [|done].
    split; [|split; [|split; [|split]]].
    + (* the job_group directory *)
      unfold __init__ in Hc, Hv |- *.
      rewrite value_bind in Hv. rewrite final_bind.
      destruct (value (Path_mkdir (output_dir_of job_group) true true st))
        as [[]|e] eqn:Hv0; [|done].
      assert (Hmk : runs_by
                (init_step (pathlib.anchored (output_dir_of job_group))
                           (rev (pathlib.parts (output_dir_of job_group))))
                (Path_mkdir (output_dir_of job_group) true true) st).
      { eapply chain_weaken; [|apply runs_Path_mkdir]. intros a l b. by left. }
      pose proof (runs_by_bind_tail _ _ _ st tt Hc Hmk Hv0) as Ht.
      apply (chain_invariant _
               (fun s => is_dir_in s (output_dir_of job_group) = true))
        in Ht as [_ Hf]; [done| |by apply Path_mkdir_ok].
      intros a l b Hs Hd. by eapply init_step_kept.
    + intros st' hint. subst jo. split; [done|]. split.
      * by erewrite read_checkpoint_eq.
      * by destruct is_main.
    + intros data st' ->. by subst jo.
    + intros data st' -> Hw. subst jo.
      destruct (write_checkpoint_spec (job_dir_of job_group job_name)
                  (Some (log_path_of job_group job_name))
                  (_LogHelper (log_path_of job_group job_name) (sys_stdout st))
                  (_LogHelper (log_path_of job_group job_name) (sys_stderr st))
                  data st') as [_ Hp].
      eapply checkpoint_file_job_dir. exact (Hp Hw).
    + intros filename st' v. subst jo. unfold get_output_file_path. cbn [job_dir].
      rewrite value_bind, final_bind.
      destruct (value (Path_mkdir (job_dir_of job_group job_name) true true st'))
        as [[]|e] eqn:Hv0; [|done].
      simpl. intros [= <-]. split; [done|]. by apply Path_mkdir_ok.
Qed.

Lemma job_directory_is_lazy_witness :
  let P := byte_pickle in
  let r := __init__ "exp1" "run1" false true fresh_process in
  let d := job_dir_of "exp1" "run1" in
  well_formed fresh_process /\ plain d /\
  is_dir_in (final r) d = false /\
  is_dir_in (final r) (output_dir_of "exp1") = true /\
  is_dir_in (final (write_checkpoint sample_facade [1; 2; 3] (final r))) d = true.
Proof.
  cbv zeta.
  assert (H1 : well_formed fresh_process).
  { refine (@bool_decide_unpack _ (well_formed_dec _) _). vm_compute. exact I. }
  assert (H2 : plain (job_dir_of "exp1" "run1")).
  { refine (@bool_decide_unpack _ (plain_dec _) _). vm_compute. exact I. }
  assert (H3 : value (__init__ "exp1" "run1" false true fresh_process)
               = Ok sample_facade) by (vm_compute; reflexivity).
  assert (H4 : pathlib.parts (pathlib.parse "run1") <> []) by discriminate.
  assert (H5 : value (write_checkpoint (H := byte_pickle) sample_facade [1; 2; 3]
                        (final (__init__ "exp1" "run1" false true fresh_process)))
               = Ok tt) by (vm_compute; reflexivity).
  destruct (job_directory_is_lazy (P := byte_pickle) "exp1" "run1" false true
              fresh_process eq_refl H1 eq_refl H4 H2) as [Ha Hb].
  destruct (Hb sample_facade H3) as (Hg & _ & _ & Hw & _).
  split; [exact H1|]. split; [exact H2|]. split; [|split; [exact Hg|]].
  - rewrite (Ha (final (__init__ "exp1" "run1" false true fresh_process))).
    + reflexivity.
    + vm_compute. tauto.
  - exact (Hw [1; 2; 3] _ eq_refl H5).
Defined.

(** * Further properties *)

Lemma set_fs_ext f g st : f (fs st) = g (fs st) -> set_fs f st = set_fs g st.
Proof. intros H. unfold set_fs. by rewrite H. Qed.

(** ** What a save leaves *)

(** The end of a save, from a state where the temporary file is written:
    it fails when the checkpoint path is a directory, and otherwise leaves
    the checkpoint holding the bytes and no temporary file. *)
Lemma save_replace_outcome d D bytes st :
  at_job_dir d D st ->
  fs st !! ("ckpt.pth.new" :: D) = Some (File bytes) ->
  let r := (old <- Path_exists (d </> "ckpt.pth") ;;
            (if old then Path_unlink (d </> "ckpt.pth") else ret tt) ;;
            Path_rename (pathlib.mkPath (pathlib.anchored d)
                           (pathlib.parts d ++ ["ckpt.pth.new"]))
                        (d </> "ckpt.pth")) st in
  match fs st !! ("ckpt.pth" :: D) with
  | Some Dir => value r = Raise (OSError EISDIR) /\ final r = st
  | _ => value r = Ok tt /\
         final r = set_fs (fun m => <["ckpt.pth" :: D := File bytes]>
                                      (delete ("ckpt.pth.new" :: D) m)) st
  end.
Proof.
  intros Hd Hn. cbv zeta.
  assert (Hl : locate (d </> "ckpt.pth") st = inr ("ckpt.pth" :: D)).
  { rewrite checkpoint_path_parts. by apply locate_child. }
  assert (Hex : exists_in st (d </> "ckpt.pth")
                = match fs st !! ("ckpt.pth" :: D) with
                  | Some _ => true | None => false end).
  { rewrite checkpoint_path_parts. by apply exists_in_child. }
  rewrite (run_bind_ok _ _ _ _ _ _ (Path_exists_eq _ _)). cbv beta. rewrite Hex.
  destruct (fs st !! ("ckpt.pth" :: D)) as [[d0|]|] eqn:Ec.
  - (* a regular file *)
    pose proof (Path_unlink_eq (d </> "ckpt.pth") st) as Eu.
    rewrite Hl in Eu. simpl in Eu. rewrite Ec in Eu.
    rewrite (run_bind_ok _ _ _ _ _ _ Eu). cbv beta.
    erewrite Path_rename_file_eq.
    + simpl. split; [done|]. rewrite set_fs_set_fs. apply set_fs_ext.
      apply map_eq. intros i.
      destruct (decide (i = "ckpt.pth" :: D)) as [->|Hi].
      { by rewrite !lookup_insert_eq. }
      rewrite !lookup_insert_ne by done.
      destruct (decide (i = "ckpt.pth.new" :: D)) as [->|Hi'].
      { by rewrite !lookup_delete_eq. }
      by rewrite !lookup_delete_ne.
    + apply locate_child; [done|].
      apply at_job_dir_delete; [simpl; by rewrite Ec|done].
    + rewrite checkpoint_path_parts. apply locate_child; [done|].
      apply at_job_dir_delete; [simpl; by rewrite Ec|done].
    + simpl. rewrite lookup_delete_ne by done. exact Hn.
    + simpl. by rewrite lookup_delete_eq.
  - (* a directory *)
    pose proof (Path_unlink_eq (d </> "ckpt.pth") st) as Eu.
    rewrite Hl in Eu. simpl in Eu. rewrite Ec in Eu.
    rewrite (run_bind_ok _ _ _ _ _ _ (run_bind_raise _ _ _ _ _ _ Eu)) || idtac.
    by rewrite (run_bind_raise _ _ _ _ _ _ Eu).
  - (* nothing *)
    rewrite bind_ret_l.
    erewrite Path_rename_file_eq.
    + by simpl.
    + by apply locate_child.
    + rewrite checkpoint_path_parts. by apply locate_child.
    + simpl. exact Hn.
    + simpl. by rewrite Ec.
Qed.

(** The outcome of a save from a state where the job directory is there.
    With a directory at the temporary path it fails at once; with one at
    the checkpoint path it fails after the temporary file is written;
    otherwise it returns, the checkpoint holds the new bytes, there is no
    temporary file, and nothing else has changed. *)
Lemma save_after_mkdir_outcome {R} {P : Pickle R} d D (data : R) st :
  at_job_dir d D st ->
  let r := save_after_mkdir (d </> "ckpt.pth") data st in
  match node_at (fs st) ("ckpt.pth.new" :: D), fs st !! ("ckpt.pth" :: D) with
  | Some Dir, _ => value r = Raise (OSError EISDIR) /\ final r = st
  | _, Some Dir =>
      value r = Raise (OSError EISDIR) /\
      final r = set_fs (insert ("ckpt.pth.new" :: D) (File (dumps data))) st
  | _, _ =>
      value r = Ok tt /\
      final r = set_fs (fun m => <["ckpt.pth" :: D := File (dumps data)]>
                                   (delete ("ckpt.pth.new" :: D) m)) st
  end.
Proof.
  intros Hd. cbv zeta. unfold save_after_mkdir. rewrite new_path_parts. cbv zeta.
  set (new := pathlib.mkPath (pathlib.anchored d)
                (pathlib.parts d ++ ["ckpt.pth.new"])).
  pose proof (Path_open_wb_eq new st) as Eo.
  unfold new in Eo. rewrite (locate_child d "ckpt.pth.new" D st) in Eo by done.
  fold new in Eo.
  assert (Hrest : node_at (fs st) ("ckpt.pth.new" :: D) <> Some Dir ->
    let s1 := set_fs (insert ("ckpt.pth.new" :: D) (File "")) st in
    let r := (torch_save data ("ckpt.pth.new" :: D) ;;
              old <- Path_exists (d </> "ckpt.pth") ;;
              (if old then Path_unlink (d </> "ckpt.pth") else ret tt) ;;
              Path_rename new (d </> "ckpt.pth")) s1 in
    match fs st !! ("ckpt.pth" :: D) with
    | Some Dir =>
        value r = Raise (OSError EISDIR) /\
        final r = set_fs (insert ("ckpt.pth.new" :: D) (File (dumps data))) st
    | _ => value r = Ok tt /\
           final r = set_fs (fun m => <["ckpt.pth" :: D := File (dumps data)]>
                                        (delete ("ckpt.pth.new" :: D) m)) st
    end).
  { intros Hnd. cbv zeta. unfold torch_save.
    set (s1 := set_fs (insert ("ckpt.pth.new" :: D) (File "")) st).
    destruct (write_each_spec D (dumps data) (dumps data) "" s1)
      as (Hv & Hf & _); [simpl; apply lookup_insert_eq|].
    apply ok_run_eq in Hv. rewrite Hf in Hv. simpl "+:+" in Hv.
    unfold s1 in Hv at 3. rewrite set_fs_insert_insert in Hv.
    rewrite (run_bind_ok _ _ _ _ _ _ Hv). cbv beta.
    set (s2 := set_fs (insert ("ckpt.pth.new" :: D) (File (dumps data))) st).
    pose proof (save_replace_outcome d D (dumps data) s2) as Hr.
    assert (Hd2 : at_job_dir d D s2) by by apply at_job_dir_insert.
    specialize (Hr Hd2). cbv zeta in Hr.
    assert (Ec : fs s2 !! ("ckpt.pth" :: D) = fs st !! ("ckpt.pth" :: D)).
    { simpl. by rewrite lookup_insert_ne. }
    rewrite Ec in Hr.
    assert (Hn2 : fs s2 !! ("ckpt.pth.new" :: D) = Some (File (dumps data))).
    { simpl. apply lookup_insert_eq. }
    specialize (Hr Hn2). fold new in Hr.
    assert (Es : set_fs (fun m => <["ckpt.pth" :: D := File (dumps data)]>
                                    (delete ("ckpt.pth.new" :: D) m)) s2
                 = set_fs (fun m => <["ckpt.pth" :: D := File (dumps data)]>
                                      (delete ("ckpt.pth.new" :: D) m)) st).
    { unfold s2. rewrite set_fs_set_fs. apply set_fs_ext.
      by rewrite delete_insert_eq. }
    rewrite Es in Hr.
    destruct (fs st !! ("ckpt.pth" :: D)) as [[d0|]|];
      cbn [value final]; exact Hr. }
  destruct (node_at (fs st) ("ckpt.pth.new" :: D)) as [[d0|]|] eqn:En.
  - rewrite (run_bind_ok _ _ _ _ _ _ Eo). cbv beta. cbn [value final].
    specialize (Hrest ltac:(done)). cbv zeta in Hrest.
    by destruct (fs st !! ("ckpt.pth" :: D)) as [[d1|]|] eqn:Ec.
  - by rewrite (run_bind_raise _ _ _ _ _ _ Eo).
  - rewrite (run_bind_ok _ _ _ _ _ _ Eo). cbv beta. cbn [value final].
    specialize (Hrest ltac:(done)). cbv zeta in Hrest.
    by destruct (fs st !! ("ckpt.pth" :: D)) as [[d1|]|] eqn:Ec.
Qed.

Lemma stat_child d c D st :
  String.eqb c ".." = false -> at_job_dir d D st ->
  stat (pathlib.mkPath (pathlib.anchored d) (pathlib.parts d ++ [c])) st
  = match fs st !! (c :: D) with Some n => inr n | None => inl ENOENT end.
Proof.
  intros Hc Hd. unfold stat. by rewrite (locate_child d c D) by done.
Qed.

Lemma new_path_of_parts g n :
  new_path_of g n =
  pathlib.mkPath (pathlib.anchored (job_dir_of g n))
    (pathlib.parts (job_dir_of g n) ++ ["ckpt.pth.new"]).
Proof. unfold new_path_of, checkpoint_path_of. cbv zeta. apply new_path_parts. Qed.

(** A save by the main unit of an enabled facade, from the state its
    [mkdir] of the job directory leaves. *)
Lemma write_checkpoint_outcome {R} {P : Pickle R} d lp out err (data : R) st :
  let jo := mkJobOutput true true lp (Some d) (Some (d </> "ckpt.pth")) out err in
  let m := Path_mkdir d true true st in
  let w := write_checkpoint jo data st in
  match value m with
  | Raise e => value w = Raise e /\ final w = final m
  | Ok _ =>
      exists D, at_job_dir d D (final m) /\
        match node_at (fs (final m)) ("ckpt.pth.new" :: D),
              fs (final m) !! ("ckpt.pth" :: D) with
        | Some Dir, _ => value w = Raise (OSError EISDIR) /\ final w = final m
        | _, Some Dir =>
            value w = Raise (OSError EISDIR) /\
            final w = set_fs (insert ("ckpt.pth.new" :: D) (File (dumps data)))
                        (final m)
        | _, _ =>
            value w = Ok tt /\
            final w = set_fs (fun fs => <["ckpt.pth" :: D := File (dumps data)]>
                                          (delete ("ckpt.pth.new" :: D) fs))
                        (final m)
        end
  end.
Proof.
  cbv zeta. rewrite write_checkpoint_main, value_bind, final_bind.
  destruct (value (Path_mkdir d true true st)) as [[]|e] eqn:Hv; [|done].
  apply Path_mkdir_ok, is_dir_in_at_job_dir in Hv as [D HD].
  exists D. split; [done|]. by apply save_after_mkdir_outcome.
Qed.

Lemma at_job_dir_is_dir d D st : at_job_dir d D st -> is_dir_in st d = true.
Proof.
  intros [Hl Hd]. unfold is_dir_in, stat. rewrite Hl.
  apply dir_at_true in Hd. by rewrite Hd.
Qed.

Lemma at_job_dir_unique d D D' st : at_job_dir d D st -> at_job_dir d D' st -> D = D'.
Proof. intros [H1 _] [H2 _]. congruence. Qed.

(** X1. When the job directory is there and neither the checkpoint path nor
    the temporary path is a directory, a save by the main unit returns; the
    checkpoint then holds the bytes of the record, the temporary file is
    gone, and the file system differs from the one before at those two
    places only. *)
Theorem save_replaces_checkpoint_only {R : Type} {P : Pickle R}
    (job_group job_name : string) (continue_job : bool)
    (st0 : process) (jo : JobOutput) (data : R) (st : process) :
  name_enabled job_name = true ->
  value (__init__ job_group job_name continue_job true st0) = Ok jo ->
  is_dir_in st (job_dir_of job_group job_name) = true ->
  is_dir_in st (checkpoint_path_of job_group job_name) = false ->
  is_dir_in st (new_path_of job_group job_name) = false ->
  let w := write_checkpoint jo data st in
  value w = Ok tt /\
  file_at (final w) (checkpoint_path_of job_group job_name) = Some (dumps data) /\
  exists_in (final w) (new_path_of job_group job_name) = false /\
  same_process st (final w) /\
  exists D,
    locate (job_dir_of job_group job_name) st = inr D /\
    fs (final w) = <["ckpt.pth" :: D := File (dumps data)]>
                     (delete ("ckpt.pth.new" :: D) (fs st)).
Proof.
  intros Hen Hv Hd Hc Hn. apply init_enabled_value in Hv; [|done]. subst jo.
  cbv zeta.
  pose proof (write_checkpoint_outcome (job_dir_of job_group job_name)
    (Some (log_path_of job_group job_name))
    (_LogHelper (log_path_of job_group job_name) (sys_stdout st0))
    (_LogHelper (log_path_of job_group job_name) (sys_stderr st0))
    data st) as Ho.
  cbv zeta in Ho. rewrite (Path_mkdir_existing _ _ Hd) in Ho.
  cbn [value final] in Ho. destruct Ho as (D & HD & Ho).
  fold (checkpoint_path_of job_group job_name) in Ho.
  unfold is_dir_in in Hc, Hn.
  rewrite new_path_of_parts, (stat_child _ _ D) in Hn by done.
  unfold checkpoint_path_of in Hc.
  rewrite checkpoint_path_parts, (stat_child _ _ D) in Hc by done.
  fold (checkpoint_path_of job_group job_name) in Hc.
  assert (Hok : value (write_checkpoint (H := P)
      (mkJobOutput true true (Some (log_path_of job_group job_name))
         (Some (job_dir_of job_group job_name))
         (Some (checkpoint_path_of job_group job_name))
         (_LogHelper (log_path_of job_group job_name) (sys_stdout st0))
         (_LogHelper (log_path_of job_group job_name) (sys_stderr st0)))
      data st) = Ok tt /\
    final (write_checkpoint (H := P)
      (mkJobOutput true true (Some (log_path_of job_group job_name))
         (Some (job_dir_of job_group job_name))
         (Some (checkpoint_path_of job_group job_name))
         (_LogHelper (log_path_of job_group job_name) (sys_stdout st0))
         (_LogHelper (log_path_of job_group job_name) (sys_stderr st0)))
      data st)
    = set_fs (fun fs => <["ckpt.pth" :: D := File (dumps data)]>
                          (delete ("ckpt.pth.new" :: D) fs)) st).
  { cbn [node_at] in Ho.
    destruct (fs st !! ("ckpt.pth.new" :: D)) as [[?|]|];
      destruct (fs st !! ("ckpt.pth" :: D)) as [[?|]|]; done. }
  destruct Hok as [Hval Hfin]. rewrite Hval, Hfin.
  set (st' := set_fs _ st).
  assert (HD' : at_job_dir (job_dir_of job_group job_name) D st').
  { destruct HD as [Hl Hdir]. split.
    - apply (locate_kept _ st); [done| |done]. simpl.
      intros k Hk. unfold dir_at, node_at in *. destruct k as [|c k]; [done|].
      destruct (decide (c :: k = "ckpt.pth" :: D)) as [E|E].
      { rewrite E in Hk. by destruct (fs st !! ("ckpt.pth" :: D)) as [[|]|]. }
      rewrite lookup_insert_ne by done.
      destruct (decide (c :: k = "ckpt.pth.new" :: D)) as [E'|E'].
      { rewrite E' in Hk. by destruct (fs st !! ("ckpt.pth.new" :: D)) as [[|]|]. }
      by rewrite lookup_delete_ne.
    - unfold dir_at, node_at in *. simpl. destruct D as [|c D]; [done|].
      rewrite lookup_insert_ne.
      + rewrite lookup_delete_ne; [done|].
        intros E. apply (f_equal length) in E. simpl in E. lia.
      + intros E. apply (f_equal length) in E. simpl in E. lia. }
  repeat split.
  - unfold file_at, checkpoint_path_of.
    rewrite checkpoint_path_parts, (stat_child _ _ D) by done.
    simpl. by rewrite lookup_insert_eq.
  - unfold exists_in. rewrite new_path_of_parts, (stat_child _ _ D) by done.
    simpl. rewrite lookup_insert_ne by done. by rewrite lookup_delete_eq.
  - exists D. split; [apply HD|done].
Qed.

Lemma save_replaces_checkpoint_only_witness :
  let P := byte_pickle in
  let w := write_checkpoint sample_facade [4; 5] saved_process in
  is_dir_in saved_process (job_dir_of "exp1" "run1") = true /\
  is_dir_in saved_process (checkpoint_path_of "exp1" "run1") = false /\
  is_dir_in saved_process (new_path_of "exp1" "run1") = false /\
  value w = Ok tt /\
  file_at (final w) (checkpoint_path_of "exp1" "run1") = Some (dumps [4; 5]) /\
  exists_in (final w) (new_path_of "exp1" "run1") = false.
Proof.
  cbv zeta.
  assert (H1 : value (__init__ "exp1" "run1" false true fresh_process)
               = Ok sample_facade) by (vm_compute; reflexivity).
  assert (H2 : is_dir_in saved_process (job_dir_of "exp1" "run1") = true)
    by (vm_compute; reflexivity).
  assert (H3 : is_dir_in saved_process (checkpoint_path_of "exp1" "run1") = false)
    by (vm_compute; reflexivity).
  assert (H4 : is_dir_in saved_process (new_path_of "exp1" "run1") = false)
    by (vm_compute; reflexivity).
  split; [exact H2|]. split; [exact H3|]. split; [exact H4|].
  pose proof (save_replaces_checkpoint_only (P := byte_pickle)
                "exp1" "run1" false fresh_process sample_facade [4; 5]
                saved_process eq_refl H1 H2 H3 H4) as (Ha & Hb & Hc & _).
  exact (conj Ha (conj Hb Hc)).
Defined.

(** X2. When the checkpoint path is a directory, a save by the main unit
    raises [IsADirectoryError] at the unlink; the directory stays, and the
    temporary file is left behind with the bytes of the record. *)
Theorem save_onto_directory_fails {R : Type} {P : Pickle R}
    (job_group job_name : string) (continue_job : bool)
    (st0 : process) (jo : JobOutput) (data : R) (st : process) :
  name_enabled job_name = true ->
  value (__init__ job_group job_name continue_job true st0) = Ok jo ->
  is_dir_in st (checkpoint_path_of job_group job_name) = true ->
  is_dir_in st (new_path_of job_group job_name) = false ->
  let w := write_checkpoint jo data st in
  value w = Raise (OSError EISDIR) /\
  is_dir_in (final w) (checkpoint_path_of job_group job_name) = true /\
  file_at (final w) (new_path_of job_group job_name) = Some (dumps data).
Proof.
  intros Hen Hv Hc Hn. apply init_enabled_value in Hv; [|done]. subst jo.
  cbv zeta.
  assert (Hd : is_dir_in st (job_dir_of job_group job_name) = true).
  { revert Hc. unfold checkpoint_path_of. rewrite checkpoint_path_parts.
    unfold is_dir_in, stat, locate, start_of. simpl.
    destruct (walk (fs st) _ (pathlib.parts (job_dir_of job_group job_name) ++ _))
      as [e|k] eqn:Ew; [done|].
    apply walk_snoc in Ew as (D & -> & HD & _).
    apply dir_at_true in HD. by rewrite HD. }
  pose proof (write_checkpoint_outcome (job_dir_of job_group job_name)
    (Some (log_path_of job_group job_name))
    (_LogHelper (log_path_of job_group job_name) (sys_stdout st0))
    (_LogHelper (log_path_of job_group job_name) (sys_stderr st0))
    data st) as Ho.
  cbv zeta in Ho. rewrite (Path_mkdir_existing _ _ Hd) in Ho.
  cbn [value final] in Ho. destruct Ho as (D & HD & Ho).
  fold (checkpoint_path_of job_group job_name) in Ho.
  unfold is_dir_in in Hc, Hn.
  rewrite new_path_of_parts, (stat_child _ _ D) in Hn by done.
  unfold checkpoint_path_of in Hc.
  rewrite checkpoint_path_parts, (stat_child _ _ D) in Hc by done.
  fold (checkpoint_path_of job_group job_name) in Hc.
  cbn [node_at] in Ho.
  destruct (fs st !! ("ckpt.pth" :: D)) as [[?|]|] eqn:Ec; try done.
  assert (Hr : value (write_checkpoint (H := P)
      (mkJobOutput true true (Some (log_path_of job_group job_name))
         (Some (job_dir_of job_group job_name))
         (Some (checkpoint_path_of job_group job_name))
         (_LogHelper (log_path_of job_group job_name) (sys_stdout st0))
         (_LogHelper (log_path_of job_group job_name) (sys_stderr st0)))
      data st) = Raise (OSError EISDIR) /\
    final (write_checkpoint (H := P)
      (mkJobOutput true true (Some (log_path_of job_group job_name))
         (Some (job_dir_of job_group job_name))
         (Some (checkpoint_path_of job_group job_name))
         (_LogHelper (log_path_of job_group job_name) (sys_stdout st0))
         (_LogHelper (log_path_of job_group job_name) (sys_stderr st0)))
      data st)
    = set_fs (insert ("ckpt.pth.new" :: D) (File (dumps data))) st).
  { destruct (fs st !! ("ckpt.pth.new" :: D)) as [[?|]|]; done. }
  destruct Hr as [Hval Hfin]. rewrite Hval, Hfin.
  assert (HD' : at_job_dir (job_dir_of job_group job_name) D
                  (set_fs (insert ("ckpt.pth.new" :: D) (File (dumps data))) st)).
  { apply at_job_dir_insert; [|done]. simpl.
    by destruct (fs st !! ("ckpt.pth.new" :: D)) as [[?|]|]. }
  repeat split.
  - unfold is_dir_in, checkpoint_path_of.
    rewrite checkpoint_path_parts, (stat_child _ _ D) by done.
    simpl. rewrite lookup_insert_ne by done. by rewrite Ec.
  - unfold file_at. rewrite new_path_of_parts, (stat_child _ _ D) by done.
    simpl. by rewrite lookup_insert_eq.
Qed.

Lemma save_onto_directory_fails_witness :
  let P := byte_pickle in
  let w := write_checkpoint sample_facade [4; 5] directory_process in
  is_dir_in directory_process (checkpoint_path_of "exp1" "run1") = true /\
  is_dir_in directory_process (new_path_of "exp1" "run1") = false /\
  value w = Raise (OSError EISDIR) /\
  is_dir_in (final w) (checkpoint_path_of "exp1" "run1") = true /\
  file_at (final w) (new_path_of "exp1" "run1") = Some (dumps [4; 5]).
Proof.
  cbv zeta.
  assert (H1 : value (__init__ "exp1" "run1" false true fresh_process)
               = Ok sample_facade) by (vm_compute; reflexivity).
  assert (H2 : is_dir_in directory_process (checkpoint_path_of "exp1" "run1") = true)
    by (vm_compute; reflexivity).
  assert (H3 : is_dir_in directory_process (new_path_of "exp1" "run1") = false)
    by (vm_compute; reflexivity).
  split; [exact H2|]. split; [exact H3|].
  exact (save_onto_directory_fails (P := byte_pickle)
           "exp1" "run1" false fresh_process sample_facade [4; 5]
           directory_process eq_refl H1 H2 H3).
Defined.

(** A save that went through leaves the job directory where it was. *)
Lemma at_job_dir_saved d D bytes st :
  node_at (fs st) ("ckpt.pth" :: D) <> Some Dir ->
  node_at (fs st) ("ckpt.pth.new" :: D) <> Some Dir ->
  at_job_dir d D st ->
  at_job_dir d D (set_fs (fun m => <["ckpt.pth" :: D := File bytes]>
                                     (delete ("ckpt.pth.new" :: D) m)) st).
Proof.
  intros Hc Hn HD.
  change (set_fs _ st) with
    (set_fs (insert ("ckpt.pth" :: D) (File bytes))
       (set_fs (delete ("ckpt.pth.new" :: D)) st)).
  apply at_job_dir_insert.
  - simpl. rewrite lookup_delete_ne by done. exact Hc.
  - by apply at_job_dir_delete.
Qed.

(** X3. The last save wins: when a save by the main unit has returned, a
    second save returns too, and the state it leaves is the one the second
    save alone would have left. *)
Theorem last_save_wins {R : Type} {P : Pickle R}
    (job_group job_name : string) (continue_job : bool)
    (st0 : process) (jo : JobOutput) (a b : R) (st : process) :
  name_enabled job_name = true ->
  value (__init__ job_group job_name continue_job true st0) = Ok jo ->
  value (write_checkpoint jo a st) = Ok tt ->
  let r := (write_checkpoint jo a ;; write_checkpoint jo b) st in
  value r = Ok tt /\ final r = final (write_checkpoint jo b st).
Proof.
  intros Hen Hv. apply init_enabled_value in Hv; [|done]. subst jo.
  set (jo := mkJobOutput _ _ _ _ _ _ _). intros Ha. cbv zeta.
  set (d := job_dir_of job_group job_name).
  pose proof (write_checkpoint_outcome d (Some (log_path_of job_group job_name))
    (_LogHelper (log_path_of job_group job_name) (sys_stdout st0))
    (_LogHelper (log_path_of job_group job_name) (sys_stderr st0))) as Ho.
  pose proof (Ho a st) as Hoa. pose proof (Ho b st) as Hob.
  cbv zeta in Hoa, Hob.
  change (mkJobOutput true true _ _ _ _ _) with jo in Hoa, Hob.
  set (s1 := final (Path_mkdir d true true st)) in *.
  destruct (value (Path_mkdir d true true st)) as [[]|e];
    [|destruct Hoa as [Hx _]; congruence].
  destruct Hoa as (D & HD & Hoa). destruct Hob as (D' & HD' & Hob).
  rewrite <- (at_job_dir_unique _ _ _ _ HD HD') in Hob. clear D' HD'.
  assert (Hn : node_at (fs s1) ("ckpt.pth.new" :: D) <> Some Dir).
  { intros E. rewrite E in Hoa. destruct Hoa; congruence. }
  assert (Hc : node_at (fs s1) ("ckpt.pth" :: D) <> Some Dir).
  { intros E. cbn [node_at] in E, Hoa. rewrite E in Hoa.
    destruct (fs s1 !! ("ckpt.pth.new" :: D)) as [[|]|];
      destruct Hoa; congruence. }
  assert (Hfa : final (write_checkpoint jo a st)
                = set_fs (fun fs => <["ckpt.pth" :: D := File (dumps a)]>
                                      (delete ("ckpt.pth.new" :: D) fs)) s1).
  { cbn [node_at] in Hoa, Hn, Hc.
    destruct (fs s1 !! ("ckpt.pth.new" :: D)) as [[|]|];
      destruct (fs s1 !! ("ckpt.pth" :: D)) as [[|]|]; try done; apply Hoa. }
  assert (Hb : value (write_checkpoint jo b st) = Ok tt /\
               final (write_checkpoint jo b st)
               = set_fs (fun fs => <["ckpt.pth" :: D := File (dumps b)]>
                                     (delete ("ckpt.pth.new" :: D) fs)) s1).
  { cbn [node_at] in Hob, Hn, Hc.
    destruct (fs s1 !! ("ckpt.pth.new" :: D)) as [[|]|];
      destruct (fs s1 !! ("ckpt.pth" :: D)) as [[|]|]; try done. }
  destruct Hb as [_ Hfb].
  rewrite value_bind, final_bind, Ha, Hfa, Hfb.
  set (s2 := set_fs _ s1).
  assert (HD2 : at_job_dir d D s2) by by apply at_job_dir_saved.
  pose proof (Ho b s2) as Hob2. cbv zeta in Hob2.
  change (mkJobOutput true true _ _ _ _ _) with jo in Hob2.
  rewrite (Path_mkdir_existing _ _ (at_job_dir_is_dir _ _ _ HD2)) in Hob2.
  cbn [value final] in Hob2. destruct Hob2 as (D' & HD' & Hob2).
  rewrite <- (at_job_dir_unique _ _ _ _ HD2 HD') in Hob2. clear D' HD'.
  assert (En : node_at (fs s2) ("ckpt.pth.new" :: D) = None).
  { simpl. rewrite lookup_insert_ne by done. by rewrite lookup_delete_eq. }
  assert (Ec : fs s2 !! ("ckpt.pth" :: D) = Some (File (dumps a))).
  { simpl. by rewrite lookup_insert_eq. }
  rewrite En, Ec in Hob2. destruct Hob2 as [-> ->]. split; [done|].
  unfold s2. rewrite set_fs_set_fs. apply set_fs_ext.
  apply map_eq. intros i.
  destruct (decide (i = "ckpt.pth" :: D)) as [->|Hi].
  { by rewrite !lookup_insert_eq. }
  rewrite !lookup_insert_ne by done.
  destruct (decide (i = "ckpt.pth.new" :: D)) as [->|Hi'].
  { by rewrite !lookup_delete_eq. }
  rewrite lookup_delete_ne, lookup_insert_ne, !lookup_delete_ne by done. done.
Qed.

Lemma last_save_wins_witness :
  let P := byte_pickle in
  let st := final (__init__ "exp1" "run1" false true fresh_process) in
  let r := (write_checkpoint sample_facade [1; 2; 3] ;;
            write_checkpoint sample_facade [4; 5]) st in
  value (write_checkpoint sample_facade [1; 2; 3] st) = Ok tt /\
  value r = Ok tt /\
  final r = final (write_checkpoint sample_facade [4; 5] st).
Proof.
  cbv zeta.
  assert (H1 : value (__init__ "exp1" "run1" false true fresh_process)
               = Ok sample_facade) by (vm_compute; reflexivity).
  assert (H2 : value (write_checkpoint (H := byte_pickle) sample_facade [1; 2; 3]
                        (final (__init__ "exp1" "run1" false true fresh_process)))
               = Ok tt) by (vm_compute; reflexivity).
  split; [exact H2|].
  exact (last_save_wins (P := byte_pickle) "exp1" "run1" false fresh_process
           sample_facade [1; 2; 3] [4; 5]
           (final (__init__ "exp1" "run1" false true fresh_process))
           eq_refl H1 H2).
Defined.

(** ** Before the unlink *)

(** X4. A save interrupted before its unlink of the old checkpoint leaves
    the reading of the checkpoint as it was: at every instant up to there,
    [read_checkpoint] gives what it gave before the save. *)
Theorem interrupted_before_unlink_reads_previous {R : Type} {P : Pickle R}
    (job_group job_name : string) (continue_job : bool)
    (st0 : process) (jo : JobOutput) (data : R) (hint : option string)
    (st : process) :
  name_enabled job_name = true ->
  value (__init__ job_group job_name continue_job true st0) = Ok jo ->
  well_formed st ->
  plain (checkpoint_path_of job_group job_name) ->
  let w := write_checkpoint jo data st in
  forall before rest,
    steps w = before ++ rest ->
    Forall (fun x => is_rename (fst x) = false /\ is_unlink (fst x) = false)
           before ->
    forall s, In s (st :: List.map snd before) ->
      value (read_checkpoint (R := R) jo hint s)
      = value (read_checkpoint (R := R) jo hint st).
Proof.
  intros Hen Hv Hwf Hplain. apply init_enabled_value in Hv; [|done]. subst jo.
  cbv zeta. unfold checkpoint_path_of in *.
  set (ckpt := job_dir_of job_group job_name </> "ckpt.pth") in *.
  set (jo := mkJobOutput _ _ _ _ _ _ _) in *.
  intros before rest Hsteps Hnr.
  pose proof (write_checkpoint_runs (job_dir_of job_group job_name)
    (Some (log_path_of job_group job_name))
    (_LogHelper (log_path_of job_group job_name) (sys_stdout st0))
    (_LogHelper (log_path_of job_group job_name) (sys_stderr st0))
    data st Hwf Hplain) as Hc.
  fold ckpt jo in Hc. unfold runs_by in Hc. rewrite Hsteps in Hc.
  apply chain_prefix in Hc as [mid Hc].
  set (I := fun s => resolves s ckpt = resolves st ckpt).
  assert (HI : Forall I (st :: List.map snd before)).
  { constructor; [done|].
    eapply (chain_invariant_on _
              (fun x => is_rename x = false /\ is_unlink x = false) I);
      [|exact Hc|exact Hnr|done].
    intros a l b [(_ & _ & E)|[(El & _)|(El & _)]] [Hl1 Hl2] Ha; unfold I in *.
    - by rewrite E.
    - congruence.
    - congruence. }
  intros s Hin. rewrite Forall_forall in HI.
  apply list_elem_of_In, HI in Hin. unfold I in Hin.
  rewrite !(read_checkpoint_eq jo ckpt) by done. cbn [value].
  by rewrite !resolves_file_at, Hin.
Qed.

Lemma interrupted_before_unlink_reads_previous_witness :
  let P := byte_pickle in
  let w := write_checkpoint sample_facade [4; 5] saved_process in
  well_formed saved_process /\
  plain (checkpoint_path_of "exp1" "run1") /\
  Forall (fun x => is_rename (fst x) = false /\ is_unlink (fst x) = false)
         (firstn 3 (steps w)) /\
  forall s, In s (saved_process :: List.map snd (firstn 3 (steps w))) ->
    value (read_checkpoint (R := list nat) sample_facade None s)
    = value (read_checkpoint (R := list nat) sample_facade None saved_process).
Proof.
  cbv zeta.
  assert (H1 : well_formed saved_process).
  { refine (@bool_decide_unpack _ (well_formed_dec _) _). vm_compute. exact I. }
  assert (H2 : plain (checkpoint_path_of "exp1" "run1")).
  { refine (@bool_decide_unpack _ (plain_dec _) _). vm_compute. exact I. }
  assert (H3 : value (__init__ "exp1" "run1" false true fresh_process)
               = Ok sample_facade) by (vm_compute; reflexivity).
  assert (H5 : Forall (fun x => is_rename (fst x) = false /\
                                is_unlink (fst x) = false)
                 (firstn 3 (steps (write_checkpoint (H := byte_pickle)
                                     sample_facade [4; 5] saved_process)))).
  { vm_compute. repeat constructor. }
  split; [exact H1|]. split; [exact H2|]. split; [exact H5|].
  exact (interrupted_before_unlink_reads_previous (P := byte_pickle)
           "exp1" "run1" false fresh_process sample_facade [4; 5] None
           saved_process eq_refl H3 H1 H2
           _ _ (eq_sym (firstn_skipn 3 _)) H5).
Defined.

(** ** Output through the connected sinks *)

Lemma locate_console_append p fd x st :
  locate p (console_append fd x st) = locate p st.
Proof. by destruct fd. Qed.

(** One write through a [_LogHelper] around a console, with the log file
    there: the text goes to the end of the log, then to the console. *)
Lemma stream_write_mirror_eq log fd x k cur st :
  locate log st = inr k -> fs st !! k = Some (File cur) -> k <> [] ->
  stream_write (_LogHelper log (Console fd)) x st =
  let s1 := set_fs (insert k (File (cur +:+ x))) st in
  Run [(StWrite k, s1); (StConsole fd, console_append fd x s1)]
      (console_append fd x s1) (Ok tt).
Proof.
  intros Hl Hf Hk. cbv zeta. cbn [stream_write].
  pose proof (Path_open_append_eq log st) as Eo.
  rewrite Hl, (node_at_lookup _ _ Hk), Hf in Eo.
  rewrite (run_bind_ok _ _ _ _ _ _ Eo). cbv beta.
  pose proof (file_write_eq k x st) as Ew. rewrite Hf in Ew.
  rewrite (run_bind_ok _ _ _ _ _ _ Ew). cbv beta. reflexivity.
Qed.

(** The state kept by output through the sinks of a main unit whose
    construction found the console streams. *)
Lemma outputs_mirror log k calls : forall cur st,
  sys_stdout st = _LogHelper log (Console Stdout) ->
  sys_stderr st = _LogHelper log (Console Stderr) ->
  locate log st = inr k -> k <> [] -> fs st !! k = Some (File cur) ->
  let r := outputs calls st in
  value r = Ok tt /\
  fs (final r) = <[k := File (cur +:+ written calls)]> (fs st) /\
  cwd (final r) = cwd st /\
  console_out (final r) = console_out st +:+ written_to Stdout calls /\
  console_err (final r) = console_err st +:+ written_to Stderr calls /\
  sys_stdout (final r) = sys_stdout st /\
  sys_stderr (final r) = sys_stderr st.
Proof.
  induction calls as [|c calls IH]; intros cur st Ho He Hl Hk Hf; cbv zeta.
  - cbn [outputs written written_to]. rewrite !string_app_nil_r.
    cbn [ret value final]. by rewrite insert_id.
  - cbn [outputs].
    assert (Hw : forall fd x,
      let s1 := set_fs (insert k (File (cur +:+ x))) st in
      let s2 := console_append fd x s1 in
      stream_write (_LogHelper log (Console fd)) x st
      = Run [(StWrite k, s1); (StConsole fd, s2)] s2 (Ok tt) /\
      sys_stdout s2 = _LogHelper log (Console Stdout) /\
      sys_stderr s2 = _LogHelper log (Console Stderr) /\
      locate log s2 = inr k /\ fs s2 !! k = Some (File (cur +:+ x)) /\
      fs s2 = <[k := File (cur +:+ x)]> (fs st) /\ cwd s2 = cwd st).
    { intros fd x. cbv zeta. split; [by apply stream_write_mirror_eq|].
      rewrite locate_console_append.
      rewrite (locate_file_written log st k k cur _ Hf Hl).
      destruct fd; simpl; rewrite lookup_insert_eq; by rewrite ?Ho, ?He. }
    destruct c as [x|x| |].
    + destruct (Hw Stdout x) as (Ew & Ho2 & He2 & Hl2 & Hf2 & Hfs & Hcwd).
      assert (Ec : output (WriteOut x) st = stream_write (sys_stdout st) x st).
      { unfold output, sys_stdout_write.
        rewrite (run_bind_ok _ _ _ _ _ _ (get_eq st)). cbn [app]. apply run_eta. }
      rewrite Ho, Ew in Ec.
      rewrite (run_bind_ok _ _ _ _ _ _ Ec). cbv beta. cbn [value final].
      destruct (IH _ _ Ho2 He2 Hl2 Hk Hf2) as (-> & -> & -> & -> & -> & -> & ->).
      rewrite Hfs, insert_insert_eq, Hcwd.
      cbn [written written_to console_append set_fs console_out console_err
           sys_stdout sys_stderr].
      rewrite !string_app_assoc. repeat split; try done.
    + destruct (Hw Stderr x) as (Ew & Ho2 & He2 & Hl2 & Hf2 & Hfs & Hcwd).
      assert (Ec : output (WriteErr x) st = stream_write (sys_stderr st) x st).
      { unfold output, sys_stderr_write.
        rewrite (run_bind_ok _ _ _ _ _ _ (get_eq st)). cbn [app]. apply run_eta. }
      rewrite He, Ew in Ec.
      rewrite (run_bind_ok _ _ _ _ _ _ Ec). cbv beta. cbn [value final].
      destruct (IH _ _ Ho2 He2 Hl2 Hk Hf2) as (-> & -> & -> & -> & -> & -> & ->).
      rewrite Hfs, insert_insert_eq, Hcwd.
      cbn [written written_to console_append set_fs console_out console_err
           sys_stdout sys_stderr].
      rewrite !string_app_assoc. repeat split; try done.
    + assert (Ec : output FlushOut st = Run [] st (Ok tt)).
      { unfold output, sys_stdout_flush.
        rewrite (run_bind_ok _ _ _ _ _ _ (get_eq st)). by rewrite Ho. }
      rewrite (run_bind_ok _ _ _ _ _ _ Ec). cbv beta. cbn [value final].
      by apply IH.
    + assert (Ec : output FlushErr st = Run [] st (Ok tt)).
      { unfold output, sys_stderr_flush.
        rewrite (run_bind_ok _ _ _ _ _ _ (get_eq st)). by rewrite He. }
      rewrite (run_bind_ok _ _ _ _ _ _ Ec). cbv beta. cbn [value final].
      by apply IH.
Qed.

(** ** Where the log file and the checkpoint are *)

Lemma last_char_app (t x : string) : x <> "" -> last_char (t +:+ x) = last_char x.
Proof.
  intros Hx. induction t as [|c t IH]; [done|].
  simpl. rewrite IH. destruct (t +:+ x) eqn:E; [|done].
  destruct t; simpl in E; [done|discriminate].
Qed.

(** The last piece of a text that ends in a text without a slash ends in
    that text. *)
Lemma split_slash_app_last (s x : string) :
  split_slash x = [x] ->
  exists pre t, split_slash (s +:+ x) = pre ++ [t +:+ x].
Proof.
  intros Hx. induction s as [|c s (pre & t & IH)].
  - exists [], "". simpl. by rewrite Hx.
  - simpl. rewrite IH. destruct (Ascii.eqb c slash).
    + by exists ("" :: pre), t.
    + destruct pre as [|w ws]; simpl.
      * by exists [], (String c t).
      * by exists (String c w :: ws), t.
Qed.

Lemma kept_txt (t : string) : pathlib.kept (t +:+ ".txt") = true.
Proof.
  unfold pathlib.kept. destruct t as [|a [|b t]]; try done.
  - simpl. by destruct (Ascii.eqb a ".").
  - simpl. by destruct (Ascii.eqb a ".").
Qed.

(** The last component of the log path ends in [.txt]. *)
Lemma log_path_last (g n : string) :
  exists mid t,
    log_path_of g n =
    pathlib.mkPath (pathlib.anchored (output_dir_of g))
      (pathlib.parts (output_dir_of g) ++ mid ++ [t +:+ ".txt"]).
Proof.
  destruct (split_slash_app_last ("log_" +:+ n) ".txt" eq_refl) as (pre & t & E).
  rewrite string_app_assoc in E.
  exists (List.filter pathlib.kept pre), t.
  unfold log_path_of. rewrite joinpath_relative by done.
  unfold pathlib.parse. cbn [pathlib.parts]. rewrite E.
  by rewrite List.filter_app; simpl; rewrite kept_txt.
Qed.

(** Where the log path resolves, the place is an entry whose name ends in
    [.txt], in a directory. *)
Lemma log_location g n st k :
  locate (log_path_of g n) st = inr k ->
  exists t K, k = (t +:+ ".txt") :: K /\ dir_at (fs st) K = true.
Proof.
  destruct (log_path_last g n) as (mid & t & ->).
  unfold locate, start_of. cbn [pathlib.anchored pathlib.parts].
  rewrite app_assoc. intros Hw. apply walk_snoc in Hw as (K & _ & HK & ->).
  exists t, K. split; [|done]. unfold enter.
  destruct (String.eqb_spec (t +:+ ".txt") "..") as [E|_]; [|done].
  apply (f_equal last_char) in E. rewrite last_char_app in E; done.
Qed.

(** Where the checkpoint path resolves, the place is the entry [ckpt.pth]
    of the job directory. *)
Lemma checkpoint_location d st k :
  locate (d </> "ckpt.pth") st = inr k ->
  exists D, k = "ckpt.pth" :: D /\ at_job_dir d D st.
Proof.
  rewrite checkpoint_path_parts. unfold locate, start_of.
  cbn [pathlib.anchored pathlib.parts].
  intros Hw. apply walk_snoc in Hw as (D & Hl & HD & ->).
  exists D. by repeat split.
Qed.

Lemma log_name_not_checkpoint (t : string) (K D : loc) :
  (t +:+ ".txt") :: K <> "ckpt.pth" :: D /\
  (t +:+ ".txt") :: K <> "ckpt.pth.new" :: D.
Proof.
  split; intros [= E _]; apply (f_equal last_char) in E;
    rewrite last_char_app in E; done.
Qed.

(** What a path resolves to is kept by a change of one regular file's
    content elsewhere. *)
Lemma stat_file_written p st j d0 d k :
  fs st !! j = Some (File d0) ->
  locate p st = inr k -> k <> j ->
  stat p (set_fs (insert j (File d)) st) = stat p st.
Proof.
  intros Hj Hl Hne. unfold stat.
  rewrite (locate_file_written p st k j d0 _ Hj Hl), Hl. simpl.
  by rewrite node_at_insert_ne.
Qed.

Lemma locate_file_written_back p st j d0 d k :
  fs st !! j = Some (File d0) ->
  locate p (set_fs (insert j (File d)) st) = inr k ->
  locate p st = inr k.
Proof.
  intros Hj. apply locate_kept; [done|]. simpl.
  intros i Hi. unfold dir_at in *.
  destruct (decide (i = j)) as [->|Hne].
  - destruct j as [|c j]; [done|]. simpl in Hi. by rewrite lookup_insert_eq in Hi.
  - by rewrite node_at_insert_ne in Hi.
Qed.

(** A change of the log file's content leaves the checkpoint as it is. *)
Lemma checkpoint_kept_by_log g n st k d0 d :
  locate (log_path_of g n) st = inr k ->
  fs st !! k = Some (File d0) ->
  forall d',
  file_at (set_fs (insert k (File d)) st) (d' </> "ckpt.pth")
  = file_at st (d' </> "ckpt.pth").
Proof.
  intros Hl Hf d'. unfold file_at.
  destruct (log_location g n st k Hl) as (t & K & -> & _).
  destruct (locate (d' </> "ckpt.pth") st) as [e|kc] eqn:Ec.
  - unfold stat at 2. rewrite Ec. unfold stat.
    destruct (locate _ (set_fs _ st)) as [e'|kc'] eqn:Ec'; [done|].
    apply (locate_file_written_back _ st _ d0) in Ec'; [congruence|done].
  - rewrite (stat_file_written _ st _ d0 d kc Hf Ec); [done|].
    apply checkpoint_location in Ec as (D & -> & _).
    intros E. symmetry in E. by apply log_name_not_checkpoint in E.
Qed.

Lemma stat_ext p st st' : fs st' = fs st -> cwd st' = cwd st -> stat p st' = stat p st.
Proof.
  intros Hf Hc. unfold stat, locate, start_of. by rewrite Hf, Hc.
Qed.

Lemma file_at_ext p st st' :
  fs st' = fs st -> cwd st' = cwd st -> file_at st' p = file_at st p.
Proof. intros Hf Hc. unfold file_at. by rewrite (stat_ext p st st'). Qed.

(** X5. Output through the connected sinks of a main unit is mirrored: with
    the log file there and a facade constructed around the console streams,
    every text written to either standard stream goes to the end of the log
    file, in the order of the writes, and to its own console; flushing
    changes nothing; the checkpoint is left as it is. *)
Theorem connected_output_is_mirrored
    (job_group job_name : string) (continue_job : bool)
    (st0 : process) (jo : JobOutput) (old : string)
    (calls : list output_call) (st : process) :
  name_enabled job_name = true ->
  value (__init__ job_group job_name continue_job true st0) = Ok jo ->
  sys_stdout st0 = Console Stdout ->
  sys_stderr st0 = Console Stderr ->
  file_at st (log_path_of job_group job_name) = Some old ->
  let r := (connect_streams jo ;; outputs calls) st in
  value r = Ok tt /\
  file_at (final r) (log_path_of job_group job_name)
  = Some (old +:+ written calls) /\
  console_out (final r) = console_out st +:+ written_to Stdout calls /\
  console_err (final r) = console_err st +:+ written_to Stderr calls /\
  file_at (final r) (checkpoint_path_of job_group job_name)
  = file_at st (checkpoint_path_of job_group job_name).
Proof.
  intros Hen Hv Hout Herr Hold. apply init_enabled_value in Hv; [|done]. subst jo.
  rewrite Hout, Herr. cbv zeta.
  set (log := log_path_of job_group job_name) in *.
  apply file_at_located in Hold as (k & Hl & Hk & Hf).
  set (s1 := set_sys_stderr (_LogHelper log (Console Stderr))
               (set_sys_stdout (_LogHelper log (Console Stdout)) st)).
  assert (Ec : connect_streams
                 (mkJobOutput true true (Some log)
                    (Some (job_dir_of job_group job_name))
                    (Some (checkpoint_path_of job_group job_name))
                    (_LogHelper log (Console Stdout))
                    (_LogHelper log (Console Stderr))) st
               = Run [] s1 (Ok tt)) by reflexivity.
  rewrite (run_bind_ok _ _ _ _ _ _ Ec). cbv beta. cbn [value final].
  destruct (outputs_mirror log k calls old s1)
    as (Hval & Hfs & Hcwd & Ho & He & _); try done.
  rewrite Hval, Ho, He. repeat split.
  - unfold file_at, stat.
    assert (Hl' : locate log (final (outputs calls s1)) = inr k).
    { apply (locate_kept log st); [done| |done].
      rewrite Hfs. simpl. apply dirs_kept_insert.
      unfold dir_at. rewrite node_at_lookup by done. by rewrite Hf. }
    rewrite Hl', Hfs. simpl. rewrite node_at_insert_eq by done. done.
  - rewrite (file_at_ext _ (set_fs (insert k (File (old +:+ written calls))) st))
      by done.
    unfold checkpoint_path_of. by eapply checkpoint_kept_by_log.
Qed.

Lemma connected_output_is_mirrored_witness :
  let st := final (__init__ "exp1" "run1" false true fresh_process) in
  let r := (connect_streams sample_facade ;;
            outputs [WriteOut "epoch 1"; FlushOut; WriteErr "warning"]) st in
  file_at st (log_path_of "exp1" "run1")
  = Some (starting_banner "exp1" "run1" "2024-03-07 09:05:00") /\
  value r = Ok tt /\
  file_at (final r) (log_path_of "exp1" "run1")
  = Some (starting_banner "exp1" "run1" "2024-03-07 09:05:00"
          +:+ "epoch 1warning") /\
  console_out (final r) = "epoch 1" /\
  console_err (final r) = "warning".
Proof.
  cbv zeta.
  assert (H1 : value (__init__ "exp1" "run1" false true fresh_process)
               = Ok sample_facade) by (vm_compute; reflexivity).
  assert (H2 : file_at (final (__init__ "exp1" "run1" false true fresh_process))
                 (log_path_of "exp1" "run1")
               = Some (starting_banner "exp1" "run1" "2024-03-07 09:05:00"))
    by (vm_compute; reflexivity).
  split; [exact H2|].
  pose proof (connected_output_is_mirrored "exp1" "run1" false fresh_process
                sample_facade _
                [WriteOut "epoch 1"; FlushOut; WriteErr "warning"]
                (final (__init__ "exp1" "run1" false true fresh_process))
                eq_refl H1 eq_refl eq_refl H2) as (Ha & Hb & Hc & Hd & _).
  exact (conj Ha (conj Hb (conj Hc Hd))).
Defined.

(** The log path is its parent followed by a name that ends in [.txt]. *)
Lemma log_path_parent (g n : string) :
  exists t,
    log_path_of g n =
    pathlib.mkPath (pathlib.anchored (pathlib.parent (log_path_of g n)))
      (pathlib.parts (pathlib.parent (log_path_of g n)) ++ [t +:+ ".txt"]).
Proof.
  destruct (log_path_last g n) as (mid & t & E). exists t.
  rewrite E at 1. rewrite E. unfold pathlib.parent.
  cbn [pathlib.anchored pathlib.parts].
  by rewrite app_assoc, removelast_snoc.
Qed.

Lemma txt_not_dotdot (t : string) : String.eqb (t +:+ ".txt") ".." = false.
Proof.
  destruct (String.eqb_spec (t +:+ ".txt") "..") as [E|_]; [|done].
  apply (f_equal last_char) in E. rewrite last_char_app in E; done.
Qed.

(** X6. The log file is opened anew for every write: when it has been
    removed and its directory is still there, the next write through the
    connected sink of a main unit makes it again, holding that text only,
    and the text reaches the console. *)
Theorem removed_log_is_made_again
    (job_group job_name : string) (continue_job : bool)
    (st0 : process) (jo : JobOutput) (x : string) (st : process) :
  name_enabled job_name = true ->
  value (__init__ job_group job_name continue_job true st0) = Ok jo ->
  sys_stdout st0 = Console Stdout ->
  exists_in st (log_path_of job_group job_name) = false ->
  is_dir_in st (pathlib.parent (log_path_of job_group job_name)) = true ->
  let r := (connect_streams jo ;; sys_stdout_write x) st in
  value r = Ok tt /\
  file_at (final r) (log_path_of job_group job_name) = Some x /\
  console_out (final r) = console_out st +:+ x.
Proof.
  intros Hen Hv Hout Hex Hpar. apply init_enabled_value in Hv; [|done]. subst jo.
  rewrite Hout. cbv zeta.
  set (log := log_path_of job_group job_name) in *.
  set (s1 := set_sys_stderr (_LogHelper log (sys_stderr st0))
               (set_sys_stdout (_LogHelper log (Console Stdout)) st)).
  assert (Ec : connect_streams
                 (mkJobOutput true true (Some log)
                    (Some (job_dir_of job_group job_name))
                    (Some (checkpoint_path_of job_group job_name))
                    (_LogHelper log (Console Stdout))
                    (_LogHelper log (sys_stderr st0))) st
               = Run [] s1 (Ok tt)) by reflexivity.
  rewrite (run_bind_ok _ _ _ _ _ _ Ec). cbv beta. cbn [value final].
  apply is_dir_in_at_job_dir in Hpar as [D HD].
  destruct (log_path_parent job_group job_name) as [t Elog]. fold log in Elog.
  assert (Hl : locate log st = inr ((t +:+ ".txt") :: D)).
  { rewrite Elog. apply locate_child; [apply txt_not_dotdot|done]. }
  assert (Hn : fs st !! ((t +:+ ".txt") :: D) = None).
  { unfold exists_in, stat in Hex. rewrite Hl in Hex. simpl in Hex.
    by destruct (fs st !! ((t +:+ ".txt") :: D)). }
  set (k := (t +:+ ".txt") :: D) in *.
  assert (Hk : k <> []) by done.
  unfold sys_stdout_write.
  rewrite (run_bind_ok _ _ _ _ _ _ (get_eq s1)). cbv beta.
  cbn [app sys_stdout s1 set_sys_stderr set_sys_stdout stream_write].
  pose proof (Path_open_append_eq log s1) as Eo.
  change (locate log s1) with (locate log st) in Eo. rewrite Hl in Eo.
  change (fs s1) with (fs st) in Eo.
  rewrite (node_at_lookup _ _ Hk), Hn in Eo.
  rewrite (run_bind_ok _ _ _ _ _ _ Eo). cbv beta.
  set (s2 := set_fs (insert k (File "")) s1).
  pose proof (file_write_eq k x s2) as Ew.
  assert (Hf2 : fs s2 !! k = Some (File "")) by (simpl; apply lookup_insert_eq).
  rewrite Hf2 in Ew. simpl "+:+" in Ew.
  rewrite (run_bind_ok _ _ _ _ _ _ Ew). cbv beta.
  cbn [value final stream_write effect].
  unfold s2. rewrite set_fs_insert_insert.
  repeat split.
  rewrite (file_at_ext _ (set_fs (insert k (File x)) st)) by done.
  unfold file_at, stat.
  assert (Hl' : locate log (set_fs (insert k (File x)) st) = inr k).
  { apply (locate_kept log st); [done| |done]. simpl.
    apply dirs_kept_insert. unfold dir_at.
    by rewrite (node_at_lookup _ _ Hk), Hn. }
  rewrite Hl'. simpl fs. rewrite (node_at_insert_eq _ _ _ Hk). done.
Qed.

Lemma removed_log_is_made_again_witness :
  let r := (connect_streams sample_facade ;; sys_stdout_write "epoch 2")
             log_removed_process in
  exists_in log_removed_process (log_path_of "exp1" "run1") = false /\
  is_dir_in log_removed_process (pathlib.parent (log_path_of "exp1" "run1"))
  = true /\
  value r = Ok tt /\
  file_at (final r) (log_path_of "exp1" "run1") = Some "epoch 2" /\
  console_out (final r) = "epoch 2".
Proof.
  cbv zeta.
  assert (H1 : value (__init__ "exp1" "run1" false true fresh_process)
               = Ok sample_facade) by (vm_compute; reflexivity).
  assert (H2 : exists_in log_removed_process (log_path_of "exp1" "run1") = false)
    by (vm_compute; reflexivity).
  assert (H3 : is_dir_in log_removed_process
                 (pathlib.parent (log_path_of "exp1" "run1")) = true)
    by (vm_compute; reflexivity).
  split; [exact H2|]. split; [exact H3|].
  exact (removed_log_is_made_again "exp1" "run1" false fresh_process
           sample_facade "epoch 2" log_removed_process
           eq_refl H1 eq_refl H2 H3).
Defined.

(** X7. The sink of a main unit writes the log before the stream it holds:
    when the log path is a directory, or the directory of the log file is
    missing, a write through the connected sink raises an [OSError] without
    any effect, so the text does not reach the console either. *)
Theorem unwritable_log_loses_output
    (job_group job_name : string) (continue_job : bool)
    (st0 : process) (jo : JobOutput) (x : string) (st : process) :
  name_enabled job_name = true ->
  value (__init__ job_group job_name continue_job true st0) = Ok jo ->
  is_dir_in st (log_path_of job_group job_name) = true \/
  is_dir_in st (pathlib.parent (log_path_of job_group job_name)) = false ->
  let r := (connect_streams jo ;; sys_stdout_write x) st in
  (exists eno, value r = Raise (OSError eno)) /\
  steps r = [] /\
  fs (final r) = fs st /\
  console_out (final r) = console_out st /\
  console_err (final r) = console_err st.
Proof.
  intros Hen Hv Hbad. apply init_enabled_value in Hv; [|done]. subst jo.
  cbv zeta.
  set (log := log_path_of job_group job_name) in *.
  set (s1 := set_sys_stderr (_LogHelper log (sys_stderr st0))
               (set_sys_stdout (_LogHelper log (sys_stdout st0)) st)).
  assert (Ec : connect_streams
                 (mkJobOutput true true (Some log)
                    (Some (job_dir_of job_group job_name))
                    (Some (checkpoint_path_of job_group job_name))
                    (_LogHelper log (sys_stdout st0))
                    (_LogHelper log (sys_stderr st0))) st
               = Run [] s1 (Ok tt)) by reflexivity.
  rewrite (run_bind_ok _ _ _ _ _ _ Ec). cbv beta. cbn [steps value final app].
  assert (Eo : exists eno, Path_open_append log s1 = Run [] s1 (Raise (OSError eno))).
  { rewrite Path_open_append_eq.
    change (locate log s1) with (locate log st). change (fs s1) with (fs st).
    destruct Hbad as [Hd|Hp].
    - unfold is_dir_in, stat in Hd.
      destruct (locate log st) as [e|k]; [done|].
      destruct (node_at (fs st) k) as [[|]|]; try done. by eexists.
    - destruct (locate log st) as [e|k] eqn:El; [by eexists|]. exfalso.
      destruct (log_path_parent job_group job_name) as [t Elog].
      fold log in Elog. rewrite Elog in El.
      unfold locate, start_of in El. cbn [pathlib.anchored pathlib.parts] in El.
      apply walk_snoc in El as (D & Hw & HD & _).
      unfold is_dir_in, stat, locate, start_of in Hp. rewrite Hw in Hp.
      apply dir_at_true in HD. by rewrite HD in Hp. }
  destruct Eo as [eno Eo]. unfold sys_stdout_write.
  rewrite (run_bind_ok _ _ _ _ _ _ (get_eq s1)). cbv beta.
  cbn [app sys_stdout s1 set_sys_stderr set_sys_stdout stream_write].
  rewrite (run_bind_raise _ _ _ _ _ _ Eo). cbn [steps value final].
  split; [by exists eno|]. done.
Qed.

Lemma unwritable_log_loses_output_witness :
  let r := (connect_streams sample_facade ;; sys_stdout_write "epoch 2")
             log_directory_process in
  is_dir_in log_directory_process (log_path_of "exp1" "run1") = true /\
  (exists eno, value r = Raise (OSError eno)) /\
  steps r = [] /\
  console_out (final r) = console_out log_directory_process.
Proof.
  cbv zeta.
  assert (H1 : value (__init__ "exp1" "run1" false true fresh_process)
               = Ok sample_facade) by (vm_compute; reflexivity).
  assert (H2 : is_dir_in log_directory_process (log_path_of "exp1" "run1") = true)
    by (vm_compute; reflexivity).
  split; [exact H2|].
  pose proof (unwritable_log_loses_output "exp1" "run1" false fresh_process
                sample_facade "epoch 2" log_directory_process
                eq_refl H1 (or_introl H2)) as (Ha & Hb & _ & Hc & _).
  exact (conj Ha (conj Hb Hc)).
Defined.

(** ** Output files *)

Lemma made_dir_is_mkdir a rparts st l st' : made_dir a rparts st l st' -> is_mkdir l = true.
Proof. by intros (k & sfx & -> & _). Qed.

(** X8. For every enabled facade, of a main unit or not, and from any
    state, [get_output_file_path] makes the job directory and gives the path
    of the file in it: only [OSError] escapes, every step makes a directory,
    and when it returns the job directory is there and asking again, for
    any file name, takes no step. *)
Theorem output_file_path_makes_job_directory
    (job_group job_name : string) (continue_job is_main : bool)
    (st0 : process) (jo : JobOutput) (filename : string) (st : process) :
  name_enabled job_name = true ->
  value (__init__ job_group job_name continue_job is_main st0) = Ok jo ->
  let r := get_output_file_path jo filename st in
  only_OSError r /\
  Forall (fun x => is_mkdir (fst x) = true) (steps r) /\
  forall v, value r = Ok v ->
    v = Some (job_dir_of job_group job_name </> filename) /\
    is_dir_in (final r) (job_dir_of job_group job_name) = true /\
    forall other,
      get_output_file_path jo other (final r)
      = Run [] (final r) (Ok (Some (job_dir_of job_group job_name </> other))).
Proof.
  intros Hen Hv. apply init_enabled_value in Hv; [|done].
  set (d := job_dir_of job_group job_name).
  assert (Eg : forall f s, get_output_file_path jo f s
                           = (Path_mkdir d true true ;; ret (Some (d </> f))) s).
  { intros f s. subst jo. reflexivity. }
  cbv zeta. rewrite Eg. clear Hv. split; [|split].
  - apply only_OSError_bind; [apply only_OSError_Path_mkdir|].
    intros _ _ e. discriminate.
  - rewrite steps_bind.
    assert (Hs : Forall (fun x => is_mkdir (fst x) = true)
                   (steps (Path_mkdir d true true st))).
    { apply (chain_labels (made_dir (pathlib.anchored d) (rev (pathlib.parts d)))
               (fun l => is_mkdir l = true) st _
               (final (Path_mkdir d true true st)));
        [|apply runs_Path_mkdir].
      intros a l b. apply made_dir_is_mkdir. }
    destruct (value (Path_mkdir d true true st)); cbn [steps ret];
      by rewrite app_nil_r.
  - intros v. rewrite value_bind, final_bind.
    destruct (value (Path_mkdir d true true st)) as [[]|e] eqn:Hm; [|done].
    cbn [value final ret]. intros [= <-].
    apply Path_mkdir_ok in Hm as Hdir. split; [done|]. split; [done|].
    intros other. rewrite Eg.
    by rewrite (run_bind_ok _ _ _ _ _ _ (Path_mkdir_existing _ _ Hdir)).
Qed.

Lemma output_file_path_makes_job_directory_witness :
  let st := final (__init__ "exp1" "run1" false false fresh_process) in
  let jo := mkJobOutput false true
              (Some (log_path_of "exp1" "run1")) (Some (job_dir_of "exp1" "run1"))
              (Some (checkpoint_path_of "exp1" "run1"))
              (_LogSuppress (Console Stdout)) (_LogSuppress (Console Stderr)) in
  let r := get_output_file_path jo "curve.png" st in
  value (__init__ "exp1" "run1" false false fresh_process) = Ok jo /\
  value r = Ok (Some (job_dir_of "exp1" "run1" </> "curve.png")) /\
  is_dir_in st (job_dir_of "exp1" "run1") = false /\
  is_dir_in (final r) (job_dir_of "exp1" "run1") = true.
Proof.
  cbv zeta.
  assert (H1 : value (__init__ "exp1" "run1" false false fresh_process)
               = Ok (mkJobOutput false true
                       (Some (log_path_of "exp1" "run1"))
                       (Some (job_dir_of "exp1" "run1"))
                       (Some (checkpoint_path_of "exp1" "run1"))
                       (_LogSuppress (Console Stdout))
                       (_LogSuppress (Console Stderr))))
    by (vm_compute; reflexivity).
  assert (H2 : value (get_output_file_path
                 (mkJobOutput false true
                       (Some (log_path_of "exp1" "run1"))
                       (Some (job_dir_of "exp1" "run1"))
                       (Some (checkpoint_path_of "exp1" "run1"))
                       (_LogSuppress (Console Stdout))
                       (_LogSuppress (Console Stderr))) "curve.png"
                 (final (__init__ "exp1" "run1" false false fresh_process)))
               = Ok (Some (job_dir_of "exp1" "run1" </> "curve.png")))
    by (vm_compute; reflexivity).
  split; [exact H1|]. split; [exact H2|]. split; [vm_compute; reflexivity|].
  pose proof (output_file_path_makes_job_directory "exp1" "run1" false false
                fresh_process _ "curve.png"
                (final (__init__ "exp1" "run1" false false fresh_process))
                eq_refl H1) as (_ & _ & H).
  exact (proj1 (proj2 (H _ H2))).
Defined.

(** ** Construction *)

(** The banner of a construction by a main unit: the continuing one when
    the log exists, the starting one otherwise. *)
Lemma log_intro_outcome log x st :
  let r := (f <- Path_open_append log ;; file_writelines f [x]) st in
  only_OSError r /\
  (forall u, value r = Ok u -> exists d, file_at (final r) log = Some d) /\
  same_process st (final r).
Proof.
  cbv zeta. pose proof (Path_open_append_eq log st) as Eo.
  destruct (locate log st) as [e|k] eqn:El.
  { rewrite (run_bind_raise _ _ _ _ _ _ Eo). cbn [value final].
    split; [intros e' [= <-]; eauto|]. split; [done|]. by repeat split. }
  assert (Hdone : forall s d,
    fs s !! k = Some (File d) -> locate log s = inr k -> k <> [] ->
    let r := file_writelines k [x] s in
    value r = Ok tt /\ (exists d', file_at (final r) log = Some d') /\
    same_process s (final r)).
  { intros s d Hf Hl Hk. cbv zeta. cbn [file_writelines].
    pose proof (file_write_eq k x s) as Ew. rewrite Hf in Ew.
    rewrite (run_bind_ok _ _ _ _ _ _ Ew). cbv beta. cbn [value final ret].
    split; [done|]. split; [|by repeat split].
    unfold file_at, stat.
    rewrite (locate_file_written log s k k d _ Hf Hl). simpl fs.
    rewrite node_at_insert_eq by done. by eexists. }
  destruct (node_at (fs st) k) as [[d|]|] eqn:En.
  - apply node_at_file in En as [Hk Hf].
    rewrite (run_bind_ok _ _ _ _ _ _ Eo). cbv beta. cbn [value final].
    destruct (Hdone st d Hf El Hk) as (Hv & Hex & Hsame).
    split; [intros e; rewrite Hv; discriminate|]. by split.
  - rewrite (run_bind_raise _ _ _ _ _ _ Eo). cbn [value final].
    split; [intros e' [= <-]; eauto|]. split; [done|]. by repeat split.
  - apply node_at_none in En as [Hk Hn].
    rewrite (run_bind_ok _ _ _ _ _ _ Eo). cbv beta. cbn [value final].
    set (s1 := set_fs (insert k (File "")) st).
    assert (Hl1 : locate log s1 = inr k).
    { apply (locate_kept log st); [done| |done]. simpl.
      apply dirs_kept_insert. unfold dir_at.
      by rewrite (node_at_lookup _ _ Hk), Hn. }
    assert (Hf1 : fs s1 !! k = Some (File "")) by (simpl; apply lookup_insert_eq).
    destruct (Hdone s1 "" Hf1 Hl1 Hk) as (Hv & Hex & Hsame).
    split; [intros e; rewrite Hv; discriminate|]. split; [done|].
    destruct Hsame as (? & ? & ? & ? & ? & ?). by repeat split.
Qed.

Lemma bind_get_ret {A} (m : M unit) (F : process -> A) st :
  (m ;; s <- get ;; ret (F s)) st =
  Run (steps (m st)) (final (m st))
    match value (m st) with
    | Ok _ => Ok (F (final (m st)))
    | Raise e => Raise e
    end.
Proof.
  unfold bind, get, ret. destruct (value (m st)); cbn [steps final value]; [|done].
  by rewrite app_nil_r.
Qed.

(** A construction by the main unit of an enabled job, once the job_group
    directory is made: it is refused when the log exists and the job is not
    continued, and writes its banner otherwise. *)
Lemma init_main_eq g n c st :
  name_enabled n = true ->
  value (Path_mkdir (output_dir_of g) true true st) = Ok tt ->
  let m := Path_mkdir (output_dir_of g) true true st in
  let s1 := final m in
  let log := log_path_of g n in
  __init__ g n c true st =
  if exists_in s1 log && negb c
  then Run (steps m) s1
         (Raise (LogAlreadyExistsError
                   ("Log file " +:+ pathlib.str log +:+ " already exists.")))
  else
    let banner := if exists_in s1 log
                  then continuing_banner g n (strftime (clock s1))
                  else starting_banner g n (strftime (clock s1)) in
    let t := (f <- Path_open_append log ;; file_writelines f [banner]) s1 in
    Run (steps m ++ steps t) (final t)
      match value t with
      | Ok _ => Ok (mkJobOutput true true (Some log) (Some (job_dir_of g n))
                      (Some (checkpoint_path_of g n))
                      (_LogHelper log (sys_stdout (final t)))
                      (_LogHelper log (sys_stderr (final t))))
      | Raise e => Raise e
      end.
Proof.
  intros Hen Hm. cbv zeta. apply ok_run_eq in Hm.
  set (s1 := final (Path_mkdir (output_dir_of g) true true st)) in *.
  unfold __init__. rewrite Hen. fold (log_path_of g n).
  rewrite (run_bind_ok _ _ _ _ _ _ Hm). cbv beta iota.
  rewrite (bind_get_ret _
    (fun s => mkJobOutput true true (Some (log_path_of g n))
                (Some (output_dir_of g </> n))
                (Some (output_dir_of g </> n </> "ckpt.pth"))
                (_LogHelper (log_path_of g n) (sys_stdout s))
                (_LogHelper (log_path_of g n) (sys_stderr s)))).
  cbn [steps final value].
  rewrite (run_bind_ok _ _ _ _ _ _ (Path_exists_eq _ _)). cbv beta.
  cbn [app steps final value].
  destruct (exists_in s1 (log_path_of g n)); [destruct c|]; cbn [andb negb].
  - rewrite bind_assoc.
    rewrite (run_bind_ok _ _ _ _ _ _ (datetime_now_eq _)). cbv beta.
    rewrite bind_ret_l. cbn [app steps final value]. done.
  - rewrite (run_bind_raise _ _ _ _ _ _ (raise_eq _ _)).
    cbn [steps final value]. by rewrite app_nil_r.
  - rewrite bind_assoc.
    rewrite (run_bind_ok _ _ _ _ _ _ (datetime_now_eq _)). cbv beta.
    rewrite bind_ret_l. cbn [app steps final value]. done.
Qed.

(** When a construction by the main unit returns, the log file is there. *)
Lemma init_main_log_file g n c st jo :
  name_enabled n = true ->
  value (__init__ g n c true st) = Ok jo ->
  exists text, file_at (final (__init__ g n c true st)) (log_path_of g n) = Some text.
Proof.
  intros Hen Hv.
  destruct (value (Path_mkdir (output_dir_of g) true true st)) as [[]|e] eqn:Hm.
  2:{ revert Hv. unfold __init__. by rewrite value_bind, Hm. }
  pose proof (init_main_eq g n c st Hen Hm) as E.
  cbv zeta in E. rewrite E in Hv |- *. clear E.
  destruct (exists_in _ (log_path_of g n) && negb c); [done|].
  cbn [value final] in *.
  match goal with
  | |- exists _, file_at (final ?t) _ = _ =>
      destruct (value t) as [u|e] eqn:Ht; [|done]
  end.
  eapply (proj1 (proj2 (log_intro_outcome _ _ _))). exact Ht.
Qed.

Lemma Path_mkdir_steps_mkdir p st :
  Forall (fun x => is_mkdir (fst x) = true) (steps (Path_mkdir p true true st)).
Proof.
  apply (chain_labels (made_dir (pathlib.anchored p) (rev (pathlib.parts p)))
           (fun l => is_mkdir l = true) st _ (final (Path_mkdir p true true st)));
    [|apply runs_Path_mkdir].
  intros a l b. apply made_dir_is_mkdir.
Qed.

Lemma non_main_init_only_OSError g n c st : only_OSError (__init__ g n c false st).
Proof.
  unfold __init__. apply only_OSError_bind; [apply only_OSError_Path_mkdir|].
  intros _ _ e. destruct (name_enabled n); cbn [bind ret get value final];
    discriminate.
Qed.

(** X9. The construction of a unit that is not the main one, for an enabled
    job, does what [mkdir(parents=True, exist_ok=True)] on the job_group
    directory does and nothing else, whether the log exists or not and
    whether the job is continued or not: the log is neither tested nor
    written, [LogAlreadyExistsError] is never raised, and the construction
    returns whenever that [mkdir] does. *)
Theorem non_main_construction_leaves_log
    (job_group job_name : string) (continue_job : bool) (st : process) :
  name_enabled job_name = true ->
  let r := __init__ job_group job_name continue_job false st in
  let d := Path_mkdir (output_dir_of job_group) true true st in
  steps r = steps d /\ final r = final d /\
  Forall (fun x => is_mkdir (fst x) = true) (steps r) /\
  only_OSError r /\
  (value d = Ok tt -> exists jo, value r = Ok jo).
Proof.
  intros Hen. cbv zeta. unfold __init__. rewrite Hen.
  rewrite steps_bind, final_bind, value_bind.
  pose proof (Path_mkdir_steps_mkdir (output_dir_of job_group) st) as Hs.
  pose proof (only_OSError_Path_mkdir (output_dir_of job_group) st) as Ho.
  unfold only_OSError. rewrite value_bind.
  destruct (value (Path_mkdir (output_dir_of job_group) true true st))
    as [[]|e] eqn:Hm; cbn [steps final value bind ret get app];
    rewrite ?app_nil_r.
  - repeat split; try done. by eexists.
  - repeat split; try done. intros e' [= <-]. by apply Ho.
Qed.

Lemma non_main_construction_leaves_log_witness :
  let st := final (__init__ "exp1" "run1" false true fresh_process) in
  let r := __init__ "exp1" "run1" false false st in
  name_enabled "run1" = true /\
  exists_in st (log_path_of "exp1" "run1") = true /\
  steps r = [] /\ final r = st /\ exists jo, value r = Ok jo.
Proof.
  cbv zeta. split; [reflexivity|]. split; [vm_compute; reflexivity|].
  pose proof (non_main_construction_leaves_log "exp1" "run1" false
                (final (__init__ "exp1" "run1" false true fresh_process))
                eq_refl) as (Hs & Hf & _ & _ & Hv).
  split; [exact Hs|]. split; [exact Hf|]. exact (Hv eq_refl).
Defined.

(** X10. [LogAlreadyExistsError] is raised by a construction in one case
    only: an enabled job, the main unit, no continuation, and a log path
    that exists once the job_group directory is made. The message names the
    log path, and up to the failure the construction has only made
    directories. *)
Theorem log_exists_error_only_on_fresh_main_start
    (job_group job_name : string) (continue_job is_main : bool)
    (st : process) (msg : string) :
  let r := __init__ job_group job_name continue_job is_main st in
  value r = Raise (LogAlreadyExistsError msg) ->
  name_enabled job_name = true /\ is_main = true /\ continue_job = false /\
  exists_in (final (Path_mkdir (output_dir_of job_group) true true st))
            (log_path_of job_group job_name) = true /\
  msg = "Log file " +:+ pathlib.str (log_path_of job_group job_name)
        +:+ " already exists." /\
  Forall (fun x => is_mkdir (fst x) = true) (steps r) /\
  final r = final (Path_mkdir (output_dir_of job_group) true true st).
Proof.
  cbv zeta. intros Hr.
  destruct (name_enabled job_name) eqn:Hen.
  2:{ exfalso. revert Hr. unfold __init__. rewrite Hen, value_bind.
      pose proof (only_OSError_Path_mkdir (output_dir_of job_group) st) as Ho.
      destruct (value (Path_mkdir _ true true st)) as [[]|e] eqn:Hm; [done|].
      intros [= ->]. by destruct (Ho _ Hm). }
  destruct is_main.
  2:{ exfalso.
      by destruct (non_main_init_only_OSError job_group job_name continue_job
                     st _ Hr). }
  pose proof (only_OSError_Path_mkdir (output_dir_of job_group) st) as Ho.
  destruct (value (Path_mkdir (output_dir_of job_group) true true st))
    as [[]|e] eqn:Hm.
  2:{ exfalso. revert Hr. unfold __init__. rewrite value_bind, Hm.
      intros [= ->]. by destruct (Ho _ Hm). }
  pose proof (init_main_eq job_group job_name continue_job st Hen Hm) as E.
  cbv zeta in E. rewrite E in Hr |- *. clear E.
  destruct (exists_in _ (log_path_of job_group job_name)) eqn:Hex;
    [destruct continue_job|]; cbn [andb negb] in Hr |- *.
  - exfalso. cbn [value] in Hr.
    destruct (log_intro_outcome (log_path_of job_group job_name)
                (continuing_banner job_group job_name
                   (strftime (clock (final (Path_mkdir (output_dir_of job_group)
                                              true true st)))))
                (final (Path_mkdir (output_dir_of job_group) true true st)))
      as (Ho' & _).
    destruct (value _) as [u|e] eqn:Hv; [done|].
    injection Hr as ->. by destruct (Ho' _ Hv).
  - cbn [value steps final] in *. injection Hr as <-.
    repeat split; try done. apply Path_mkdir_steps_mkdir.
  - exfalso. cbn [value] in Hr.
    destruct (log_intro_outcome (log_path_of job_group job_name)
                (starting_banner job_group job_name
                   (strftime (clock (final (Path_mkdir (output_dir_of job_group)
                                              true true st)))))
                (final (Path_mkdir (output_dir_of job_group) true true st)))
      as (Ho' & _).
    destruct (value _) as [u|e] eqn:Hv; [done|].
    injection Hr as ->. by destruct (Ho' _ Hv).
Qed.

Lemma log_exists_error_only_on_fresh_main_start_witness :
  let st := final (__init__ "exp1" "run1" false true fresh_process) in
  value (__init__ "exp1" "run1" false true st)
  = Raise (LogAlreadyExistsError
             "Log file logs_and_output/exp1/log_run1.txt already exists.") /\
  exists_in (final (Path_mkdir (output_dir_of "exp1") true true st))
            (log_path_of "exp1" "run1") = true.
Proof.
  cbv zeta.
  assert (H1 : value (__init__ "exp1" "run1" false true
                        (final (__init__ "exp1" "run1" false true fresh_process)))
               = Raise (LogAlreadyExistsError
                   "Log file logs_and_output/exp1/log_run1.txt already exists."))
    by (vm_compute; reflexivity).
  split; [exact H1|].
  pose proof (log_exists_error_only_on_fresh_main_start "exp1" "run1" false true
                (final (__init__ "exp1" "run1" false true fresh_process)) _ H1)
    as (_ & _ & _ & Hex & _).
  exact Hex.
Defined.

(** With the log there and no continuation, the construction by the main
    unit is refused before any effect. *)
Lemma init_refused_eq g n st :
  name_enabled n = true ->
  exists_in st (log_path_of g n) = true ->
  __init__ g n false true st =
  Run [] st (Raise (LogAlreadyExistsError
               ("Log file " +:+ pathlib.str (log_path_of g n)
                +:+ " already exists."))).
Proof.
  intros Hen Hex. apply log_exists_group_dir in Hex as Hd.
  unfold __init__. rewrite Hen. fold (log_path_of g n).
  rewrite (run_bind_ok _ _ _ _ _ _ (Path_mkdir_existing _ _ Hd)). cbv beta.
  rewrite !bind_assoc.
  rewrite (run_bind_ok _ _ _ _ _ _ (Path_exists_eq _ _)). cbv beta.
  rewrite Hex, !bind_assoc.
  by rewrite (run_bind_raise _ _ _ _ _ _ (raise_eq _ _)).
Qed.

(** X11. A job that has started cannot be started again by mistake: after
    a construction by the main unit has returned, with or without
    continuation, a construction for the same job without continuation is
    refused with [LogAlreadyExistsError] and changes nothing. *)
Theorem second_start_is_refused
    (job_group job_name : string) (continue_job : bool)
    (st : process) (jo : JobOutput) :
  name_enabled job_name = true ->
  value (__init__ job_group job_name continue_job true st) = Ok jo ->
  let st' := final (__init__ job_group job_name continue_job true st) in
  __init__ job_group job_name false true st' =
  Run [] st' (Raise (LogAlreadyExistsError
                ("Log file " +:+ pathlib.str (log_path_of job_group job_name)
                 +:+ " already exists."))).
Proof.
  intros Hen Hv. cbv zeta.
  destruct (init_main_log_file job_group job_name continue_job st jo Hen Hv)
    as [old Hold].
  apply file_at_exists in Hold as Hex.
  by apply init_refused_eq.
Qed.

Lemma second_start_is_refused_witness :
  let st' := final (__init__ "exp1" "run1" true true fresh_process) in
  value (__init__ "exp1" "run1" true true fresh_process) = Ok sample_facade /\
  __init__ "exp1" "run1" false true st' =
  Run [] st' (Raise (LogAlreadyExistsError
                "Log file logs_and_output/exp1/log_run1.txt already exists.")).
Proof.
  cbv zeta.
  assert (H1 : value (__init__ "exp1" "run1" true true fresh_process)
               = Ok sample_facade) by (vm_compute; reflexivity).
  split; [exact H1|].
  exact (second_start_is_refused "exp1" "run1" true fresh_process sample_facade
           eq_refl H1).
Defined.

(** ** Finding and reading the checkpoint *)

(** X12. [checkpoint_exists] and [read_checkpoint] take no step, leave the
    state as it is and agree, for an enabled facade: [checkpoint_exists]
    says whether the checkpoint path is a regular file; where it is none
    (nothing is there, or a directory), [read_checkpoint] gives [None];
    where it is one and its bytes load to a record, [checkpoint_exists]
    gives [True] and [read_checkpoint] gives that record. *)
Theorem checkpoint_exists_agrees_with_read {R : Type} {P : Pickle R}
    (job_group job_name : string) (continue_job is_main : bool)
    (st0 : process) (jo : JobOutput) (hint : option string) (st : process) :
  name_enabled job_name = true ->
  value (__init__ job_group job_name continue_job is_main st0) = Ok jo ->
  let ckpt := checkpoint_path_of job_group job_name in
  let e := checkpoint_exists jo st in
  let r := read_checkpoint (R := R) jo hint st in
  steps e = [] /\ final e = st /\ steps r = [] /\ final r = st /\
  value e = Ok (is_file_in st ckpt) /\
  (is_file_in st ckpt = false -> value r = Ok None) /\
  (forall bytes rec,
     file_at st ckpt = Some bytes -> loads bytes = Some rec ->
     value e = Ok true /\ value r = Ok (Some rec)).
Proof.
  intros Hen Hv. apply init_enabled_value in Hv; [|done]. cbv zeta.
  set (ckpt := checkpoint_path_of job_group job_name).
  assert (Hc : checkpoint_path jo = Some ckpt) by (by subst jo).
  rewrite (read_checkpoint_eq jo ckpt hint st Hc).
  assert (He : checkpoint_exists jo st = Run [] st (Ok (is_file_in st ckpt))).
  { unfold checkpoint_exists. by rewrite Hc. }
  rewrite He. cbn [steps final value].
  assert (Hf : is_file_in st ckpt
               = match file_at st ckpt with Some _ => true | None => false end).
  { unfold is_file_in, file_at. by destruct (stat ckpt st) as [|[|]]. }
  rewrite Hf. do 4 (split; [done|]).
  split; [by destruct (file_at st ckpt)|]. split.
  - by destruct (file_at st ckpt).
  - intros bytes rec Hb Hl. by rewrite Hb, Hl.
Qed.

Lemma checkpoint_exists_agrees_with_read_witness :
  let P := byte_pickle in
  let st := final (__init__ "exp1" "run1" false true fresh_process) in
  value (__init__ "exp1" "run1" false true fresh_process) = Ok sample_facade /\
  is_file_in st (checkpoint_path_of "exp1" "run1") = false /\
  value (read_checkpoint (R := list nat) sample_facade None st) = Ok None /\
  file_at saved_process (checkpoint_path_of "exp1" "run1") = Some (dumps [1; 2; 3]) /\
  value (checkpoint_exists sample_facade saved_process) = Ok true /\
  value (read_checkpoint (R := list nat) sample_facade None saved_process)
  = Ok (Some [1; 2; 3]).
Proof.
  cbv zeta.
  assert (H1 : value (__init__ "exp1" "run1" false true fresh_process)
               = Ok sample_facade) by (vm_compute; reflexivity).
  assert (H2 : is_file_in (final (__init__ "exp1" "run1" false true fresh_process))
                 (checkpoint_path_of "exp1" "run1") = false)
    by (vm_compute; reflexivity).
  assert (H3 : file_at saved_process (checkpoint_path_of "exp1" "run1")
               = Some (dumps (Pickle := byte_pickle) [1; 2; 3]))
    by (vm_compute; reflexivity).
  split; [exact H1|]. split; [exact H2|].
  split.
  { exact (proj1 (proj2 (proj2 (proj2 (proj2 (proj2
             (checkpoint_exists_agrees_with_read (P := byte_pickle)
                "exp1" "run1" false true fresh_process sample_facade None
                (final (__init__ "exp1" "run1" false true fresh_process))
                eq_refl H1)))))) H2). }
  split; [exact H3|].
  exact (proj2 (proj2 (proj2 (proj2 (proj2 (proj2
           (checkpoint_exists_agrees_with_read (P := byte_pickle)
              "exp1" "run1" false true fresh_process sample_facade None
              saved_process eq_refl H1))))))
           _ [1; 2; 3] H3 eq_refl).
Defined.

(** ** The log file and the checkpoint do not meet *)

Lemma file_at_kept p st st' x :
  cwd st' = cwd st -> dirs_kept (fs st) (fs st') ->
  (forall k, k <> [] -> locate p st = inr k -> fs st !! k = Some (File x) ->
             fs st' !! k = Some (File x)) ->
  file_at st p = Some x -> file_at st' p = Some x.
Proof.
  intros Hc Hk Hsame Hf. apply file_at_located in Hf as (k & Hl & Hne & Hf).
  unfold file_at, stat. rewrite (locate_kept p st st' k Hc Hk Hl).
  rewrite node_at_lookup by done. by rewrite (Hsame k Hne Hl Hf).
Qed.

Lemma made_dir_keeps_file a rparts st l st' p x :
  made_dir a rparts st l st' -> file_at st p = Some x -> file_at st' p = Some x.
Proof.
  intros (k & sfx & _ & _ & _ & Hn & ->). apply file_at_kept; [done| |].
  - simpl. apply dirs_kept_insert. unfold dir_at. by rewrite Hn.
  - intros j Hj _ Hf. simpl. rewrite lookup_insert_ne; [done|].
    intros <-. rewrite node_at_lookup in Hn by done. congruence.
Qed.

Lemma Path_mkdir_keeps_file d p x st :
  file_at st p = Some x -> file_at (final (Path_mkdir d true true st)) p = Some x.
Proof.
  intros Hf.
  destruct (chain_invariant (made_dir (pathlib.anchored d) (rev (pathlib.parts d)))
              (fun s => file_at s p = Some x) st _ _
              (fun a l b H => made_dir_keeps_file _ _ a l b p x H)
              (runs_Path_mkdir d st) Hf) as [_ H].
  exact H.
Qed.

(** X13. A save leaves the log file alone: whatever the state, whether the
    save by the main unit returns or fails, the log file holds afterwards
    what it held before. *)
Theorem save_leaves_log {R : Type} {P : Pickle R}
    (job_group job_name : string) (continue_job : bool)
    (st0 : process) (jo : JobOutput) (data : R) (st : process) (text : string) :
  name_enabled job_name = true ->
  value (__init__ job_group job_name continue_job true st0) = Ok jo ->
  file_at st (log_path_of job_group job_name) = Some text ->
  file_at (final (write_checkpoint jo data st)) (log_path_of job_group job_name)
  = Some text.
Proof.
  intros Hen Hv Hlog. apply init_enabled_value in Hv; [|done]. subst jo.
  set (log := log_path_of job_group job_name) in *.
  set (d := job_dir_of job_group job_name).
  pose proof (write_checkpoint_outcome d (Some log)
    (_LogHelper log (sys_stdout st0)) (_LogHelper log (sys_stderr st0))
    data st) as Ho.
  cbv zeta in Ho.
  change (d </> "ckpt.pth") with (checkpoint_path_of job_group job_name) in Ho.
  set (w := write_checkpoint _ data st) in *.
  apply (Path_mkdir_keeps_file d) in Hlog.
  set (s1 := final (Path_mkdir d true true st)) in *.
  destruct (value (Path_mkdir d true true st)) as [[]|e].
  2:{ destruct Ho as [_ ->]. exact Hlog. }
  destruct Ho as (D & HD & Ho).
  assert (Hne : forall k, locate log s1 = inr k ->
                          k <> "ckpt.pth" :: D /\ k <> "ckpt.pth.new" :: D).
  { intros k Hl.
    destruct (log_location job_group job_name s1 k Hl) as (t & K & -> & _).
    apply log_name_not_checkpoint. }
  assert (Hins : node_at (fs s1) ("ckpt.pth.new" :: D) <> Some Dir ->
    file_at (set_fs (insert ("ckpt.pth.new" :: D) (File (dumps data))) s1) log
    = Some text).
  { intros Hn. revert Hlog. apply file_at_kept; [done| |].
    - simpl. apply dirs_kept_insert. unfold dir_at.
      by destruct (node_at (fs s1) ("ckpt.pth.new" :: D)) as [[|]|].
    - intros k _ Hl Hf. simpl. destruct (Hne k Hl) as [_ H2].
      by rewrite lookup_insert_ne. }
  assert (Hsave : node_at (fs s1) ("ckpt.pth.new" :: D) <> Some Dir ->
    node_at (fs s1) ("ckpt.pth" :: D) <> Some Dir ->
    file_at (set_fs (fun m => <["ckpt.pth" :: D := File (dumps data)]>
                                (delete ("ckpt.pth.new" :: D) m)) s1) log
    = Some text).
  { intros Hn Hc. revert Hlog. apply file_at_kept; [done| |].
    - simpl. eapply dirs_kept_trans.
      + apply (dirs_kept_delete _ ("ckpt.pth.new" :: D)).
        unfold dir_at. by destruct (node_at (fs s1) ("ckpt.pth.new" :: D)) as [[|]|].
      + apply dirs_kept_insert. unfold dir_at. simpl.
        rewrite lookup_delete_ne by done.
        simpl in Hc. by destruct (fs s1 !! ("ckpt.pth" :: D)) as [[|]|].
    - intros k _ Hl Hf. simpl. destruct (Hne k Hl) as [H1 H2].
      rewrite lookup_insert_ne by done. by rewrite lookup_delete_ne. }
  cbn [node_at] in *.
  destruct (fs s1 !! ("ckpt.pth.new" :: D)) as [[dn|]|] eqn:En;
    destruct (fs s1 !! ("ckpt.pth" :: D)) as [[dc|]|] eqn:Ec;
    destruct Ho as [_ ->]; try exact Hlog;
    try (apply Hins; done); apply Hsave; done.
Qed.

Lemma save_leaves_log_witness :
  let P := byte_pickle in
  let st := final (__init__ "exp1" "run1" false true fresh_process) in
  file_at st (log_path_of "exp1" "run1")
  = Some (starting_banner "exp1" "run1" "2024-03-07 09:05:00") /\
  file_at (final (write_checkpoint sample_facade [1; 2; 3] st))
          (log_path_of "exp1" "run1")
  = Some (starting_banner "exp1" "run1" "2024-03-07 09:05:00").
Proof.
  cbv zeta.
  assert (H1 : value (__init__ "exp1" "run1" false true fresh_process)
               = Ok sample_facade) by (vm_compute; reflexivity).
  assert (H2 : file_at (final (__init__ "exp1" "run1" false true fresh_process))
                 (log_path_of "exp1" "run1")
               = Some (starting_banner "exp1" "run1" "2024-03-07 09:05:00"))
    by (vm_compute; reflexivity).
  split; [exact H2|].
  exact (save_leaves_log (P := byte_pickle) "exp1" "run1" false fresh_process
           sample_facade [1; 2; 3]
           (final (__init__ "exp1" "run1" false true fresh_process)) _
           eq_refl H1 H2).
Defined.

(** ** A facade over a facade *)

Lemma stream_write_sink_eq log under x :
  stream_write (_LogHelper log under) x =
  (f_out <- Path_open_append log ;; file_write f_out x ;; stream_write under x).
Proof. reflexivity. Qed.

(** X14. A facade holds the standard streams it finds at its construction,
    sinks included: when the main unit constructs a second facade for the
    job while the first one is connected, and connects it, a text written
    to standard output goes to the log file twice and to the console
    once. *)
Theorem second_facade_logs_twice
    (job_group job_name : string) (continue_job : bool)
    (st0 : process) (jo1 jo2 : JobOutput) (st : process) (x : string) :
  name_enabled job_name = true ->
  value (__init__ job_group job_name continue_job true st0) = Ok jo1 ->
  sys_stdout st0 = Console Stdout ->
  let s1 := final (connect_streams jo1 st) in
  value (__init__ job_group job_name true true s1) = Ok jo2 ->
  let s2 := final (__init__ job_group job_name true true s1) in
  let r := (connect_streams jo2 ;; sys_stdout_write x) s2 in
  exists old,
    file_at s2 (log_path_of job_group job_name) = Some old /\
    value r = Ok tt /\
    file_at (final r) (log_path_of job_group job_name) = Some (old +:+ x +:+ x) /\
    console_out (final r) = console_out s2 +:+ x.
Proof.
  intros Hen Hv1 Hout. apply init_enabled_value in Hv1; [|done]. subst jo1.
  rewrite Hout. cbv zeta.
  set (log := log_path_of job_group job_name) in *.
  set (jo1 := mkJobOutput _ _ _ _ _ _ _).
  set (s1 := final (connect_streams jo1 st)).
  assert (Ho1 : sys_stdout s1 = _LogHelper log (Console Stdout)) by reflexivity.
  intros Hv2.
  destruct (init_main_log_file job_group job_name true s1 jo2 Hen Hv2)
    as [old Hold]. fold log in Hold.
  apply init_enabled_value in Hv2; [|done]. subst jo2. rewrite Ho1.
  set (s2 := final (__init__ job_group job_name true true s1)) in *.
  exists old. split; [exact Hold|].
  apply file_at_located in Hold as (k & Hl & Hk & Hf).
  set (s3 := set_sys_stderr (_LogHelper log (sys_stderr s1))
               (set_sys_stdout (_LogHelper log (_LogHelper log (Console Stdout)))
                  s2)).
  assert (Ec : connect_streams
                 (mkJobOutput true true (Some log)
                    (Some (job_dir_of job_group job_name))
                    (Some (checkpoint_path_of job_group job_name))
                    (_LogHelper log (_LogHelper log (Console Stdout)))
                    (_LogHelper log (sys_stderr s1))) s2
               = Run [] s3 (Ok tt)) by reflexivity.
  rewrite (run_bind_ok _ _ _ _ _ _ Ec). cbv beta. cbn [value final].
  unfold sys_stdout_write.
  rewrite (run_bind_ok _ _ _ _ _ _ (get_eq s3)). cbv beta.
  cbn [app sys_stdout s3 set_sys_stderr set_sys_stdout].
  rewrite (stream_write_sink_eq log (_LogHelper log (Console Stdout))).
  pose proof (Path_open_append_eq log s3) as Eo.
  change (locate log s3) with (locate log s2) in Eo. rewrite Hl in Eo.
  change (fs s3) with (fs s2) in Eo.
  rewrite (node_at_lookup _ _ Hk), Hf in Eo.
  rewrite (run_bind_ok _ _ _ _ _ _ Eo). cbv beta.
  pose proof (file_write_eq k x s3) as Ew.
  change (fs s3) with (fs s2) in Ew. rewrite Hf in Ew.
  rewrite (run_bind_ok _ _ _ _ _ _ Ew). cbv beta.
  set (s4 := set_fs (insert k (File (old +:+ x))) s3).
  assert (Hl4 : locate log s4 = inr k).
  { apply (locate_file_written log s3 k k old); done. }
  assert (Hf4 : fs s4 !! k = Some (File (old +:+ x))).
  { simpl. apply lookup_insert_eq. }
  rewrite (stream_write_mirror_eq log Stdout x k (old +:+ x) s4 Hl4 Hf4 Hk).
  cbv zeta. cbn [value final]. split; [done|]. split; [|done].
  unfold s4. rewrite set_fs_insert_insert.
  rewrite (file_at_ext _ (set_fs (insert k (File ((old +:+ x) +:+ x))) s2))
    by done.
  unfold file_at, stat.
  rewrite (locate_file_written log s2 k k old _ Hf Hl). simpl fs.
  rewrite node_at_insert_eq by done. by rewrite string_app_assoc.
Qed.

Lemma second_facade_logs_twice_witness :
  let s0 := final (__init__ "exp1" "run1" false true fresh_process) in
  let s1 := final (connect_streams sample_facade s0) in
  let jo2 := mkJobOutput true true
               (Some (log_path_of "exp1" "run1")) (Some (job_dir_of "exp1" "run1"))
               (Some (checkpoint_path_of "exp1" "run1"))
               (_LogHelper (log_path_of "exp1" "run1")
                  (_LogHelper (log_path_of "exp1" "run1") (Console Stdout)))
               (_LogHelper (log_path_of "exp1" "run1")
                  (_LogHelper (log_path_of "exp1" "run1") (Console Stderr))) in
  let s2 := final (__init__ "exp1" "run1" true true s1) in
  let r := (connect_streams jo2 ;; sys_stdout_write "epoch 1") s2 in
  value (__init__ "exp1" "run1" true true s1) = Ok jo2 /\
  exists old,
    file_at s2 (log_path_of "exp1" "run1") = Some old /\
    value r = Ok tt /\
    file_at (final r) (log_path_of "exp1" "run1")
    = Some (old +:+ "epoch 1" +:+ "epoch 1") /\
    console_out (final r) = console_out s2 +:+ "epoch 1".
Proof.
  cbv zeta.
  assert (H1 : value (__init__ "exp1" "run1" false true fresh_process)
               = Ok sample_facade) by (vm_compute; reflexivity).
  assert (H2 : value (__init__ "exp1" "run1" true true
                        (final (connect_streams sample_facade
                           (final (__init__ "exp1" "run1" false true
                                     fresh_process)))))
               = Ok (mkJobOutput true true
                       (Some (log_path_of "exp1" "run1"))
                       (Some (job_dir_of "exp1" "run1"))
                       (Some (checkpoint_path_of "exp1" "run1"))
                       (_LogHelper (log_path_of "exp1" "run1")
                          (_LogHelper (log_path_of "exp1" "run1") (Console Stdout)))
                       (_LogHelper (log_path_of "exp1" "run1")
                          (_LogHelper (log_path_of "exp1" "run1")
                             (Console Stderr)))))
    by (vm_compute; reflexivity).
  split; [exact H2|].
  exact (second_facade_logs_twice "exp1" "run1" false fresh_process sample_facade
           _ (final (__init__ "exp1" "run1" false true fresh_process)) "epoch 1"
           eq_refl H1 eq_refl H2).
Defined.

(** ** The driver *)

Lemma bind_ok_inv {A B} (m : M A) (f : A -> M B) st b :
  value (bind m f st) = Ok b ->
  exists a, value (m st) = Ok a /\
            value (f a (final (m st))) = Ok b /\
            final (bind m f st) = final (f a (final (m st))).
Proof.
  rewrite value_bind, final_bind. destruct (value (m st)) as [a|e]; [|done].
  intros Hv. by exists a.
Qed.

Lemma value_run {A} l s (v : outcome A) : value (Run l s v) = v.
Proof. reflexivity. Qed.

Lemma final_run {A} l s (v : outcome A) : final (Run l s v) = s.
Proof. reflexivity. Qed.

Lemma run_seq_ok {B} (m : M unit) (k : M B) st l s1 :
  m st = Run l s1 (Ok tt) ->
  (m ;; k) st = Run (l ++ steps (k s1)) (final (k s1)) (value (k s1)).
Proof. intros E. unfold bind. by rewrite E. Qed.

Lemma run_seq_ok_value {B} (m : M unit) (k : M B) st :
  value (m st) = Ok tt ->
  value ((m ;; k) st) = value (k (final (m st))) /\
  final ((m ;; k) st) = final (k (final (m st))).
Proof. intros E. unfold bind. by rewrite E. Qed.

Lemma stream_write_clock s x st : clock (final (stream_write s x st)) = clock st.
Proof.
  revert st. induction s as [|fd|log under IH|under IH]; intros st; try done.
  - by destruct fd.
  - cbn [stream_write]. rewrite final_bind.
    pose proof (Path_open_append_eq log st) as Eo.
    assert (Ho : clock (final (Path_open_append log st)) = clock st).
    { rewrite Eo. destruct (locate log st); [done|].
      by destruct (node_at (fs st) _) as [[|]|]. }
    destruct (value (Path_open_append log st)) as [k|e]; [|done].
    rewrite final_bind.
    set (s1 := final (Path_open_append log st)) in *.
    assert (Hw : clock (final (file_write k x s1)) = clock s1).
    { rewrite file_write_eq. by destruct (fs s1 !! k) as [[|]|]. }
    destruct (value (file_write k x s1)); [|congruence].
    rewrite IH. congruence.
Qed.

Lemma print_clock x st : clock (final (print x st)) = clock st.
Proof.
  unfold print. rewrite final_bind. cbn [get value final].
  destruct (sys_stdout st) eqn:E; [done|..];
    rewrite final_bind;
    match goal with
    | |- context [value (stream_write ?s x st)] =>
        destruct (value (stream_write s x st));
        rewrite ?stream_write_clock; by rewrite ?stream_write_clock
    end.
Qed.

Lemma init_clock g n c m st : clock (final (__init__ g n c m st)) = clock st.
Proof.
  pose proof (fs_changed___init__ g n c m st) as Hc.
  by apply fs_changed_same_process in Hc as [_ (_ & _ & _ & _ & _ & ?)].
Qed.

Lemma connect_streams_clock jo st : clock (final (connect_streams jo st)) = clock st.
Proof. unfold connect_streams. by destruct (__stdout jo). Qed.

Section DriverRuns.
Context {float : Type} (float_str : float -> string).
Context {P : Pickle checkpoint}.
Context (argv : list string).

(** A run of the driver that returns has constructed its facade and ends
    with a save of the timestamps it started from followed by the time of
    the run. *)
Lemma test_job_ok_inv job_name dataset num_runs (weight : float) c st :
  value (test_job float_str argv job_name dataset num_runs weight c st) = Ok tt ->
  exists jo s ckpt,
    value (__init__ JOB_GROUP (job_name_used job_name dataset) c true st) = Ok jo /\
    (c = false -> ckpt = mkCheckpoint []) /\
    (c = true ->
     value (checkpoint_exists jo s) = Ok false /\ ckpt = mkCheckpoint [] \/
     value (checkpoint_exists jo s) = Ok true /\
     value (read_checkpoint jo (Some "cpu") s) = Ok (Some ckpt)) /\
    value (write_checkpoint jo (mkCheckpoint (timestamps ckpt ++ [clock st])) s)
    = Ok tt /\
    final (test_job float_str argv job_name dataset num_runs weight c st)
    = final (write_checkpoint jo
               (mkCheckpoint (timestamps ckpt ++ [clock st])) s).
Proof.
  unfold test_job. cbv zeta. fold (job_name_used job_name dataset).
  intros Hv.
  apply bind_ok_inv in Hv as (jo & Hjo & Hv & ->).
  pose proof (init_clock JOB_GROUP (job_name_used job_name dataset) c true st) as C0.
  set (s0 := final (__init__ _ _ _ _ st)) in *.
  apply bind_ok_inv in Hv as ([] & _ & Hv & ->).
  pose proof (connect_streams_clock jo s0) as C1.
  set (s1 := final (connect_streams jo s0)) in *.
  apply bind_ok_inv in Hv as ([] & _ & Hv & ->).
  pose proof (print_clock "Command line:" s1) as C2.
  set (s2 := final (print _ s1)) in *.
  apply bind_ok_inv in Hv as ([] & _ & Hv & ->).
  pose proof (print_clock (join " " argv) s2) as C3.
  set (s3 := final (print _ s2)) in *.
  apply bind_ok_inv in Hv as ([] & _ & Hv & ->).
  pose proof (print_clock "Settings:" s3) as C4.
  set (s4 := final (print _ s3)) in *.
  apply bind_ok_inv in Hv as ([] & _ & Hv & ->).
  match type of Hv with
  | context [final (print ?x s4)] =>
      pose proof (print_clock x s4) as C5; set (s5 := final (print x s4)) in *
  end.
  assert (Hclock : clock s5 = clock st) by congruence.
  apply bind_ok_inv in Hv as (there & Ht & Hv & ->).
  assert (Hs6 : final ((if c then checkpoint_exists jo else ret false) s5) = s5).
  { destruct c; [|done]. unfold checkpoint_exists.
    by destruct (checkpoint_path jo). }
  rewrite Hs6 in *.
  apply bind_ok_inv in Hv as (ckpt & Hck & Hv & ->).
  assert (Hs7 : final ((if there then
                          r <- read_checkpoint jo (Some "cpu") ;;
                          match r with
                          | Some c => ret c
                          | None => raise (AttributeError "__getitem__")
                          end
                        else ret (mkCheckpoint [])) s5) = s5).
  { destruct there; [|done]. rewrite final_bind.
    destruct (checkpoint_path jo) as [p|] eqn:Ep.
    - rewrite (read_checkpoint_eq jo p _ s5 Ep). cbn [value final].
      destruct (file_at s5 p) as [b|]; [|done]. by destruct (loads b).
    - unfold read_checkpoint. by rewrite Ep. }
  rewrite Hs7 in *.
  apply bind_ok_inv in Hv as (now & Hnow & Hv & ->).
  rewrite datetime_now_eq in Hnow, Hv |- *. cbn [value final] in *.
  injection Hnow as <-. rewrite Hclock in *.
  exists jo, s5, ckpt. split; [done|]. split; [|split; [|done]].
  - intros ->. cbn [value ret] in Ht. injection Ht as <-.
    cbn [value ret] in Hck. by injection Hck as <-.
  - intros ->. destruct there.
    + right. split; [done|].
      rewrite value_bind in Hck.
      destruct (value (read_checkpoint jo (Some "cpu") s5)) as [[r|]|e]; try done.
      cbn [value ret] in Hck. by injection Hck as <-.
    + left. split; [done|]. cbn [value ret] in Hck. by injection Hck as <-.
Qed.

End DriverRuns.

Lemma job_name_used_enabled (job_name dataset : string) :
  job_name <> "none" -> name_enabled (job_name_used job_name dataset) = true.
Proof.
  intros Hn. unfold job_name_used, name_enabled.
  destruct (String.eqb_spec job_name "") as [->|He]; [done|].
  destruct (String.eqb_spec job_name "") as [|_]; [done|].
  by destruct (String.eqb_spec job_name "none").
Qed.

(** X15. A run of the driver without [--continue_from_check], for any job
    but ['none'], forgets the timestamps of earlier runs: when it returns,
    the checkpoint of the job (of job [test_<dataset>] when no name is
    given) holds exactly one timestamp, the time of this run, whatever the
    checkpoint file held before. Such a run returns only where the log of
    the job is not there: after earlier runs, when their log has been
    removed. *)
Theorem run_without_continuation_keeps_one_timestamp
    {float : Type} (float_str : float -> string) {P : Pickle checkpoint}
    (argv : list string) (job_name dataset : string) (num_runs : Z)
    (weight : float) (st : process) :
  job_name <> "none" ->
  let r := test_job float_str argv job_name dataset num_runs weight false st in
  value r = Ok tt ->
  file_at (final r)
    (checkpoint_path_of JOB_GROUP (job_name_used job_name dataset))
  = Some (dumps (mkCheckpoint [clock st])).
Proof.
  intros Hn. cbv zeta. intros Hv.
  apply (job_name_used_enabled _ dataset) in Hn.
  apply test_job_ok_inv in Hv as (jo & s & ckpt & Hjo & Hc & _ & Hw & ->).
  rewrite (Hc eq_refl) in *. cbn [timestamps app] in *.
  apply init_enabled_value in Hjo; [|done]. subst jo.
  by apply write_checkpoint_spec.
Qed.

Lemma run_without_continuation_keeps_one_timestamp_witness :
  let P := stamps_pickle in
  let r := test_job (fun w : string => w) sample_argv "" "cifar" 10 "0.5" false
             log_lost_process in
  "" <> "none" /\
  file_at log_lost_process (checkpoint_path_of "test_job" "test_cifar")
  = Some "2024-03-07 09:05:002024-03-07 09:05:00" /\
  exists_in log_lost_process (log_path_of "test_job" "test_cifar") = false /\
  value r = Ok tt /\
  file_at (final r) (checkpoint_path_of "test_job" "test_cifar")
  = Some "2024-03-07 09:05:00".
Proof.
  cbv zeta.
  assert (H1 : "" <> "none") by discriminate.
  assert (H2 : value (test_job (H := stamps_pickle) (fun w : string => w)
                        sample_argv "" "cifar" 10 "0.5" false log_lost_process)
               = Ok tt) by (vm_compute; reflexivity).
  split; [exact H1|].
  split; [vm_compute; reflexivity|]. split; [vm_compute; reflexivity|].
  split; [exact H2|].
  exact (run_without_continuation_keeps_one_timestamp (P := stamps_pickle)
           (fun w : string => w) sample_argv "" "cifar" 10 "0.5" log_lost_process
           H1 H2).
Defined.

(** What [print] does on the console. *)
Lemma print_console_eq x st :
  sys_stdout st = Console Stdout ->
  print x st =
  Run [(StConsole Stdout, console_append Stdout x st);
       (StConsole Stdout, console_append Stdout nl (console_append Stdout x st))]
      (console_append Stdout nl (console_append Stdout x st)) (Ok tt).
Proof. intros Ho. unfold print, bind, get. cbn [value final]. by rewrite Ho. Qed.

Lemma settings_line_eq {float : Type} (float_str : float -> string)
    (job_name dataset : string) (num_runs : Z) (weight : float) (c : bool) :
  settings_line float_str
    [("job_name", VStr job_name); ("dataset", VStr dataset);
     ("num_runs", VInt num_runs); ("weight", VFloat weight);
     ("continue_from_check", VBool c)]
  = "continue_from_check=" +:+ (if c then "True" else "False")
    +:+ ", dataset=" +:+ dataset +:+ ", job_name=" +:+ job_name
    +:+ ", num_runs=" +:+ pretty num_runs +:+ ", weight=" +:+ float_str weight.
Proof.
  assert (Hs : sorted ["job_name"; "dataset"; "num_runs"; "weight";
                       "continue_from_check"]
               = ["continue_from_check"; "dataset"; "job_name"; "num_runs";
                  "weight"]) by (vm_compute; reflexivity).
  unfold settings_line. cbn [List.map fst]. rewrite Hs. cbn [List.map].
  unfold getitem. cbn -[pretty String.append].
  rewrite !string_app_assoc. reflexivity.
Qed.

Lemma console_append_fields fd x st :
  fs (console_append fd x st) = fs st /\
  cwd (console_append fd x st) = cwd st /\
  sys_stdout (console_append fd x st) = sys_stdout st /\
  sys_stderr (console_append fd x st) = sys_stderr st /\
  clock (console_append fd x st) = clock st.
Proof. by destruct fd. Qed.

Lemma console_out_append_out x st :
  console_out (console_append Stdout x st) = console_out st +:+ x.
Proof. reflexivity. Qed.

Lemma fs_console_append fd x st : fs (console_append fd x st) = fs st.
Proof. by destruct fd. Qed.

Lemma sys_stdout_console_append fd x st :
  sys_stdout (console_append fd x st) = sys_stdout st.
Proof. by destruct fd. Qed.

Lemma console_err_append_out x st :
  console_err (console_append Stdout x st) = console_err st.
Proof. reflexivity. Qed.

(** X16. With the job name ['none'] a run of the driver keeps no record:
    it ends as [mkdir(parents=True, exist_ok=True)] on
    [logs_and_output/test_job] ends, the file system is the one that call
    leaves, so there is no log and no checkpoint of the run, and the four
    lines it prints go to the console only. *)
Theorem run_of_job_none_keeps_no_record
    {float : Type} (float_str : float -> string) {P : Pickle checkpoint}
    (argv : list string) (dataset : string) (num_runs : Z)
    (weight : float) (continue_from_check : bool) (st : process) :
  sys_stdout st = Console Stdout ->
  let r := test_job float_str argv "none" dataset num_runs weight
             continue_from_check st in
  let d := Path_mkdir (output_dir_of JOB_GROUP) true true st in
  value r = value d /\
  fs (final r) = fs (final d) /\
  console_err (final r) = console_err st /\
  console_out (final r) =
    match value d with
    | Ok _ => console_out st +:+
              driver_lines float_str argv "none" dataset num_runs weight
                continue_from_check
    | Raise _ => console_out st
    end.
Proof.
  intros Hout. cbv zeta. unfold test_job. cbv zeta.
  change (if String.eqb "none" "" then "test_" +:+ dataset else "none")
    with "none".
  rewrite settings_line_eq.
  pose proof (fs_changed_Path_mkdir (output_dir_of JOB_GROUP) st) as Hsame.
  apply fs_changed_same_process in Hsame as [_ (_ & Hco & Hce & Hso & _)].
  set (s0 := final (Path_mkdir (output_dir_of JOB_GROUP) true true st)) in *.
  set (jo := mkJobOutput true false None None None NoStream NoStream).
  assert (Ei : __init__ JOB_GROUP "none" continue_from_check true st =
               Run (steps (Path_mkdir (output_dir_of JOB_GROUP) true true st)) s0
                 match value (Path_mkdir (output_dir_of JOB_GROUP) true true st)
                 with
                 | Ok _ => Ok jo
                 | Raise e => Raise e
                 end).
  { unfold __init__. change (name_enabled "none") with false. cbv iota.
    unfold bind, ret. fold s0.
    destruct (value (Path_mkdir _ true true st)); cbn [steps final value];
      by rewrite ?app_nil_r. }
  destruct (value (Path_mkdir (output_dir_of JOB_GROUP) true true st))
    as [[]|e] eqn:Hm.
  2:{ rewrite (run_bind_raise _ _ _ _ _ _ Ei), value_run, final_run.
      repeat split; done. }
  rewrite (run_bind_ok _ _ _ _ _ _ Ei), value_run, final_run. cbv beta.
  assert (Ec : connect_streams jo s0 = Run [] s0 (Ok tt)) by reflexivity.
  rewrite (run_seq_ok _ _ _ _ _ Ec), value_run, final_run.
  rewrite <- Hso in Hout.
  rewrite (run_seq_ok _ _ _ _ _ (print_console_eq _ s0 Hout)), value_run, final_run.
  set (s1 := console_append Stdout nl (console_append Stdout "Command line:" s0)).
  assert (Ho1 : sys_stdout s1 = Console Stdout)
    by (unfold s1; by rewrite !sys_stdout_console_append).
  rewrite (run_seq_ok _ _ _ _ _ (print_console_eq _ s1 Ho1)), value_run, final_run.
  set (s2 := console_append Stdout nl (console_append Stdout (join " " argv) s1)).
  assert (Ho2 : sys_stdout s2 = Console Stdout)
    by (unfold s2; by rewrite !sys_stdout_console_append).
  rewrite (run_seq_ok _ _ _ _ _ (print_console_eq _ s2 Ho2)), value_run, final_run.
  set (s3 := console_append Stdout nl (console_append Stdout "Settings:" s2)).
  assert (Ho3 : sys_stdout s3 = Console Stdout)
    by (unfold s3; by rewrite !sys_stdout_console_append).
  rewrite (run_seq_ok _ _ _ _ _ (print_console_eq _ s3 Ho3)), value_run, final_run.
  match goal with
  | |- context [console_append Stdout nl (console_append Stdout ?x s3)] =>
      set (s4 := console_append Stdout nl (console_append Stdout x s3))
  end.
  assert (Et : (if continue_from_check then checkpoint_exists jo else ret false) s4
               = Run [] s4 (Ok false)).
  { by destruct continue_from_check. }
  rewrite (run_bind_ok _ _ _ _ _ _ Et), value_run, final_run. cbv beta iota.
  rewrite bind_ret_l.
  rewrite (run_bind_ok _ _ _ _ _ _ (datetime_now_eq s4)), value_run, final_run.
  cbv beta.
  assert (Ew : forall data, write_checkpoint jo data s4 = Run [] s4 (Ok tt))
    by reflexivity.
  rewrite Ew, value_run, final_run.
  split; [reflexivity|]. split; [|split].
  - unfold s4, s3, s2, s1. by rewrite !fs_console_append.
  - unfold s4, s3, s2, s1. by rewrite !console_err_append_out.
  - unfold s4, s3, s2, s1. rewrite !console_out_append_out, Hco.
    unfold driver_lines. by rewrite !string_app_assoc.
Qed.

Lemma run_of_job_none_keeps_no_record_witness :
  let P := stamps_pickle in
  let r := test_job (fun w : string => w) sample_argv "none" "cifar" 10 "0.5" true
             fresh_process in
  sys_stdout fresh_process = Console Stdout /\
  value r = Ok tt /\
  fs (final r) = fs (final (Path_mkdir (output_dir_of "test_job") true true
                              fresh_process)) /\
  console_out (final r) =
    "Command line:" +:+ nl +:+ "main.py --weight 0.5" +:+ nl +:+
    "Settings:" +:+ nl +:+
    "continue_from_check=True, dataset=cifar, job_name=none, num_runs=10, weight=0.5"
    +:+ nl.
Proof.
  cbv zeta. split; [reflexivity|].
  pose proof (run_of_job_none_keeps_no_record (P := stamps_pickle)
                (fun w : string => w) sample_argv "cifar" 10 "0.5" true
                fresh_process eq_refl) as (Ha & Hb & _ & Hc).
  split; [exact Ha|]. split; [exact Hb|]. exact Hc.
Defined.

(** *** A continued run *)

(** The construction of a continued job whose log file is there: one
    write, of the banner, at the end of the log. *)
Lemma init_continue_eq g n st k old :
  name_enabled n = true ->
  locate (log_path_of g n) st = inr k -> k <> [] ->
  fs st !! k = Some (File old) ->
  let st' := set_fs (insert k (File (old +:+ continuing_banner g n
                                               (strftime (clock st))))) st in
  __init__ g n true true st =
  Run [(StWrite k, st')] st'
      (Ok (mkJobOutput true true (Some (log_path_of g n)) (Some (job_dir_of g n))
             (Some (checkpoint_path_of g n))
             (_LogHelper (log_path_of g n) (sys_stdout st))
             (_LogHelper (log_path_of g n) (sys_stderr st)))).
Proof.
  intros Hen Hl Hk Hf. cbv zeta.
  assert (Hex : exists_in st (log_path_of g n) = true).
  { unfold exists_in, stat. by rewrite Hl, node_at_lookup, Hf. }
  apply log_exists_group_dir in Hex as Hd.
  unfold __init__. rewrite Hen. fold (log_path_of g n).
  rewrite (run_bind_ok _ _ _ _ _ _ (Path_mkdir_existing _ _ Hd)). cbv beta.
  rewrite !bind_assoc.
  rewrite (run_bind_ok _ _ _ _ _ _ (Path_exists_eq _ _)). cbv beta.
  rewrite Hex, !bind_assoc.
  rewrite (run_bind_ok _ _ _ _ _ _ (datetime_now_eq _)). cbv beta.
  rewrite bind_ret_l, ?bind_assoc.
  pose proof (Path_open_append_eq (log_path_of g n) st) as Eo.
  rewrite Hl, node_at_lookup, Hf in Eo by done.
  rewrite (run_bind_ok _ _ _ _ _ _ Eo). cbv beta.
  unfold file_writelines. rewrite !bind_assoc.
  pose proof (file_write_eq k (continuing_banner g n (strftime (clock st))) st)
    as Ew.
  rewrite Hf in Ew.
  rewrite (run_bind_ok _ _ _ _ _ _ Ew). cbv beta.
  rewrite bind_ret_l, ?bind_assoc.
  rewrite (run_bind_ok _ _ _ _ _ _ (get_eq _)). cbv beta.
  reflexivity.
Qed.

(** [print] through the sink: the line goes to the log and to the
    console. *)
Lemma print_mirror log k text x st :
  k <> [] -> mirrored log k text st ->
  let r := print x st in
  value r = Ok tt /\
  mirrored log k (text +:+ x +:+ nl) (final r) /\
  fs (final r) = <[k := File (text +:+ x +:+ nl)]> (fs st) /\
  cwd (final r) = cwd st /\
  console_out (final r) = console_out st +:+ x +:+ nl /\
  console_err (final r) = console_err st /\
  clock (final r) = clock st.
Proof.
  intros Hk (Ho & Hl & Hf). cbv zeta. unfold print.
  rewrite (run_bind_ok _ _ _ _ _ _ (get_eq st)). cbv beta. rewrite Ho.
  cbv iota.
  pose proof (stream_write_mirror_eq log Stdout x k text st Hl Hf Hk) as E1.
  cbv zeta in E1. rewrite (run_bind_ok _ _ _ _ _ _ E1). cbv beta.
  set (s1 := console_append Stdout x (set_fs (insert k (File (text +:+ x))) st)).
  assert (Hl1 : locate log s1 = inr k).
  { unfold s1. rewrite locate_console_append.
    apply (locate_file_written log st k k text); done. }
  assert (Hf1 : fs s1 !! k = Some (File (text +:+ x))).
  { simpl. apply lookup_insert_eq. }
  pose proof (stream_write_mirror_eq log Stdout nl k (text +:+ x) s1 Hl1 Hf1 Hk)
    as E2.
  cbv zeta in E2. rewrite E2. cbn [value final app steps].
  set (s2 := console_append Stdout nl
               (set_fs (insert k (File ((text +:+ x) +:+ nl))) s1)).
  assert (Hfs : fs s2 = <[k := File (text +:+ x +:+ nl)]> (fs st)).
  { simpl. by rewrite insert_insert_eq, string_app_assoc. }
  split; [done|]. split; [|split; [exact Hfs|]].
  - split; [exact Ho|]. split.
    + unfold s2. rewrite locate_console_append.
      apply (locate_file_written log s1 k k (text +:+ x)); done.
    + rewrite Hfs. apply lookup_insert_eq.
  - simpl. by rewrite !string_app_assoc.
Qed.

(** A save in a job directory that is there and where no directory is in
    the way. *)
Lemma write_checkpoint_in_job_dir {R} {P : Pickle R} d D lp out err (data : R) st :
  at_job_dir d D st ->
  node_at (fs st) ("ckpt.pth.new" :: D) <> Some Dir ->
  node_at (fs st) ("ckpt.pth" :: D) <> Some Dir ->
  let w := write_checkpoint
             (mkJobOutput true true lp (Some d) (Some (d </> "ckpt.pth")) out err)
             data st in
  value w = Ok tt /\
  final w = set_fs (fun m => <["ckpt.pth" :: D := File (dumps data)]>
                               (delete ("ckpt.pth.new" :: D) m)) st.
Proof.
  intros HD Hn Hc. cbv zeta.
  pose proof (write_checkpoint_outcome d lp out err data st) as Ho.
  cbv zeta in Ho.
  rewrite (Path_mkdir_existing _ _ (at_job_dir_is_dir _ _ _ HD)) in Ho.
  cbn [value final] in Ho. destruct Ho as (D' & HD' & Ho).
  rewrite <- (at_job_dir_unique _ _ _ _ HD HD') in Ho. clear D' HD'.
  cbn [node_at] in *.
  destruct (fs st !! ("ckpt.pth.new" :: D)) as [[|]|];
    destruct (fs st !! ("ckpt.pth" :: D)) as [[|]|]; done.
Qed.

Lemma is_dir_in_file_written p st k old new :
  fs st !! k = Some (File old) ->
  forall st', fs st' = <[k := File new]> (fs st) -> cwd st' = cwd st ->
  is_dir_in st' p = is_dir_in st p.
Proof.
  intros Hf st' Hfs Hc. apply is_dir_in_same_dirs; [done|].
  intros j. rewrite Hfs. unfold dir_at.
  destruct (decide (j = k)) as [->|Hne].
  - destruct k as [|c k]; [done|]. simpl. by rewrite lookup_insert_eq, Hf.
  - by rewrite node_at_insert_ne.
Qed.

(** X17. A continued run of the driver adds to the record of the job. From
    a state with the console as standard output, in which the log file of
    the job and a checkpoint saved by an earlier run are there and the
    temporary path is no directory, a run with [--continue_from_check]
    returns; the checkpoint then holds the timestamps it held followed by
    the time of this run; the log file holds what it held followed by the
    banner of the continuation and the four lines printed, which the
    console shows too. The settings line names the job as it was passed,
    so an empty name stays empty there. *)
Theorem continued_run_adds_to_the_record
    {float : Type} (float_str : float -> string) {P : Pickle checkpoint}
    (argv : list string) (job_name dataset : string) (num_runs : Z)
    (weight : float) (st : process) (old : string) (prev : checkpoint) :
  job_name <> "none" ->
  sys_stdout st = Console Stdout ->
  let name := job_name_used job_name dataset in
  file_at st (log_path_of JOB_GROUP name) = Some old ->
  file_at st (checkpoint_path_of JOB_GROUP name) = Some (dumps prev) ->
  supported prev ->
  is_dir_in st (new_path_of JOB_GROUP name) = false ->
  let r := test_job float_str argv job_name dataset num_runs weight true st in
  let lines := driver_lines float_str argv job_name dataset num_runs weight true in
  value r = Ok tt /\
  file_at (final r) (checkpoint_path_of JOB_GROUP name)
  = Some (dumps (mkCheckpoint (timestamps prev ++ [clock st]))) /\
  file_at (final r) (log_path_of JOB_GROUP name)
  = Some (old +:+ continuing_banner JOB_GROUP name (strftime (clock st))
          +:+ lines) /\
  console_out (final r) = console_out st +:+ lines.
Proof.
  intros Hnone Hout. cbv zeta. intros Hold Hprev Hsup Hnew.
  apply (job_name_used_enabled _ dataset) in Hnone as Hen.
  unfold test_job. cbv zeta. fold (job_name_used job_name dataset).
  rewrite settings_line_eq.
  set (name := job_name_used job_name dataset) in *.
  set (log := log_path_of JOB_GROUP name) in *.
  set (ckpt := checkpoint_path_of JOB_GROUP name) in *.
  set (d := job_dir_of JOB_GROUP name).
  set (banner := continuing_banner JOB_GROUP name (strftime (clock st))).
  apply file_at_located in Hold as (k & Hl & Hk & Hf).
  (* construction *)
  pose proof (init_continue_eq JOB_GROUP name st k old Hen Hl Hk Hf) as E0.
  cbv zeta in E0. fold log banner ckpt d in E0. rewrite Hout in E0.
  rewrite (run_bind_ok _ _ _ _ _ _ E0), value_run, final_run. cbv beta.
  set (s0 := set_fs (insert k (File (old +:+ banner))) st).
  set (jo := mkJobOutput true true (Some log) (Some d) (Some ckpt)
               (_LogHelper log (Console Stdout))
               (_LogHelper log (sys_stderr st))).
  (* connection *)
  set (s1 := set_sys_stderr (_LogHelper log (sys_stderr st))
               (set_sys_stdout (_LogHelper log (Console Stdout)) s0)).
  assert (Ec : connect_streams jo s0 = Run [] s1 (Ok tt)) by reflexivity.
  rewrite (run_seq_ok _ _ _ _ _ Ec), value_run, final_run.
  assert (M1 : mirrored log k (old +:+ banner) s1).
  { split; [done|]. split.
    - change (locate log s1) with (locate log s0).
      apply (locate_file_written log st k k old); done.
    - simpl. apply lookup_insert_eq. }
  assert (F1 : fs s1 = <[k := File (old +:+ banner)]> (fs st)) by done.
  (* the four lines *)
  destruct (print_mirror log k _ "Command line:" s1 Hk M1)
    as (V2 & M2 & F2 & C2 & O2 & R2 & K2).
  rewrite (run_seq_ok _ _ _ _ _ (ok_run_eq _ _ V2)), value_run, final_run.
  set (s2 := final (print "Command line:" s1)) in *.
  destruct (print_mirror log k _ (join " " argv) s2 Hk M2)
    as (V3 & M3 & F3 & C3 & O3 & R3 & K3).
  rewrite (run_seq_ok _ _ _ _ _ (ok_run_eq _ _ V3)), value_run, final_run.
  set (s3 := final (print (join " " argv) s2)) in *.
  destruct (print_mirror log k _ "Settings:" s3 Hk M3)
    as (V4 & M4 & F4 & C4 & O4 & R4 & K4).
  rewrite (run_seq_ok _ _ _ _ _ (ok_run_eq _ _ V4)), value_run, final_run.
  set (s4 := final (print "Settings:" s3)) in *.
  match goal with
  | |- context [bind (print ?x) _ s4] => set (line := x) in *
  end.
  destruct (print_mirror log k _ line s4 Hk M4)
    as (V5 & M5 & F5 & C5 & O5 & R5 & K5).
  rewrite (run_seq_ok _ _ _ _ _ (ok_run_eq _ _ V5)), value_run, final_run.
  set (s5 := final (print line s4)) in *.
  set (text := ((((old +:+ banner) +:+ "Command line:" +:+ nl)
                 +:+ join " " argv +:+ nl) +:+ "Settings:" +:+ nl)
               +:+ line +:+ nl) in *.
  assert (Htext : text = old +:+ banner +:+
                         driver_lines float_str argv job_name dataset num_runs
                           weight true).
  { unfold text, driver_lines, line. by rewrite !string_app_assoc. }
  assert (Hfs : fs s5 = <[k := File text]> (fs st)).
  { rewrite F5, F4, F3, F2, F1. by rewrite !insert_insert_eq. }
  assert (Hcwd : cwd s5 = cwd st) by (rewrite C5, C4, C3, C2; done).
  assert (Hclock : clock s5 = clock st) by (rewrite K5, K4, K3, K2; done).
  assert (Hcon : console_out s5 = console_out st +:+
                   driver_lines float_str argv job_name dataset num_runs
                     weight true).
  { rewrite O5, O4, O3, O2. unfold driver_lines, line.
    change (console_out s1) with (console_out st).
    by rewrite !string_app_assoc. }
  destruct M5 as (_ & Hl5 & Hf5).
  clear V2 V3 V4 V5 M1 M2 M3 M4 F1 F2 F3 F4 F5 C2 C3 C4 C5 O2 O3 O4 O5
        R2 R3 R4 R5 K2 K3 K4 K5.
  clearbody s5. clear s1 s2 s3 s4 Ec.
  (* the checkpoint is found and read *)
  assert (Hck : file_at s5 ckpt = Some (dumps prev)).
  { rewrite (file_at_ext _ (set_fs (insert k (File text)) st)) by done.
    unfold ckpt, checkpoint_path_of.
    rewrite (checkpoint_kept_by_log JOB_GROUP name st k old text Hl Hf).
    exact Hprev. }
  assert (Ee : checkpoint_exists jo s5 = Run [] s5 (Ok true)).
  { unfold checkpoint_exists, jo. cbn [checkpoint_path].
    unfold Path_is_file.
    rewrite (run_bind_ok _ _ _ _ _ _ (get_eq s5)). cbv beta.
    cbn [ret app steps final value].
    unfold is_file_in. unfold file_at in Hck.
    by destruct (stat ckpt s5) as [|[|]]. }
  rewrite (run_bind_ok _ _ _ _ _ _ Ee), value_run, final_run. cbv beta iota.
  assert (Er : read_checkpoint (R := checkpoint) jo (Some "cpu") s5
               = Run [] s5 (Ok (Some prev))).
  { rewrite (read_checkpoint_eq jo ckpt) by done. rewrite Hck.
    unfold supported in Hsup. by rewrite Hsup. }
  rewrite bind_assoc.
  rewrite (run_bind_ok _ _ _ _ _ _ Er), value_run, final_run. cbv beta iota.
  rewrite bind_ret_l.
  rewrite (run_bind_ok _ _ _ _ _ _ (datetime_now_eq s5)), value_run, final_run.
  cbv beta. rewrite Hclock.
  (* the save *)
  assert (Hlc : exists kc, locate ckpt s5 = inr kc).
  { unfold file_at, stat in Hck. destruct (locate ckpt s5) as [|kc]; [done|].
    by exists kc. }
  destruct Hlc as [kc Hlc].
  apply checkpoint_location in Hlc as Hkc. destruct Hkc as (D & -> & HD).
  assert (Hc5 : fs s5 !! ("ckpt.pth" :: D) = Some (File (dumps prev))).
  { unfold file_at, stat in Hck. rewrite Hlc in Hck. simpl in Hck.
    by destruct (fs s5 !! ("ckpt.pth" :: D)) as [[|]|]; simplify_eq. }
  assert (Hn5 : node_at (fs s5) ("ckpt.pth.new" :: D) <> Some Dir).
  { rewrite <- (is_dir_in_file_written _ st k old text Hf s5 Hfs Hcwd) in Hnew.
    unfold is_dir_in in Hnew.
    rewrite new_path_of_parts, (stat_child _ _ D) in Hnew by done.
    simpl. by destruct (fs s5 !! ("ckpt.pth.new" :: D)) as [[|]|]. }
  destruct (write_checkpoint_in_job_dir d D (Some log)
              (_LogHelper log (Console Stdout)) (_LogHelper log (sys_stderr st))
              (mkCheckpoint (timestamps prev ++ [clock st])) s5 HD Hn5)
    as [Vw Fw].
  { simpl. by rewrite Hc5. }
  change (mkJobOutput true true (Some log) (Some d) (Some (d </> "ckpt.pth"))
            (_LogHelper log (Console Stdout)) (_LogHelper log (sys_stderr st)))
    with jo in Vw, Fw.
  rewrite Vw, Fw. split; [done|].
  set (s6 := set_fs _ s5).
  assert (HD6 : at_job_dir d D s6).
  { apply at_job_dir_saved; [|done|done]. simpl. by rewrite Hc5. }
  split; [|split].
  - unfold file_at, ckpt, checkpoint_path_of.
    rewrite checkpoint_path_parts, (stat_child _ _ D) by done.
    simpl. by rewrite lookup_insert_eq.
  - rewrite <- Htext.
    assert (Hlog5 : file_at s5 log = Some text).
    { unfold file_at, stat. by rewrite Hl5, node_at_lookup, Hf5. }
    revert Hlog5. apply file_at_kept; [done| |].
    + simpl. eapply dirs_kept_trans.
      * apply (dirs_kept_delete _ ("ckpt.pth.new" :: D)). unfold dir_at.
        by destruct (node_at (fs s5) ("ckpt.pth.new" :: D)) as [[|]|].
      * apply dirs_kept_insert. unfold dir_at. simpl.
        rewrite lookup_delete_ne by done. by rewrite Hc5.
    + intros j _ Hj Hfj.
      destruct (log_location JOB_GROUP name s5 j Hj) as (t & K & -> & _).
      destruct (log_name_not_checkpoint t K D) as [H1 H2].
      simpl. rewrite lookup_insert_ne by done. by rewrite lookup_delete_ne.
  - exact Hcon.
Qed.

Lemma continued_run_adds_to_the_record_witness :
  let P := stamps_pickle in
  let r := test_job (fun w : string => w) sample_argv "" "cifar" 10 "0.5" true
             second_process in
  let old := starting_banner "test_job" "test_cifar" "2024-03-07 09:05:00"
             +:+ driver_lines (fun w : string => w) sample_argv "" "cifar" 10
                   "0.5" false in
  "" <> "none" /\
  sys_stdout second_process = Console Stdout /\
  file_at second_process (log_path_of "test_job" "test_cifar") = Some old /\
  file_at second_process (checkpoint_path_of "test_job" "test_cifar")
  = Some (dumps (mkCheckpoint [sample_clock])) /\
  supported (mkCheckpoint [sample_clock]) /\
  is_dir_in second_process (new_path_of "test_job" "test_cifar") = false /\
  value r = Ok tt /\
  file_at (final r) (checkpoint_path_of "test_job" "test_cifar")
  = Some (dumps (mkCheckpoint [sample_clock; sample_clock])) /\
  file_at (final r) (log_path_of "test_job" "test_cifar")
  = Some (old
          +:+ continuing_banner "test_job" "test_cifar" "2024-03-07 09:05:00"
          +:+ driver_lines (fun w : string => w) sample_argv "" "cifar" 10
                "0.5" true).
Proof.
  cbv zeta.
  assert (H1 : "" <> "none") by discriminate.
  assert (H2 : sys_stdout second_process = Console Stdout) by reflexivity.
  assert (H3 : file_at second_process (log_path_of "test_job" "test_cifar")
               = Some (starting_banner "test_job" "test_cifar"
                         "2024-03-07 09:05:00"
                       +:+ driver_lines (fun w : string => w) sample_argv ""
                             "cifar" 10 "0.5" false))
    by (vm_compute; reflexivity).
  assert (H4 : file_at second_process (checkpoint_path_of "test_job" "test_cifar")
               = Some (dumps (Pickle := stamps_pickle) (mkCheckpoint [sample_clock])))
    by (vm_compute; reflexivity).
  assert (H5 : supported (H := stamps_pickle) (mkCheckpoint [sample_clock]))
    by (vm_compute; reflexivity).
  assert (H6 : is_dir_in second_process (new_path_of "test_job" "test_cifar")
               = false) by (vm_compute; reflexivity).
  split; [exact H1|]. split; [exact H2|]. split; [exact H3|].
  split; [exact H4|]. split; [exact H5|]. split; [exact H6|].
  pose proof (continued_run_adds_to_the_record (P := stamps_pickle)
                (fun w : string => w) sample_argv "" "cifar" 10 "0.5"
                second_process _ (mkCheckpoint [sample_clock])
                H1 H2 H3 H4 H5 H6) as (Ha & Hb & Hc & _).
  exact (conj Ha (conj Hb Hc)).
Defined.

(** X18. A second run of the driver for a job whose log is there, without
    [--continue_from_check], is refused with [LogAlreadyExistsError] before
    anything is printed or written: the run has no effect at all. *)
Theorem rerun_without_continuation_is_refused
    {float : Type} (float_str : float -> string) {P : Pickle checkpoint}
    (argv : list string) (job_name dataset : string) (num_runs : Z)
    (weight : float) (st : process) :
  job_name <> "none" ->
  let name := job_name_used job_name dataset in
  exists_in st (log_path_of JOB_GROUP name) = true ->
  test_job float_str argv job_name dataset num_runs weight false st =
  Run [] st (Raise (LogAlreadyExistsError
               ("Log file " +:+ pathlib.str (log_path_of JOB_GROUP name)
                +:+ " already exists."))).
Proof.
  intros Hnone. cbv zeta. intros Hex.
  apply (job_name_used_enabled _ dataset) in Hnone as Hen.
  unfold test_job. cbv zeta. fold (job_name_used job_name dataset).
  by rewrite (run_bind_raise _ _ _ _ _ _
                (init_refused_eq JOB_GROUP _ st Hen Hex)).
Qed.

Lemma rerun_without_continuation_is_refused_witness :
  let P := stamps_pickle in
  "" <> "none" /\
  exists_in second_process (log_path_of "test_job" "test_cifar") = true /\
  test_job (fun w : string => w) sample_argv "" "cifar" 10 "0.5" false
    second_process =
  Run [] second_process
    (Raise (LogAlreadyExistsError
              "Log file logs_and_output/test_job/log_test_cifar.txt already exists.")).
Proof.
  cbv zeta.
  assert (H1 : "" <> "none") by discriminate.
  assert (H2 : exists_in second_process (log_path_of "test_job" "test_cifar")
               = true) by (vm_compute; reflexivity).
  split; [exact H1|]. split; [exact H2|].
  exact (rerun_without_continuation_is_refused (P := stamps_pickle)
           (fun w : string => w) sample_argv "" "cifar" 10 "0.5"
           second_process H1 H2).
Defined.

(** * When directories are made *)

(** ** A walk without [".."] *)

(** It ends below where it starts, or misses a directory, or meets a regular
    file at a place below where it starts. *)
Lemma walk_plain_cases m cur cs :
  ".." ∉ cs ->
  walk m cur cs = inr (rev cs ++ cur) \/
  walk m cur cs = inl ENOENT \/
  exists sfx d, sfx `suffix_of` rev cs /\ node_at m (sfx ++ cur) = Some (File d).
Proof.
  revert cur. induction cs as [|c cs IH]; intros cur Hp; simpl; [by left|].
  destruct (node_at m cur) as [[d|]|] eqn:E.
  - right. right. exists [], d. split; [apply suffix_nil|done].
  - assert (Hc : enter cur c = c :: cur).
    { unfold enter. destruct (String.eqb_spec c ".."); [set_solver|done]. }
    rewrite Hc.
    destruct (IH (c :: cur)) as [H|[H|(sfx & d & Hs & Hn)]]; [set_solver|..].
    + left. rewrite H. by rewrite <- app_assoc.
    + right. by left.
    + right. right. exists (sfx ++ [c]), d. split.
      * destruct Hs as [pre ->]. exists pre. by rewrite app_assoc.
      * by rewrite <- app_assoc.
  - right. by left.
Qed.

(** Making directories makes no regular file. *)
Lemma made_dir_keeps_files a rparts st l st' k d :
  made_dir a rparts st l st' ->
  node_at (fs st') k = Some (File d) -> node_at (fs st) k = Some (File d).
Proof.
  intros (k0 & sfx & -> & _ & _ & Hn & ->). simpl.
  destruct (decide (k = k0)) as [->|Hne].
  - apply node_at_none in Hn as [Hk _]. by rewrite node_at_insert_eq.
  - by rewrite node_at_insert_ne.
Qed.

Lemma mkdir_parents_files eo a rparts st k d :
  node_at (fs (final (mkdir_parents eo a rparts st))) k = Some (File d) ->
  node_at (fs st) k = Some (File d).
Proof.
  pose proof (runs_mkdir_parents eo a rparts st) as Hc.
  apply (chain_invariant _
           (fun s => node_at (fs s) k = Some (File d) ->
                     node_at (fs st) k = Some (File d))) in Hc as [_ H];
    [exact H| |done].
  intros x l y Hm Hx Hy. apply Hx. by eapply made_dir_keeps_files.
Qed.

Lemma mkdir_parents_cwd eo a rparts st :
  cwd (final (mkdir_parents eo a rparts st)) = cwd st.
Proof.
  pose proof (runs_mkdir_parents eo a rparts st) as Hc.
  eapply chain_weaken in Hc; [|intros x l y; apply made_dir_fs_changed].
  by apply fs_changed_same_process in Hc as [_ (? & _)].
Qed.

(** [mkdir(parents=True, exist_ok=True)] for a path without [".."] returns
    when no place on its way holds a regular file. *)
Lemma mkdir_parents_returns (a : bool) (rparts : list string) : forall st,
  ".." ∉ rparts ->
  (forall sfx d, sfx `suffix_of` rparts ->
     node_at (fs st) (sfx ++ (if a then [] else cwd st)) <> Some (File d)) ->
  value (mkdir_parents true a rparts st) = Ok tt.
Proof.
  induction rparts as [|c rest IH]; intros st Hp HNF;
    rewrite mkdir_parents_eq, value_catch, os_mkdir_eq;
    unfold locate, start_of; cbn [pathlib.anchored pathlib.parts].
  - simpl. destruct (node_at (fs st) (if a then [] else cwd st)) as [[d|]|] eqn:En.
    + by destruct (HNF [] d (suffix_nil _)).
    + simpl. unfold bind, Path_is_dir, get, ret. simpl.
      unfold is_dir_in, stat, locate, start_of. simpl. by rewrite En.
    + done.
  - set (p := pathlib.mkPath a (rev (c :: rest))).
    set (S0 := if a then [] else cwd st) in *.
    destruct (walk_plain_cases (fs st) S0 (rev (c :: rest)))
      as [Hw|[Hw|(sfx & d & Hs & Hn)]].
    { intros Hin. apply Hp. by rewrite elem_of_rev in Hin. }
    + (* the path resolves *)
      rewrite Hw, rev_involutive.
      destruct (node_at (fs st) ((c :: rest) ++ S0)) as [[d|]|] eqn:En.
      * by destruct (HNF (c :: rest) d).
      * cbn [value final]. unfold bind, Path_is_dir, get, ret. simpl.
        unfold is_dir_in, stat, locate, start_of.
        cbn [pathlib.anchored pathlib.parts p]. fold S0.
        rewrite Hw, rev_involutive. by rewrite En.
      * done.
    + (* a directory on the way is missing: the parents are made first *)
      rewrite Hw. cbn [value final]. rewrite value_bind.
      assert (HNF' : forall sfx d, sfx `suffix_of` rest ->
                node_at (fs st) (sfx ++ S0) <> Some (File d)).
      { intros sfx d Hs. apply HNF. by apply suffix_cons_r. }
      assert (Hp' : ".." ∉ rest) by set_solver.
      pose proof (IH st Hp' HNF') as Hv. rewrite Hv.
      set (s1 := final (mkdir_parents true a rest st)).
      pose proof (mkdir_parents_ok true a rest st Hv) as Hd. fold s1 in Hd.
      apply is_dir_in_at_job_dir in Hd as [D HD].
      assert (HD' : D = rest ++ S0).
      { destruct HD as [Hl _]. unfold locate, start_of in Hl.
        cbn [pathlib.anchored pathlib.parts] in Hl.
        apply walk_plain in Hl; [|by rewrite elem_of_rev].
        rewrite rev_involutive in Hl. unfold s1 in Hl.
        by rewrite mkdir_parents_cwd in Hl. }
      assert (Hc : String.eqb c ".." = false).
      { destruct (String.eqb_spec c ".."); [set_solver|done]. }
      pose proof (locate_child _ c D s1 Hc HD) as Hl.
      cbn [pathlib.anchored pathlib.parts] in Hl.
      unfold mkdir_leaf. rewrite value_catch, os_mkdir_eq.
      unfold p. cbn [rev]. rewrite Hl.
      destruct (node_at (fs s1) (c :: D)) as [[d|]|] eqn:En.
      * exfalso. apply mkdir_parents_files in En. rewrite HD' in En.
        by apply (HNF (c :: rest) d).
      * cbn [value final]. unfold bind, Path_is_dir, get, ret. simpl.
        unfold is_dir_in, stat. rewrite Hl. by rewrite En.
      * done.
    + (* a regular file on the way *)
      rewrite rev_involutive in Hs. by destruct (HNF sfx d Hs).
Qed.

(** A regular file at the place of a path without [".."], in a tree, is
    what the path resolves to. *)
Lemma file_at_place st (a : bool) cs d :
  well_formed st -> ".." ∉ cs ->
  node_at (fs st) (rev cs ++ (if a then [] else cwd st)) = Some (File d) ->
  is_file_in st (pathlib.mkPath a cs) = true.
Proof.
  intros [Hwf Hcwd] Hp Hn. unfold is_file_in, stat, locate, start_of.
  cbn [pathlib.anchored pathlib.parts].
  destruct cs as [|c cs].
  - simpl in *. apply dir_at_true in Hcwd.
    destruct a; simpl in Hn; congruence.
  - rewrite walk_tree; [by rewrite Hn|done|done|done|].
    apply node_at_file in Hn as [_ Hn]. eauto.
Qed.

Lemma leading_elem (p : Path) (n : nat) :
  n <= length (pathlib.parts p) ->
  In (pathlib.mkPath (pathlib.anchored p) (List.firstn n (pathlib.parts p)))
     (leading p).
Proof.
  intros Hn. unfold leading. apply in_map_iff. exists n. split; [done|].
  apply in_seq. lia.
Qed.

(** [mkdir(parents=True, exist_ok=True)] returns where the directory can be
    made. *)
Lemma Path_mkdir_returns p st :
  can_make st p -> value (Path_mkdir p true true st) = Ok tt.
Proof.
  intros [Hd|(Hwf & Hp & Hnf)].
  { by rewrite Path_mkdir_existing. }
  unfold Path_mkdir. apply mkdir_parents_returns.
  - by rewrite elem_of_rev.
  - intros sfx d [pre Hs] Hn.
    assert (Hcs : pathlib.parts p = rev sfx ++ rev pre).
    { rewrite <- rev_app_distr, <- Hs. by rewrite rev_involutive. }
    assert (Hin : In (pathlib.mkPath (pathlib.anchored p) (rev sfx)) (leading p)).
    { replace (rev sfx) with (List.firstn (length (rev sfx)) (pathlib.parts p)).
      - apply leading_elem. rewrite Hcs, length_app. lia.
      - rewrite Hcs. by rewrite firstn_app, Nat.sub_diag, firstn_all, app_nil_r. }
    unfold no_file_on_the_way in Hnf. rewrite forallb_forall in Hnf.
    apply Hnf in Hin. apply negb_true_iff in Hin.
    rewrite (file_at_place st _ _ d) in Hin; [done|done| |].
    + intros Hx. apply Hp. rewrite Hcs. apply elem_of_app. by left.
    + by rewrite rev_involutive.
Qed.

(** With a [".."] in the path this is not enough: from a tree in which
    [logs_and_output/f] is a regular file and no leading part of
    [logs_and_output/x/../f] is one, as [logs_and_output/x] is missing,
    [mkdir] makes [logs_and_output/x], then meets the file and raises
    [FileExistsError]. *)
Example dotdot_group_meets_file :
  well_formed file_aside_process /\
  no_file_on_the_way file_aside_process (output_dir_of "x/../f") = true /\
  value (Path_mkdir (output_dir_of "x/../f") true true file_aside_process)
  = Raise (OSError EEXIST).
Proof.
  split; [|split; vm_compute; reflexivity].
  refine (@bool_decide_unpack _ (well_formed_dec _) _). vm_compute. exact I.
Qed.

(** What a path just below [p] resolves to is not changed by making [p]. *)
Lemma can_make_child_resolves p c st :
  can_make st p -> String.eqb c ".." = false ->
  resolves (final (Path_mkdir p true true st))
    (pathlib.mkPath (pathlib.anchored p) (pathlib.parts p ++ [c]))
  = resolves st (pathlib.mkPath (pathlib.anchored p) (pathlib.parts p ++ [c])).
Proof.
  intros [Hd|(Hwf & Hp & _)] Hc.
  { by rewrite Path_mkdir_existing. }
  set (q := pathlib.mkPath (pathlib.anchored p) (pathlib.parts p ++ [c])).
  assert (Hq : plain q).
  { unfold plain, q. cbn [pathlib.parts]. intros Hin.
    apply elem_of_app in Hin as [Hin|Hin]; [done|].
    apply list_elem_of_singleton in Hin. subst c. done. }
  destruct (Path_mkdir_aside p q st Hwf Hp Hq eq_refl) as [Hch _].
  { unfold q. cbn [pathlib.parts]. rewrite length_app. simpl. lia. }
  by apply mkdir_aside_instants in Hch as [_ Hres].
Qed.

(** ** A job name without a slash *)

Lemma split_slash_no_slash s : no_slash s = true -> split_slash s = [s].
Proof.
  unfold no_slash. induction s as [|c s IH]; simpl; [done|].
  intros H. apply andb_true_iff in H as [Hc Hs]. apply negb_true_iff in Hc.
  rewrite Hc. by rewrite (IH Hs).
Qed.

Lemma no_slash_app a b : no_slash (a +:+ b) = no_slash a && no_slash b.
Proof.
  unfold no_slash. induction a as [|c a IH]; simpl; [done|].
  rewrite IH. by rewrite andb_assoc.
Qed.

Lemma no_slash_start s : no_slash s = true -> starts_with_slash s = false.
Proof.
  unfold no_slash. destruct s as [|c s]; simpl; [done|].
  intros H. apply andb_true_iff in H as [Hc _]. by apply negb_true_iff in Hc.
Qed.

(** The log file of a job whose name has no slash lies in the job_group
    directory. *)
Lemma log_path_no_slash g n :
  no_slash n = true ->
  log_path_of g n =
  pathlib.mkPath (pathlib.anchored (output_dir_of g))
    (pathlib.parts (output_dir_of g) ++ [("log_" +:+ n) +:+ ".txt"]).
Proof.
  intros Hn. unfold log_path_of. rewrite <- string_app_assoc.
  assert (Hk : pathlib.kept (("log_" +:+ n) +:+ ".txt") = true) by apply kept_txt.
  assert (Hs : no_slash (("log_" +:+ n) +:+ ".txt") = true).
  { rewrite !no_slash_app, Hn. done. }
  revert Hk Hs. generalize (("log_" +:+ n) +:+ ".txt"). intros c Hk Hs.
  rewrite joinpath_relative.
  - unfold pathlib.parse. cbn [pathlib.parts].
    rewrite (split_slash_no_slash c Hs). simpl. by rewrite Hk.
  - unfold pathlib.parse. cbn [pathlib.anchored]. by apply no_slash_start.
Qed.

(** ** A fresh log *)

Lemma log_intro_fresh log x st k :
  locate log st = inr k -> node_at (fs st) k = None ->
  (f <- Path_open_append log ;; file_writelines f [x]) st =
  Run [(StCreate k, set_fs (insert k (File "")) st);
       (StWrite k, set_fs (insert k (File x)) st)]
      (set_fs (insert k (File x)) st) (Ok tt).
Proof.
  intros Hl Hn. pose proof (Path_open_append_eq log st) as Eo.
  rewrite Hl, Hn in Eo.
  rewrite (run_bind_ok _ _ _ _ _ _ Eo). cbv beta. cbn [file_writelines].
  pose proof (file_write_eq k x (set_fs (insert k (File "")) st)) as Ew.
  simpl in Ew. rewrite lookup_insert_eq in Ew. simpl "+:+" in Ew.
  rewrite set_fs_insert_insert in Ew.
  rewrite (run_bind_ok _ _ _ _ _ _ Ew). cbv beta. done.
Qed.

(** C8, as stated, fails: the name [a/b] is enabled and job [exp1/a/b] has
    no log file in the empty directory, yet construction by the main unit
    raises [FileNotFoundError]: the log file [log_a/b.txt] is to be opened
    in the directory [logs_and_output/exp1/log_a], which nothing makes. *)
Lemma fresh_construction_can_fail :
  name_enabled "a/b" = true /\
  exists_in fresh_process (log_path_of "exp1" "a/b") = false /\
  pathlib.str (log_path_of "exp1" "a/b") = "logs_and_output/exp1/log_a/b.txt" /\
  value (__init__ "exp1" "a/b" false true fresh_process) = Raise (OSError ENOENT).
Proof. repeat split; vm_compute; reflexivity. Qed.

(** C8, amended. With an enabled name without a slash and [is_main=true],
    where the job_group directory is there or can be made (the file system
    is a tree, [job_group] has no [".."] component and no leading part of
    the path of the directory is a regular file), the log path is within
    the limits of the system and nothing exists at it: construction
    returns, and afterwards the log file holds exactly the one banner line
    ['Starting job <group>/<name> at <YYYY-MM-DD HH:MM:SS>\n']. *)
Theorem fresh_run_writes_starting_banner
    (job_group job_name : string) (continue_job : bool) (st : process) :
  name_enabled job_name = true ->
  no_slash job_name = true ->
  accepted (log_path_of job_group job_name) = true ->
  can_make st (output_dir_of job_group) ->
  exists_in st (log_path_of job_group job_name) = false ->
  let r := __init__ job_group job_name continue_job true st in
  let ts := strftime (clock st) in
  (exists jo, value r = Ok jo) /\
  file_at (final r) (log_path_of job_group job_name)
  = Some ("Starting job " +:+ job_group +:+ "/" +:+ job_name +:+ " at "
          +:+ ts +:+ nl) /\
  timestamp_form ts = true.
Proof.
  intros Hen Hns _ Hmk Hex. cbv zeta.
  pose proof (Path_mkdir_returns _ _ Hmk) as Hv0.
  pose proof (fs_changed_Path_mkdir (output_dir_of job_group) st) as Hfs.
  apply fs_changed_same_process in Hfs as [_ (_ & _ & _ & _ & _ & Hclock)].
  pose proof (can_make_child_resolves _ (("log_" +:+ job_name) +:+ ".txt") st
                Hmk (txt_not_dotdot _)) as Hres.
  rewrite <- (log_path_no_slash job_group job_name Hns) in Hres.
  pose proof (Path_mkdir_ok _ _ Hv0) as Hd.
  apply is_dir_in_at_job_dir in Hd as [D HD].
  pose proof (locate_child _ (("log_" +:+ job_name) +:+ ".txt") D _
                (txt_not_dotdot _) HD) as Hl.
  rewrite <- (log_path_no_slash job_group job_name Hns) in Hl.
  rewrite (init_main_eq job_group job_name continue_job st Hen Hv0).
  set (s1 := final (Path_mkdir (output_dir_of job_group) true true st)) in *.
  set (log := log_path_of job_group job_name) in *.
  set (k := (("log_" +:+ job_name) +:+ ".txt") :: D) in *.
  assert (Hex1 : exists_in s1 log = false).
  { by rewrite resolves_exists, Hres, <- resolves_exists. }
  assert (Hn : node_at (fs s1) k = None).
  { unfold exists_in, stat in Hex1. rewrite Hl in Hex1.
    by destruct (node_at (fs s1) k). }
  cbv zeta. rewrite Hex1. cbn [andb].
  rewrite (log_intro_fresh log _ s1 k Hl Hn). cbn [value final].
  split; [eauto|]. split; [|apply timestamp_form_strftime].
  unfold file_at, stat.
  rewrite (locate_kept log s1 _ k); [|done| |exact Hl].
  - cbn [fs set_fs]. rewrite node_at_insert_eq by done. by rewrite Hclock.
  - cbn [fs set_fs]. apply dirs_kept_insert. unfold dir_at. by rewrite Hn.
Qed.

Lemma fresh_run_writes_starting_banner_witness :
  name_enabled "run1" = true /\
  no_slash "run1" = true /\
  accepted (log_path_of "exp1" "run1") = true /\
  can_make fresh_process (output_dir_of "exp1") /\
  is_dir_in fresh_process (output_dir_of "exp1") = false /\
  exists_in fresh_process (log_path_of "exp1" "run1") = false /\
  (exists jo, value (__init__ "exp1" "run1" false true fresh_process) = Ok jo) /\
  file_at (final (__init__ "exp1" "run1" false true fresh_process))
          (log_path_of "exp1" "run1")
  = Some ("Starting job exp1/run1 at 2024-03-07 09:05:00" +:+ nl).
Proof.
  assert (H1 : well_formed fresh_process).
  { refine (@bool_decide_unpack _ (well_formed_dec _) _). vm_compute. exact I. }
  assert (H2 : plain (output_dir_of "exp1")).
  { refine (@bool_decide_unpack _ (plain_dec _) _). vm_compute. exact I. }
  assert (H3 : no_file_on_the_way fresh_process (output_dir_of "exp1") = true)
    by (vm_compute; reflexivity).
  assert (H4 : can_make fresh_process (output_dir_of "exp1")).
  { right. split; [exact H1|]. split; [exact H2|exact H3]. }
  assert (H5 : accepted (log_path_of "exp1" "run1") = true)
    by (vm_compute; reflexivity).
  assert (H6 : is_dir_in fresh_process (output_dir_of "exp1") = false)
    by (vm_compute; reflexivity).
  split; [reflexivity|]. split; [reflexivity|]. split; [exact H5|].
  split; [exact H4|]. split; [exact H6|]. split; [reflexivity|].
  pose proof (fresh_run_writes_starting_banner "exp1" "run1" false
                fresh_process eq_refl eq_refl H5 H4 eq_refl) as (Hv & Hf & _).
  split; [exact Hv|exact Hf].
Defined.

(** ** When a save returns *)

(** C5. For every record in the supported serialization domain,
    [write_checkpoint] by the main unit of an enabled facade followed by
    [read_checkpoint] returns that record. The save returns, a first save
    included, where the job directory is there or can be made (the file
    system is a tree, the path of the job directory has no [".."]
    component and no leading part of it is a regular file), neither the
    checkpoint path nor the path of the temporary file is a directory, and
    the path of the temporary file is within the limits of the system; and
    whenever a save returns, the load that follows returns the record
    saved. *)
Theorem checkpoint_round_trip {R : Type} {P : Pickle R}
    (job_group job_name : string) (continue_job : bool)
    (st0 : process) (jo : JobOutput)
    (data : R) (hint : option string) (st : process) :
  name_enabled job_name = true ->
  value (__init__ job_group job_name continue_job true st0) = Ok jo ->
  supported data ->
  let w := write_checkpoint jo data st in
  (can_make st (job_dir_of job_group job_name) ->
   is_dir_in st (checkpoint_path_of job_group job_name) = false ->
   is_dir_in st (new_path_of job_group job_name) = false ->
   accepted (new_path_of job_group job_name) = true ->
   value w = Ok tt /\
   value (read_checkpoint jo hint (final w)) = Ok (Some data)) /\
  (value w = Ok tt ->
   value (read_checkpoint jo hint (final w)) = Ok (Some data)).
Proof.
  intros Hen Hv Hsup. apply init_enabled_value in Hv; [|done]. subst jo.
  cbv zeta.
  set (d := job_dir_of job_group job_name).
  set (lp := Some (log_path_of job_group job_name)).
  set (out := _LogHelper (log_path_of job_group job_name) (sys_stdout st0)).
  set (err := _LogHelper (log_path_of job_group job_name) (sys_stderr st0)).
  change (checkpoint_path_of job_group job_name) with (d </> "ckpt.pth").
  set (jo := mkJobOutput true true lp (Some d) (Some (d </> "ckpt.pth")) out err).
  assert (Hread : value (write_checkpoint jo data st) = Ok tt ->
            value (read_checkpoint jo hint (final (write_checkpoint jo data st)))
            = Ok (Some data)).
  { intros Hw.
    destruct (write_checkpoint_spec d lp out err data st) as [_ Hp].
    cbv zeta in Hp. fold jo in Hp.
    rewrite (read_checkpoint_eq jo (d </> "ckpt.pth")) by done. cbn [value].
    rewrite (Hp Hw). by rewrite Hsup. }
  split; [|exact Hread].
  intros Hmk Hck Hnew _.
  assert (Hw : value (write_checkpoint jo data st) = Ok tt); [|by split; auto].
  pose proof (write_checkpoint_outcome d lp out err data st) as Ho.
  cbv zeta in Ho. fold jo in Ho.
  rewrite (Path_mkdir_returns _ _ Hmk) in Ho. destruct Ho as (D & HD & Ho).
  pose proof (can_make_child_resolves d "ckpt.pth" st Hmk eq_refl) as Hr1.
  pose proof (can_make_child_resolves d "ckpt.pth.new" st Hmk eq_refl) as Hr2.
  set (s1 := final (Path_mkdir d true true st)) in *.
  rewrite checkpoint_path_parts in Hck.
  rewrite new_path_of_parts in Hnew. fold d in Hnew.
  rewrite resolves_is_dir, <- Hr1, <- resolves_is_dir in Hck.
  rewrite resolves_is_dir, <- Hr2, <- resolves_is_dir in Hnew.
  unfold is_dir_in in Hck, Hnew.
  rewrite (stat_child d "ckpt.pth" D s1 eq_refl HD) in Hck.
  rewrite (stat_child d "ckpt.pth.new" D s1 eq_refl HD) in Hnew.
  cbn [node_at] in Ho.
  destruct (fs s1 !! ("ckpt.pth.new" :: D)) as [[x|]|];
    destruct (fs s1 !! ("ckpt.pth" :: D)) as [[y|]|]; try done;
    by destruct Ho.
Qed.

Lemma checkpoint_round_trip_witness :
  let st := final (__init__ "exp1" "run1" false true fresh_process) in
  let P := byte_pickle in
  value (__init__ "exp1" "run1" false true fresh_process) = Ok sample_facade /\
  supported [1; 2; 3] /\
  exists_in st (job_dir_of "exp1" "run1") = false /\
  can_make st (job_dir_of "exp1" "run1") /\
  value (write_checkpoint sample_facade [1; 2; 3] st) = Ok tt /\
  value (read_checkpoint sample_facade (Some "cpu")
           (final (write_checkpoint sample_facade [1; 2; 3] st)))
  = Ok (Some [1; 2; 3]).
Proof.
  cbv zeta.
  set (st := final (__init__ "exp1" "run1" false true fresh_process)).
  assert (H1 : value (__init__ "exp1" "run1" false true fresh_process)
               = Ok sample_facade) by (vm_compute; reflexivity).
  assert (H2 : supported (H := byte_pickle) [1; 2; 3]) by reflexivity.
  assert (H3 : well_formed st).
  { refine (@bool_decide_unpack _ (well_formed_dec _) _). vm_compute. exact I. }
  assert (H4 : plain (job_dir_of "exp1" "run1")).
  { refine (@bool_decide_unpack _ (plain_dec _) _). vm_compute. exact I. }
  assert (H5 : no_file_on_the_way st (job_dir_of "exp1" "run1") = true)
    by (vm_compute; reflexivity).
  assert (H6 : can_make st (job_dir_of "exp1" "run1")).
  { right. split; [exact H3|]. split; [exact H4|exact H5]. }
  assert (H7 : is_dir_in st (checkpoint_path_of "exp1" "run1") = false)
    by (vm_compute; reflexivity).
  assert (H8 : is_dir_in st (new_path_of "exp1" "run1") = false)
    by (vm_compute; reflexivity).
  assert (H9 : accepted (new_path_of "exp1" "run1") = true)
    by (vm_compute; reflexivity).
  assert (H0 : exists_in st (job_dir_of "exp1" "run1") = false)
    by (vm_compute; reflexivity).
  split; [exact H1|]. split; [exact H2|]. split; [exact H0|]. split; [exact H6|].
  exact (proj1 (checkpoint_round_trip (P := byte_pickle) "exp1" "run1" false
                  fresh_process sample_facade [1; 2; 3] (Some "cpu") st
                  eq_refl H1 H2) H6 H7 H8 H9).
Defined.

(** ** A save that is interrupted *)

Lemma Forall_bool {A} (f : A -> bool) (b : bool) (l : list A) :
  forallb (fun x => Bool.eqb (f x) b) l = true -> Forall (fun x => f x = b) l.
Proof.
  intros H. apply Forall_forall. intros x Hx.
  rewrite forallb_forall in H. apply list_elem_of_In, H in Hx.
  by apply Bool.eqb_prop.
Qed.

Lemma Exists_bool {A} (f : A -> bool) (l : list A) :
  existsb f l = true -> Exists (fun x => f x = true) l.
Proof.
  intros H. apply existsb_exists in H as (x & Hx & Hf).
  apply Exists_exists. exists x. split; [by apply list_elem_of_In|done].
Qed.

Lemma last_cons {A} (x : A) (l : list A) (d : A) :
  List.last (x :: l) d = List.last l x.
Proof.
  revert x d. induction l as [|y l IH]; intros x d; [done|].
  change (List.last (x :: y :: l) d) with (List.last (y :: l) d).
  by rewrite !IH.
Qed.

Lemma chain_last T st l fin :
  chain T st l fin -> fin = List.last (List.map snd l) st.
Proof.
  induction 1 as [|st x s rest fin Hx _ IH]; [done|].
  cbn [List.map snd]. by rewrite last_cons.
Qed.

(** Before the rename, the checkpoint path resolves to what it did until
    the old checkpoint is unlinked, and to nothing from then on. *)
Lemma ckpt_chain_before_rename ckpt bytes st l fin :
  chain (ckpt_step ckpt bytes) st l fin ->
  Forall (fun x => is_rename (fst x) = false) l ->
  (Forall (fun x => is_unlink (fst x) = false) l ->
   resolves fin ckpt = resolves st ckpt) /\
  (Exists (fun x => is_unlink (fst x) = true) l -> resolves fin ckpt = None).
Proof.
  induction 1 as [|st x s rest fin Hx _ IH]; intros Hnr.
  { split; [done|]. intros H. inversion H. }
  inversion Hnr as [|? ? Hx1 Hrest]; subst.
  destruct (IH Hrest) as [IH1 IH2]. cbn [fst] in *.
  assert (Hdec : Forall (fun x => is_unlink (fst x) = false) rest \/
                 Exists (fun x => is_unlink (fst x) = true) rest).
  { clear. induction rest as [|y rest [IH|IH]].
    - left. constructor.
    - destruct (is_unlink (fst y)) eqn:E.
      + right. by constructor.
      + left. by constructor.
    - right. by constructor 2. }
  destruct Hx as [(_ & Hu & E)|[(Hu & E)|(Hr & _)]]; [| |congruence].
  - split.
    + intros HF. inversion HF; subst. rewrite IH1 by done. exact E.
    + intros HE. inversion HE; subst; [cbn [fst] in *; congruence|]. by apply IH2.
  - split.
    + intros HF. inversion HF; subst. cbn [fst] in *. congruence.
    + intros _. destruct Hdec as [HF|HE]; [|by apply IH2].
      rewrite IH1 by done. exact E.
Qed.

(** C3, as stated, fails: when the main unit of job [exp1/run1] saves the
    record [[4; 5]] over the saved record [[1; 2; 3]] and is interrupted
    after its fourth step, the unlink of the old checkpoint, no rename has
    taken place; a load before the save returns [[1; 2; 3]], a load after
    the interruption returns nothing, although a record existed. *)
Lemma interrupted_save_loses_previous :
  let P := byte_pickle in
  let w := write_checkpoint sample_facade [4; 5] saved_process in
  let before := firstn 4 (steps w) in
  List.map fst (steps w)
  = [StCreate ["ckpt.pth.new"; "run1"; "exp1"; "logs_and_output"];
     StWrite ["ckpt.pth.new"; "run1"; "exp1"; "logs_and_output"];
     StWrite ["ckpt.pth.new"; "run1"; "exp1"; "logs_and_output"];
     StUnlink ["ckpt.pth"; "run1"; "exp1"; "logs_and_output"];
     StRename ["ckpt.pth.new"; "run1"; "exp1"; "logs_and_output"]
              ["ckpt.pth"; "run1"; "exp1"; "logs_and_output"]] /\
  Forall (fun x => is_rename (fst x) = false) before /\
  value (read_checkpoint sample_facade None saved_process) = Ok (Some [1; 2; 3]) /\
  value (read_checkpoint sample_facade None
           (List.last (List.map snd before) saved_process)) = Ok None.
Proof.
  cbv zeta. split; [vm_compute; reflexivity|].
  split.
  { apply (Forall_bool (fun x => is_rename (fst x)) false).
    vm_compute. reflexivity. }
  split; vm_compute; reflexivity.
Qed.

(** C3, amended. A save by the main unit of an enabled facade, from a
    state whose file system is a tree and with a checkpoint path without
    [".."], where a load before the save returns [prev] (the previously
    saved record, or nothing), interrupted before the rename step: as long
    as the old checkpoint is not unlinked, a load after the interruption
    returns [prev]; once it is unlinked, a load returns nothing, so the
    previous record is lost until the rename. A load never fails on a
    malformed or partly written record. *)
Theorem interrupted_save_reads_previous_or_nothing {R : Type} {P : Pickle R}
    (job_group job_name : string) (continue_job : bool)
    (st0 : process) (jo : JobOutput) (data : R) (hint : option string)
    (st : process) (prev : option R) :
  name_enabled job_name = true ->
  value (__init__ job_group job_name continue_job true st0) = Ok jo ->
  well_formed st ->
  plain (checkpoint_path_of job_group job_name) ->
  value (read_checkpoint jo hint st) = Ok prev ->
  let w := write_checkpoint jo data st in
  forall before rest,
    steps w = before ++ rest ->
    Forall (fun x => is_rename (fst x) = false) before ->
    let s := List.last (List.map snd before) st in
    (Forall (fun x => is_unlink (fst x) = false) before ->
     value (read_checkpoint jo hint s) = Ok prev) /\
    (Exists (fun x => is_unlink (fst x) = true) before ->
     value (read_checkpoint jo hint s) = Ok None).
Proof.
  intros Hen Hv Hwf Hplain Hprev. apply init_enabled_value in Hv; [|done]. subst jo.
  cbv zeta. unfold checkpoint_path_of in *.
  set (ckpt := job_dir_of job_group job_name </> "ckpt.pth") in *.
  set (jo := mkJobOutput _ _ _ _ _ _ _) in *.
  intros before rest Hsteps Hnr.
  pose proof (write_checkpoint_runs (job_dir_of job_group job_name)
    (Some (log_path_of job_group job_name))
    (_LogHelper (log_path_of job_group job_name) (sys_stdout st0))
    (_LogHelper (log_path_of job_group job_name) (sys_stderr st0))
    data st Hwf Hplain) as Hc.
  fold ckpt jo in Hc. unfold runs_by in Hc. rewrite Hsteps in Hc.
  apply chain_prefix in Hc as [mid Hc].
  pose proof (chain_last _ _ _ _ Hc) as Hmid. rewrite <- Hmid.
  destruct (ckpt_chain_before_rename _ _ _ _ _ Hc Hnr) as [H1 H2].
  rewrite !(read_checkpoint_eq jo ckpt) in * by done. cbn [value] in *.
  rewrite !resolves_file_at in *.
  split.
  - intros HF. by rewrite (H1 HF).
  - intros HE. by rewrite (H2 HE).
Qed.

Lemma interrupted_save_reads_previous_or_nothing_witness :
  let P := byte_pickle in
  let w := write_checkpoint sample_facade [4; 5] saved_process in
  well_formed saved_process /\
  plain (checkpoint_path_of "exp1" "run1") /\
  value (read_checkpoint sample_facade None saved_process) = Ok (Some [1; 2; 3]) /\
  Forall (fun x => is_rename (fst x) = false) (firstn 4 (steps w)) /\
  Forall (fun x => is_unlink (fst x) = false) (firstn 3 (steps w)) /\
  Exists (fun x => is_unlink (fst x) = true) (firstn 4 (steps w)) /\
  value (read_checkpoint sample_facade None
           (List.last (List.map snd (firstn 3 (steps w))) saved_process))
  = Ok (Some [1; 2; 3]) /\
  value (read_checkpoint sample_facade None
           (List.last (List.map snd (firstn 4 (steps w))) saved_process))
  = Ok None.
Proof.
  cbv zeta.
  set (w := write_checkpoint (H := byte_pickle) sample_facade [4; 5] saved_process).
  assert (H1 : well_formed saved_process).
  { refine (@bool_decide_unpack _ (well_formed_dec _) _). vm_compute. exact I. }
  assert (H2 : plain (checkpoint_path_of "exp1" "run1")).
  { refine (@bool_decide_unpack _ (plain_dec _) _). vm_compute. exact I. }
  assert (H3 : value (__init__ "exp1" "run1" false true fresh_process)
               = Ok sample_facade) by (vm_compute; reflexivity).
  assert (H4 : value (read_checkpoint (H := byte_pickle) sample_facade None
                        saved_process) = Ok (Some [1; 2; 3]))
    by (vm_compute; reflexivity).
  assert (H5 : Forall (fun x => is_rename (fst x) = false) (firstn 4 (steps w))).
  { apply (Forall_bool (fun x => is_rename (fst x)) false).
    vm_compute. reflexivity. }
  assert (H6 : Forall (fun x => is_rename (fst x) = false) (firstn 3 (steps w))).
  { apply (Forall_bool (fun x => is_rename (fst x)) false).
    vm_compute. reflexivity. }
  assert (H7 : Forall (fun x => is_unlink (fst x) = false) (firstn 3 (steps w))).
  { apply (Forall_bool (fun x => is_unlink (fst x)) false).
    vm_compute. reflexivity. }
  assert (H8 : Exists (fun x => is_unlink (fst x) = true) (firstn 4 (steps w))).
  { apply (Exists_bool (fun x => is_unlink (fst x))). vm_compute. reflexivity. }
  split; [exact H1|]. split; [exact H2|]. split; [exact H4|]. split; [exact H5|].
  split; [exact H7|]. split; [exact H8|].
  split.
  - exact (proj1 (interrupted_save_reads_previous_or_nothing (P := byte_pickle)
             "exp1" "run1" false fresh_process sample_facade [4; 5] None
             saved_process (Some [1; 2; 3]) eq_refl H3 H1 H2 H4
             _ _ (eq_sym (firstn_skipn 3 _)) H6) H7).
  - exact (proj2 (interrupted_save_reads_previous_or_nothing (P := byte_pickle)
             "exp1" "run1" false fresh_process sample_facade [4; 5] None
             saved_process (Some [1; 2; 3]) eq_refl H3 H1 H2 H4
             _ _ (eq_sym (firstn_skipn 4 _)) H5) H8).
Defined.

(** With a [".."] in the checkpoint path the load can change before the
    unlink: for the job named [a/../b], where [logs_and_output/exp1/a] is
    missing and job [exp1/b] has saved the record [[9]], a load before the
    save returns nothing; the first step of the save makes the directory
    [a], and a load then returns the record of the other job. *)
Example dotdot_job_shows_other_record :
  let P := byte_pickle in
  let st := final (__init__ "exp1" "a/../b" false true other_job_process) in
  let w := write_checkpoint dotdot_facade [4; 5] st in
  value (__init__ "exp1" "a/../b" false true other_job_process) = Ok dotdot_facade /\
  well_formed st /\
  value (read_checkpoint dotdot_facade None st) = Ok None /\
  List.map fst (firstn 1 (steps w))
  = [StMkdir ["a"; "exp1"; "logs_and_output"]] /\
  value (read_checkpoint dotdot_facade None
           (List.last (List.map snd (firstn 1 (steps w))) st)) = Ok (Some [9]).
Proof.
  cbv zeta. split; [vm_compute; reflexivity|]. split.
  { refine (@bool_decide_unpack _ (well_formed_dec _) _). vm_compute. exact I. }
  repeat split; vm_compute; reflexivity.
Qed.
